(** * Entry handlers of the laundry back end (src/models/StaffDetails.js)

    A shallow embedding of the request handlers exported by the file:
    [createNewentry], [getAllEntry], [updateEntry], [getEntryById],
    [deleteEntry], [getPaginatedEntries], [searchEntry],
    [getRecentOrdersCount], [getPendingDeliveries], [toggleVisibility]
    and [getEntryStats], and of the Staff schema that the file declares.

    - JSON values are the inductive [JValue]; an object is an association
      list in insertion order, as a JS object is.
    - The document store is the record [Store]; a handler is a function
      from a store to a response and a store.  An exception that escapes a
      store call is the [Throw] outcome of the monad [M]; the writes done
      before it stay in the store, as they do in the database.
    - A number is an integer that is a double: the arithmetic of the
      handlers rounds as the engine does ([JS.roundDouble]).
    - The clock of the server is a [Zone]; daylight saving time is a
      zone whose offset changes.
    - What the file imports but does not define (schema validators, the
      statistics middleware, ObjectId casting) is a [Variable] of the
      section [Handlers], and so is what the store does with a regular
      expression outside the part of the pattern language that is
      written out here. *)

From Stdlib Require Import ZArith List String Ascii Bool Lia Permutation.
From Stdlib Require Import Sorted.
From Stdlib Require Import DecimalString DecimalZ.
Import ListNotations.

Local Open Scope string_scope.
Local Open Scope Z_scope.
Local Set Warnings "-register-all".

(** ** JavaScript primitives *)

Module JS.

(** A number of the program is a double.  The integers among the
    doubles are those of at most 53 significant bits: every integer up
    to 2^53 in size, and beyond that multiples of a power of two.
    [roundDouble x] is the double nearest to the integer [x], a tie
    going to the even significand.  The end of the exponent range, near
    1.8e308, is not modelled: nothing here becomes [Infinity]. *)
Definition roundDouble (x : Z) : Z :=
  let a := Z.abs x in
  if a <? 2 ^ 53 then x
  else
    let ulp := 2 ^ (Z.log2 a - 52) in
    let q := a / ulp in
    let r := a mod ulp in
    let q' := if 2 * r <? ulp then q
              else if ulp <? 2 * r then q + 1
              else if Z.even q then q else q + 1 in
    Z.sgn x * (q' * ulp).

(** [a + b], [a - b] and [a * b] on doubles that are integers. *)
Definition add (a b : Z) : Z := roundDouble (a + b).

Definition sub (a b : Z) : Z := roundDouble (a - b).

Definition mul (a b : Z) : Z := roundDouble (a * b).

(** The decimal digits of an integer that is not negative. *)
Definition digits (a : Z) : string := NilEmpty.string_of_uint (N.to_uint (Z.to_N a)).

(** The shortest decimal that reads back as the double [a], [a] above
    2^53 and [n] the number of its digits: [(s, k, n')] with [k] digits
    [s] for [s * 10^(n' - k)], [k] as small as can be and [s] as close
    to [a] as can be. *)
Fixpoint shortest (fuel : nat) (k a n : Z) : Z * Z * Z :=
  match fuel with
  | O => (a, n, n)
  | S fuel' =>
      let m := 10 ^ (n - k) in
      let lo := a / m in
      let hi := lo + 1 in
      let okLo := roundDouble (lo * m) =? a in
      let okHi := roundDouble (hi * m) =? a in
      let up := if hi =? 10 ^ k then (1, 1, n + 1) else (hi, k, n) in
      if okLo && okHi
      then if a - lo * m <? hi * m - a then (lo, k, n)
           else if hi * m - a <? a - lo * m then up
           else if Z.even lo then (lo, k, n) else up
      else if okLo then (lo, k, n)
      else if okHi then up
      else shortest fuel' (k + 1) a n
  end.

Fixpoint zeros (n : nat) : string :=
  match n with
  | O => ""
  | S n' => String "0" (zeros n')
  end.

(** [String(x)] for a double [x] that is an integer.  Up to 2^53 these
    are the digits of [x]; above, the digits of the shortest decimal
    that reads back as [x], filled with zeros below 10^21 and in
    exponent notation from there on. *)
Definition ToString (x : Z) : string :=
  let a := Z.abs x in
  let sign := if x <? 0 then "-" else "" in
  if a <=? 2 ^ 53 then NilEmpty.string_of_int (Z.to_int x)
  else
    let '(s, k, n) := shortest 17 1 a (Z.of_nat (String.length (digits a))) in
    if n <=? 21 then sign ++ digits s ++ zeros (Z.to_nat (n - k))
    else
      match digits s with
      | String d EmptyString => sign ++ String d "e+" ++ digits (n - 1)
      | String d rest =>
          sign ++ String d (String "." rest) ++ "e+" ++ digits (n - 1)
      | EmptyString => sign
      end.

(** The filler of [padStart]: [n] characters taken cyclically from
    [padString], starting inside it at [cur]. *)
Fixpoint fillTo (padString cur : string) (n : nat) : string :=
  match n with
  | O => ""
  | S n' =>
      match cur with
      | String c cur' => String c (fillTo padString cur' n')
      | EmptyString =>
          match padString with
          | String c rest => String c (fillTo padString rest n')
          | EmptyString => ""
          end
      end
  end.

(** [s.padStart(targetLength, padString)]. *)
Definition padStart (s : string) (targetLength : nat) (padString : string)
  : string :=
  if (targetLength <=? String.length s)%nat then s
  else if (padString =? "")%string then s
  else fillTo padString padString (targetLength - String.length s) ++ s.

(** Text is held as its UTF-8 bytes.  The white space of one byte:
    TAB, LF, VT, FF, CR and SP. *)
Definition isWhiteSpace (c : ascii) : bool :=
  let n := nat_of_ascii c in
  ((9 <=? n) && (n <=? 13) || (n =? 32))%nat.

Definition code (c : ascii) : N := N_of_ascii c.

(** U+00A0, the white space of two bytes. *)
Definition narrow (a b : ascii) : bool :=
  ((code a =? 194) && (code b =? 160))%N.

(** The white space of three bytes: U+1680, U+2000 to U+200A, U+2028,
    U+2029, U+202F, U+205F, U+3000 and U+FEFF. *)
Definition wide (a b c : ascii) : bool :=
  let x := code a in
  let y := code b in
  let z := code c in
  ((x =? 225) && (y =? 154) && (z =? 128)
   || (x =? 226) && (y =? 128)
      && ((128 <=? z) && (z <=? 138) || (z =? 168) || (z =? 169)
          || (z =? 175))
   || (x =? 226) && (y =? 129) && (z =? 159)
   || (x =? 227) && (y =? 128) && (z =? 128)
   || (x =? 239) && (y =? 187) && (z =? 191))%N.

(** The number of bytes of the white space character that [s] starts
    with, [0] when it starts with none: white space as
    [String.prototype.trim], [Number] and [parseInt] see it. *)
Definition whiteSpaceLength (s : string) : nat :=
  match s with
  | String a r =>
      if isWhiteSpace a then 1%nat
      else
        match r with
        | String b r2 =>
            if narrow a b then 2%nat
            else
              match r2 with
              | String c _ => if wide a b c then 3%nat else 0%nat
              | EmptyString => 0%nat
              end
        | EmptyString => 0%nat
        end
  | EmptyString => 0%nat
  end.

(** Drops [skip] bytes, then leading white space. *)
Fixpoint dropSpace (skip : nat) (s : string) : string :=
  match s with
  | EmptyString => ""
  | String _ r =>
      match skip with
      | S k => dropSpace k r
      | O =>
          match whiteSpaceLength s with
          | O => s
          | S k => dropSpace k r
          end
      end
  end.

Definition trimStart (s : string) : string := dropSpace 0 s.

(** Drops trailing white space: what is left when the text from a
    position on is white space only. *)
Fixpoint trimEnd (s : string) : string :=
  match s with
  | String c s' =>
      if (trimStart s =? "")%string then "" else String c (trimEnd s')
  | EmptyString => ""
  end.

Definition trim (s : string) : string := trimEnd (trimStart s).

Definition isDigit (c : ascii) : bool :=
  let n := nat_of_ascii c in ((48 <=? n) && (n <=? 57))%nat.

Definition digitValue (c : ascii) : Z := Z.of_nat (nat_of_ascii c) - 48.

(** Value of a hexadecimal digit, when [c] is one. *)
Definition hexValue (c : ascii) : option Z :=
  let n := nat_of_ascii c in
  if ((48 <=? n) && (n <=? 57))%nat then Some (Z.of_nat n - 48)
  else if ((65 <=? n) && (n <=? 70))%nat then Some (Z.of_nat n - 55)
  else if ((97 <=? n) && (n <=? 102))%nat then Some (Z.of_nat n - 87)
  else None.

(** ASCII lower case, the folding of the [i] flag of a regular
    expression on ASCII text. *)
Definition toLower (c : ascii) : ascii :=
  let n := nat_of_ascii c in
  if ((65 <=? n) && (n <=? 90))%nat then ascii_of_nat (n + 32) else c.

Definition eqbCI (a b : ascii) : bool := Ascii.eqb (toLower a) (toLower b).

(** The decimal value of a digit, when [c] is one. *)
Definition decValue (c : ascii) : option Z :=
  if isDigit c then Some (digitValue c) else None.

(** Reads the longest run of digits in the given radix; [None] when
    there is none ([seen] tells whether a digit was read). *)
Fixpoint readDigits (digit : ascii -> option Z) (radix : Z) (s : string)
  (acc : Z) (seen : bool) : option Z :=
  match s with
  | String c s' =>
      match digit c with
      | Some d => readDigits digit radix s' (acc * radix + d) true
      | None => if seen then Some acc else None
      end
  | EmptyString => if seen then Some acc else None
  end.

(** [parseInt(input)] with no radix: the double nearest to the integer
    that was read; [None] is [NaN]. *)
Definition parseInt (input : string) : option Z :=
  let s := trimStart input in
  let '(sign, s1) :=
    match s with
    | String "-"%char r => (-1, r)
    | String "+"%char r => (1, r)
    | _ => (1, s)
    end in
  let magnitude :=
    match s1 with
    | String "0"%char (String x r) =>
        if (Ascii.eqb x "x"%char || Ascii.eqb x "X"%char)%bool
        then readDigits hexValue 16 r 0 false
        else readDigits decValue 10 s1 0 false
    | _ => readDigits decValue 10 s1 0 false
    end in
  option_map (fun v => roundDouble (sign * v)) magnitude.

(** [parseInt] of a query parameter that may be missing
    ([parseInt(undefined)] is [NaN]). *)
Definition parseIntParam (p : option string) : option Z :=
  match p with
  | Some v => parseInt v
  | None => None
  end.

(** [n || d] for the result of [parseInt]: [NaN] and [0] are falsy. *)
Definition orDefault (n : option Z) (d : Z) : Z :=
  match n with
  | Some v => if v =? 0 then d else v
  | None => d
  end.

Fixpoint dropWhile (p : ascii -> bool) (s : string) : string :=
  match s with
  | String c s' => if p c then dropWhile p s' else s
  | EmptyString => ""
  end.

Fixpoint allChars (p : ascii -> bool) (s : string) : bool :=
  match s with
  | String c s' => p c && allChars p s'
  | EmptyString => true
  end.

(** Number of leading characters of [s] that satisfy [p]. *)
Definition countLeading (p : ascii -> bool) (s : string) : nat :=
  (String.length s - String.length (dropWhile p s))%nat.

Definition stripSign (s : string) : string :=
  match s with
  | String "-"%char r => r
  | String "+"%char r => r
  | _ => s
  end.

(** Nothing, or an exponent part that ends the literal. *)
Definition exponentOrEnd (s : string) : bool :=
  match s with
  | EmptyString => true
  | String c r =>
      (Ascii.eqb c "e"%char || Ascii.eqb c "E"%char)
      && (0 <? countLeading isDigit (stripSign r))%nat
      && (dropWhile isDigit (stripSign r) =? "")%string
  end.

(** [StrUnsignedDecimalLiteral]. *)
Definition unsignedDecimal (s : string) : bool :=
  if (s =? "Infinity")%string then true
  else
    let n1 := countLeading isDigit s in
    match dropWhile isDigit s with
    | String "."%char r2 =>
        (0 <? n1 + countLeading isDigit r2)%nat
        && exponentOrEnd (dropWhile isDigit r2)
    | r1 => (0 <? n1)%nat && exponentOrEnd r1
    end.

Definition isOctal (c : ascii) : bool :=
  let n := nat_of_ascii c in ((48 <=? n) && (n <=? 55))%nat.

Definition isBinary (c : ascii) : bool :=
  let n := nat_of_ascii c in ((48 <=? n) && (n <=? 49))%nat.

Definition isHex (c : ascii) : bool :=
  match hexValue c with Some _ => true | None => false end.

(** [0x], [0o] and [0b] literals. *)
Definition nonDecimal (s : string) : bool :=
  match s with
  | String "0"%char (String x r) =>
      let nonEmpty := negb (r =? "")%string in
      if (Ascii.eqb x "x"%char || Ascii.eqb x "X"%char)%bool
      then nonEmpty && allChars isHex r
      else if (Ascii.eqb x "o"%char || Ascii.eqb x "O"%char)%bool
      then nonEmpty && allChars isOctal r
      else if (Ascii.eqb x "b"%char || Ascii.eqb x "B"%char)%bool
      then nonEmpty && allChars isBinary r
      else false
  | _ => false
  end.

(** [isNaN(q)] for a string [q]: [Number(q)] is [NaN] unless the trimmed
    text is empty or a numeric literal. *)
Definition isNaN (q : string) : bool :=
  let t := trim q in
  negb ((t =? "")%string || nonDecimal t || unsignedDecimal (stripSign t)).

End JS.

Arguments JS.roundDouble : simpl never.
Arguments JS.add : simpl never.
Arguments JS.sub : simpl never.
Arguments JS.mul : simpl never.

(** ** JSON values *)

Inductive JValue : Type :=
| JUndefined
| JNull
| JBool (b : bool)
| JNum (n : Z)
| JStr (s : string)
| JDate (t : Z)
| JArr (items : list JValue)
| JObj (fields : list (string * JValue)).

(** A number is an integer here: the handlers only test a number for
    zero, add one to the receipt counter and add amounts.  A date is its
    epoch time in milliseconds; in a request body it stands for the ISO
    string that the schema casts to a [Date]. *)

(** [ToBoolean]. *)
Definition truthy (v : JValue) : bool :=
  match v with
  | JUndefined | JNull => false
  | JBool b => b
  | JNum n => negb (n =? 0)
  | JStr s => negb (s =? "")%string
  | JDate _ | JArr _ | JObj _ => true
  end.

(** [v !== 0]. *)
Definition notStrictZero (v : JValue) : bool :=
  match v with
  | JNum 0 => false
  | _ => true
  end.

(** [a || b]. *)
Definition orElse (a b : JValue) : JValue := if truthy a then a else b.

(** Own-property lookup in an association list: the first binding. *)
Fixpoint lookupField (k : string) (fs : list (string * JValue)) : JValue :=
  match fs with
  | [] => JUndefined
  | (k', v) :: fs' => if (k' =? k)%string then v else lookupField k fs'
  end.

(** [o[k] = v] on the fields of an object: an existing key keeps its
    place, a new one goes last. *)
Fixpoint assignField (k : string) (v : JValue) (fs : list (string * JValue))
  : list (string * JValue) :=
  match fs with
  | [] => [(k, v)]
  | (k', v') :: fs' =>
      if (k' =? k)%string then (k, v) :: fs'
      else (k', v') :: assignField k v fs'
  end.

(** [o.k] where [o] is known not to be [undefined] or [null]; a property
    of a primitive or of an array that is not an index is [undefined]. *)
Definition getField (k : string) (o : JValue) : JValue :=
  match o with
  | JObj fs => lookupField k fs
  | _ => JUndefined
  end.

(** [o.k = v]: on an object it assigns; on anything else the assignment
    is not part of the JSON value (sloppy mode drops it on a primitive,
    on an array it is a non-index property). *)
Definition setField (k : string) (v : JValue) (o : JValue) : JValue :=
  match o with
  | JObj fs => JObj (assignField k v fs)
  | _ => o
  end.

(** [v === "text"]. *)
Definition strictEqString (v : JValue) (text : string) : bool :=
  match v with
  | JStr s => (s =? text)%string
  | _ => false
  end.

Definition isNullish (v : JValue) : bool :=
  match v with
  | JUndefined | JNull => true
  | _ => false
  end.

(** ** Paths into a document *)

(** [key.split(".")]: the segments of a dotted path. *)
Fixpoint splitDots (s : string) : list string :=
  match s with
  | EmptyString => [""]
  | String c s' =>
      if Ascii.eqb c "."%char then "" :: splitDots s'
      else match splitDots s' with
           | seg :: segs => String c seg :: segs
           | [] => [String c ""]
           end
  end.

Fixpoint getPath (p : list string) (d : JValue) : JValue :=
  match p with
  | [] => d
  | k :: p' => getPath p' (getField k d)
  end.

(** [$set] of one path.  A missing segment is created as an embedded
    document; a segment that would have to be created inside a scalar,
    [null] or an array is refused by the store ([None]; positions of an
    array are not addressed in this model). *)
Fixpoint setPath (p : list string) (v : JValue) (d : JValue)
  : option JValue :=
  match p with
  | [] => Some v
  | k :: p' =>
      match d with
      | JObj fs =>
          match setPath p' v (lookupField k fs) with
          | Some x => Some (JObj (assignField k x fs))
          | None => None
          end
      | JUndefined =>
          match setPath p' v JUndefined with
          | Some x => Some (JObj [(k, x)])
          | None => None
          end
      | _ => None
      end
  end.

Fixpoint isPrefix (p q : list string) : bool :=
  match p, q with
  | [], _ => true
  | _ :: _, [] => false
  | a :: p', b :: q' => (a =? b)%string && isPrefix p' q'
  end.

(** Two paths of one update conflict when one is a prefix of the other
    (the store answers "Updating the path ... would create a conflict"). *)
Definition pathsConflict (p q : list string) : bool :=
  isPrefix p q || isPrefix q p.

Fixpoint anyConflict (ps : list (list string)) : bool :=
  match ps with
  | [] => false
  | p :: ps' => existsb (pathsConflict p) ps' || anyConflict ps'
  end.

(** The [$set] of every field of an update document, in order. *)
Fixpoint applySet (fs : list (string * JValue)) (d : JValue)
  : option JValue :=
  match fs with
  | [] => Some d
  | (k, v) :: fs' =>
      match setPath (splitDots k) v d with
      | Some d' => applySet fs' d'
      | None => None
      end
  end.

(** ** Collections *)

(** A document has the id [id] ([_id] is stored as a string here). *)
Definition hasId (id : string) (d : JValue) : bool :=
  match getField "_id" d with
  | JStr s => (s =? id)%string
  | _ => false
  end.

(** A document has the [_id] [id]. *)
Definition sameId (id : JValue) : JValue -> bool :=
  match id with
  | JStr i => hasId i
  | _ => fun _ => false
  end.

(** [findOne(filter)]: the first document in natural order. *)
Fixpoint findFirst (p : JValue -> bool) (l : list JValue) : option JValue :=
  match l with
  | [] => None
  | d :: l' => if p d then Some d else findFirst p l'
  end.

(** The write of one document: the first match is replaced. *)
Fixpoint replaceFirst (p : JValue -> bool) (x : JValue) (l : list JValue)
  : list JValue :=
  match l with
  | [] => []
  | d :: l' => if p d then x :: l' else d :: replaceFirst p x l'
  end.

Fixpoint removeFirst (p : JValue -> bool) (l : list JValue) : list JValue :=
  match l with
  | [] => []
  | d :: l' => if p d then l' else d :: removeFirst p l'
  end.

(** The stored [createdAt], when it is a date. *)
Definition createdAtOf (d : JValue) : option Z :=
  match getField "createdAt" d with
  | JDate t => Some t
  | _ => None
  end.

(** [a] goes before [b] under [sort({ createdAt: -1 })]; a document with
    no date sorts after every dated one. *)
Definition newerOrSame (a b : JValue) : bool :=
  match createdAtOf a, createdAtOf b with
  | Some x, Some y => y <=? x
  | Some _, None => true
  | None, Some _ => false
  | None, None => true
  end.

Fixpoint insertDesc (d : JValue) (l : list JValue) : list JValue :=
  match l with
  | [] => [d]
  | e :: l' => if newerOrSame d e then d :: l else e :: insertDesc d l'
  end.

(** [sort({ createdAt: -1 })], as a stable insertion sort (the store
    leaves the order of equal dates open). *)
Fixpoint sortDesc (l : list JValue) : list JValue :=
  match l with
  | [] => []
  | d :: l' => insertDesc d (sortDesc l')
  end.

(** ** The store and the handler monad *)

Record Store : Type := mkStore {
  customers : list JValue;          (* Customer collection *)
  receiptNumbers : list Z;          (* ReceiptNumber: currentReceiptNumber of each record *)
  entries : list JValue;            (* Entry collection, natural order *)
  entryStat : JValue;               (* EntryStat singleton *)
  idSeed : Z                        (* source of fresh ObjectIds *)
}.

Definition withReceiptNumbers (r : list Z) (s : Store) : Store :=
  mkStore (customers s) r (entries s) (entryStat s) (idSeed s).

Definition withEntries (e : list JValue) (s : Store) : Store :=
  mkStore (customers s) (receiptNumbers s) e (entryStat s) (idSeed s).

Definition withEntryStat (st : JValue) (s : Store) : Store :=
  mkStore (customers s) (receiptNumbers s) (entries s) st (idSeed s).

Definition withIdSeed (n : Z) (s : Store) : Store :=
  mkStore (customers s) (receiptNumbers s) (entries s) (entryStat s) n.

Inductive Outcome (A : Type) : Type :=
| Return (a : A)
| Throw (message : string).

Arguments Return {A} a.
Arguments Throw {A} message.

(** A computation on the store that returns or throws; the store it
    leaves is kept in both cases. *)
Definition M (A : Type) : Type := Store -> Outcome A * Store.

Definition ret {A} (a : A) : M A := fun s => (Return a, s).

Definition throw {A} (message : string) : M A := fun s => (Throw message, s).

Definition bind {A B} (c : M A) (k : A -> M B) : M B :=
  fun s =>
    match c s with
    | (Return a, s') => k a s'
    | (Throw m, s') => (Throw m, s')
    end.

Definition lift {A} (o : Outcome A) : M A := fun s => (o, s).

Declare Scope handler_scope.
Delimit Scope handler_scope with handler.
Notation "x <- c ;; k" := (bind c (fun x => k))
  (at level 61, c at next level, right associativity) : handler_scope.
Notation "c ;;; k" := (bind c (fun _ => k))
  (at level 61, right associativity) : handler_scope.

Record Response : Type := mkResponse {
  status : Z;
  json : JValue
}.

(** [res.status(code).json({ success: false, message })]. *)
Definition failure (code : Z) (message : string) : Response :=
  mkResponse code (JObj [("success", JBool false); ("message", JStr message)]).

(** [try { body } catch (error) { handler(error.message) }]. *)
Definition tryCatch (body : M Response) (handler : string -> Response)
  : Store -> Response * Store :=
  fun s =>
    match body s with
    | (Return r, s') => (r, s')
    | (Throw m, s') => (handler m, s')
    end.

(** A request: the body as it was parsed, and the parameters of the
    route and of the query string as texts. *)
Record Request : Type := mkRequest {
  body : JValue;                      (* req.body *)
  params : list (string * string);    (* req.params *)
  query : list (string * string)      (* req.query *)
}.

Fixpoint lookupParam (k : string) (l : list (string * string))
  : option string :=
  match l with
  | [] => None
  | (k', v) :: l' => if (k' =? k)%string then Some v else lookupParam k l'
  end.

(** [showAll === "true"]. *)
Definition showAllIsTrue (showAll : option string) : bool :=
  match showAll with
  | Some v => (v =? "true")%string
  | None => false
  end.

(** The filter [{ visible: true }] on a stored document. *)
Definition isVisible (d : JValue) : bool :=
  match getField "visible" d with
  | JBool true => true
  | _ => false
  end.

(** [showAll === "true" ? {} : { visible: true }] as a predicate. *)
Definition visibilityFilter (showAll : option string) (d : JValue) : bool :=
  if showAllIsTrue showAll then true else isVisible d.

(** The stored [status]; the schema declares it a string, so anything
    else counts as missing. *)
Definition statusOf (d : JValue) : option string :=
  match getField "status" d with
  | JStr s => Some s
  | _ => None
  end.

(** ** Calendar days *)

Definition DAY_MS : Z := 86400000.

(** Asia/Kolkata is UTC+05:30 all year. *)
Definition IST_OFFSET_MS : Z := 19800000.

(** The calendar day (days since 1970-01-01) of the instant [t] on a
    clock [offset] milliseconds ahead of UTC. *)
Definition dayOf (offset t : Z) : Z := (t + offset) / DAY_MS.

(** The instant at which day [d] begins on that clock. *)
Definition dayStart (offset d : Z) : Z := d * DAY_MS - offset.

(** Year, month and day of the month of a day number (proleptic
    Gregorian calendar). *)
Definition civilFromDays (days : Z) : Z * Z * Z :=
  let z := days + 719468 in
  let era := z / 146097 in
  let doe := z - era * 146097 in
  let yoe := (doe - doe / 1460 + doe / 36524 - doe / 146096) / 365 in
  let doy := doe - (365 * yoe + yoe / 4 - yoe / 100) in
  let mp := (5 * doy + 2) / 153 in
  let d := doy - (153 * mp + 2) / 5 + 1 in
  let m := if mp <? 10 then mp + 3 else mp - 9 in
  let y := yoe + era * 400 in
  (if m <=? 2 then y + 1 else y, m, d).

(** The text [YYYY-MM-DD] of a day number: what [format("YYYY-MM-DD")],
    [%Y-%m-%d] and the date part of [toISOString()] give for the years
    0000 to 9999. *)
Definition formatDay (days : Z) : string :=
  let '(y, m, d) := civilFromDays days in
  JS.padStart (JS.ToString y) 4 "0" ++ "-"
  ++ JS.padStart (JS.ToString m) 2 "0" ++ "-"
  ++ JS.padStart (JS.ToString d) 2 "0".

(** The day number of a date of the proleptic Gregorian calendar. *)
Definition daysFromCivil (y m d : Z) : Z :=
  let y' := if m <=? 2 then y - 1 else y in
  let era := y' / 400 in
  let yoe := y' - era * 400 in
  let mp := (m + 9) mod 12 in
  let doy := (153 * mp + 2) / 5 + d - 1 in
  let doe := yoe * 365 + yoe / 4 - yoe / 100 + doy in
  era * 146097 + doe - 719468.

(** The clock of the server.  [offsetAt t] is the offset of its local
    time from UTC, in milliseconds, at the instant [t]; [offsetOfLocal l]
    is the offset that [new Date(year, month, day)] and [setDate] take
    for the local time [l], settled by the engine where the clock was
    put forward or back. *)
Record Zone : Type := mkZone {
  offsetAt : Z -> Z;
  offsetOfLocal : Z -> Z
}.

(** A clock with no daylight saving. *)
Definition fixedZone (offset : Z) : Zone :=
  mkZone (fun _ => offset) (fun _ => offset).

(** The local time of an instant, and the instant of a local time. *)
Definition localTime (z : Zone) (t : Z) : Z := t + offsetAt z t.

Definition utcOfLocal (z : Zone) (l : Z) : Z := l - offsetOfLocal z l.

(** [new Date(year, monthIndex, day)] for a month index from 0 to 11:
    midnight of that day on the clock of the server; a year from 0 to
    99 stands for 1900 and that many years, and a day outside the month
    counts on into the months beside it. *)
Definition localDate (z : Zone) (year monthIndex day : Z) : Z :=
  let y := if (0 <=? year) && (year <=? 99) then 1900 + year else year in
  utcOfLocal z ((daysFromCivil y (monthIndex + 1) 1 + day - 1) * DAY_MS).

(** ** The regular expressions of a search *)

(** The part of the pattern language whose matching is written out
    here: a printable ASCII character that stands for itself, and the
    dot, matched against a text of printable ASCII.  What the store does
    with any other pattern or text is a parameter of the search. *)
Inductive Atom : Type :=
| Lit (c : ascii)
| AnyChar.

(** Characters with a meaning of their own in a pattern. *)
Definition isMeta (c : ascii) : bool :=
  existsb (Ascii.eqb c)
    (list_ascii_of_string "\^$.|?*+()[]{}").

(** The bytes from SP to the tilde. *)
Definition printable (c : ascii) : bool :=
  ((32 <=? JS.code c) && (JS.code c <=? 126))%N.

Definition isPrintable (s : string) : bool := JS.allChars printable s.

(** The atoms of a pattern; [None] when it uses an operator other than
    the dot, or a character that is not printable ASCII. *)
Fixpoint parsePattern (q : string) : option (list Atom) :=
  match q with
  | EmptyString => Some []
  | String c q' =>
      match parsePattern q' with
      | None => None
      | Some atoms =>
          if Ascii.eqb c "."%char then Some (AnyChar :: atoms)
          else if isMeta c || negb (printable c) then None
          else Some (Lit c :: atoms)
      end
  end.

(** With the option [i] a literal matches in either case; the dot
    matches any character but a line feed (a printable text has none). *)
Definition atomMatches (a : Atom) (c : ascii) : bool :=
  match a with
  | Lit l => JS.eqbCI l c
  | AnyChar => negb (Ascii.eqb c (ascii_of_nat 10))
  end.

Fixpoint matchHere (p : list Atom) (s : string) : bool :=
  match p, s with
  | [], _ => true
  | _ :: _, EmptyString => false
  | a :: p', String c s' => atomMatches a c && matchHere p' s'
  end.

(** An unanchored match: the pattern matches at some position. *)
Fixpoint regexSearch (p : list Atom) (s : string) : bool :=
  matchHere p s
  || match s with
     | String _ s' => regexSearch p s'
     | EmptyString => false
     end.

(** ** The handlers *)

Local Open Scope handler_scope.

(** How a message names [undefined] and [null]. *)
Definition nullishName (v : JValue) : string :=
  match v with
  | JNull => "null"
  | _ => "undefined"
  end.

(** The message of the [TypeError] of reading the property [k] of
    [undefined] or [null]. *)
Definition cannotRead (o : JValue) (k : string) : string :=
  "Cannot read properties of " ++ nullishName o
  ++ " (reading '" ++ k ++ "')".

(** [const { first, ... } = req.body]: destructuring [undefined] or
    [null] throws a [TypeError]. *)
Definition destructure (first : string) (b : JValue) : M JValue :=
  if isNullish b
  then throw ("Cannot destructure property '" ++ first
              ++ "' of 'req.body' as it is " ++ nullishName b ++ ".")
  else ret b.

(** [o.k] as an expression that throws on [undefined] and [null]. *)
Definition member (o : JValue) (k : string) : M JValue :=
  if isNullish o then throw (cannotRead o k)
  else ret (getField k o).

(** The callback of [products.forEach]:
    [if (!product.tax && product.tax !== 0) product.tax = 0]. *)
Definition defaultTax (product : JValue) : Outcome JValue :=
  if isNullish product
  then Throw (cannotRead product "tax")
  else
    let tax := getField "tax" product in
    if negb (truthy tax) && notStrictZero tax
    then Return (setField "tax" (JNum 0) product)
    else Return product.

Fixpoint forEachDefaultTax (items : list JValue) : Outcome (list JValue) :=
  match items with
  | [] => Return []
  | p :: items' =>
      match defaultTax p with
      | Throw m => Throw m
      | Return p' =>
          match forEachDefaultTax items' with
          | Throw m => Throw m
          | Return rest => Return (p' :: rest)
          end
      end
  end.

(** [if (products) { products.forEach(...) }]: the value [products]
    names after the block.  A truthy value that is not an array has no
    [forEach], and calling it throws. *)
Definition defaultProducts (products : JValue) : Outcome JValue :=
  if truthy products then
    match products with
    | JArr items =>
        match forEachDefaultTax items with
        | Return items' => Return (JArr items')
        | Throw m => Throw m
        end
    | _ => Throw "products.forEach is not a function"
    end
  else Return products.

(** [if (charges && !charges.taxAmount && charges.taxAmount !== 0)
    charges.taxAmount = 0]: the value [charges] names afterwards. *)
Definition defaultCharges (charges : JValue) : JValue :=
  if truthy charges
     && negb (truthy (getField "taxAmount" charges))
     && notStrictZero (getField "taxAmount" charges)
  then setField "taxAmount" (JNum 0) charges
  else charges.

(** [receiptRecord.currentReceiptNumber] after [ReceiptNumber.findOne()]. *)
Definition ReceiptNumber_findOne : M (option Z) :=
  fun s => (Return (hd_error (receiptNumbers s)), s).

(** [receiptRecord.save()] after [receiptRecord.currentReceiptNumber += 1]
    made the record's number [n]: the write sets the stored number of
    that record. *)
Definition receiptRecord_save (n : Z) : M unit :=
  fun s => (Return tt, withReceiptNumbers (n :: tl (receiptNumbers s)) s).

(** [String(receiptRecord.currentReceiptNumber).padStart(4, "0")]. *)
Definition formatReceiptNo (n : Z) : string :=
  JS.padStart (JS.ToString n) 4 "0".

Section Handlers.

(** The ObjectId that a value casts to, as the text under which the
    store keeps it in [_id]; [None] when the cast throws. *)
Variable castObjectId : JValue -> option string.

(** The generator of ObjectIds. *)
Variable newObjectId : Z -> string.

(** The error of [save()] on an Entry document, if any: the validators
    and unique indexes of the Entry schema (models/NewEntry). *)
Variable entrySaveError : Store -> JValue -> option string.

(** The error of the cast and validators of an update document. *)
Variable updateError : Store -> JValue -> option string.

(** [manualUpdateStats()] of middleware/entryStatsMiddleware: it
    returns or throws, and gives the EntryStat record it leaves. *)
Variable manualUpdateStats : Store -> Outcome unit * JValue.

Definition runManualUpdateStats : M unit :=
  fun s =>
    let '(o, st) := manualUpdateStats s in (o, withEntryStat st s).

(** [Model.findById(id)]: a value that does not cast to an ObjectId
    throws a [CastError]; [findOne] gives the first match. *)
Definition findById (coll : Store -> list JValue) (id : JValue)
  : M (option JValue) :=
  fun s =>
    match castObjectId id with
    | Some oid => (Return (findFirst (hasId oid) (coll s)), s)
    | None => (Throw "CastError: Cast to ObjectId failed", s)
    end.

(** Modelled from the spec: the Entry schema (models/NewEntry) is not
    in src.  [new Entry(fields)] gives the document its id and the
    defaults the spec names: [status] pending and [visible] true. *)
Definition newDocument (fields : list (string * JValue)) (s : Store)
  : JValue :=
  JObj (("_id", JStr (newObjectId (idSeed s))) :: fields
        ++ [("status", JStr "pending"); ("visible", JBool true)]).

(** [new Entry(fields)]: the document, and an id that is used up. *)
Definition Entry_new (fields : list (string * JValue)) : M JValue :=
  fun s => (Return (newDocument fields s), withIdSeed (idSeed s + 1) s).

(** [newEntry.save()] of a new document: validation, then the insert
    with the timestamps of the schema. *)
Definition Entry_insert (now : Z) (doc : JValue) : M JValue :=
  fun s =>
    match entrySaveError s doc with
    | Some m => (Throw m, s)
    | None =>
        let stored :=
          setField "updatedAt" (JDate now)
            (setField "createdAt" (JDate now) doc) in
        (Return stored, withEntries (entries s ++ [stored]) s)
    end.

(** [entry.save()] of a document loaded by [findById]: validation,
    then the write of the document with that [_id]. *)
Definition Entry_save (now : Z) (doc : JValue) : M JValue :=
  fun s =>
    match entrySaveError s doc with
    | Some m => (Throw m, s)
    | None =>
        let stored := setField "updatedAt" (JDate now) doc in
        (Return stored,
         withEntries
           (replaceFirst (sameId (getField "_id" doc)) stored (entries s)) s)
    end.

(** The fields of an update document. *)
Definition updateFields (update : JValue) : list (string * JValue) :=
  match update with
  | JObj fs => fs
  | _ => []
  end.



(** [Entry.findByIdAndUpdate(id, update, { new: true, runValidators:
    true })] for an update with no operator key ([noOperator]): every
    field of [update] is a [$set] of its path; the updated document is
    returned, or [null] when none has the id. *)
Definition Entry_findByIdAndUpdate (now : Z) (id : string)
  (update : JValue) : M (option JValue) :=
  fun s =>
    match castObjectId (JStr id) with
    | None => (Throw "CastError: Cast to ObjectId failed", s)
    | Some oid =>
        match updateError s update with
        | Some m => (Throw m, s)
        | None =>
            if anyConflict (map (fun kv => splitDots (fst kv))
                              (updateFields update))
            then (Throw "Updating the path would create a conflict", s)
            else
              match findFirst (hasId oid) (entries s) with
              | None => (Return None, s)
              | Some doc =>
                  match applySet (updateFields update)
                          (setField "updatedAt" (JDate now) doc) with
                  | None => (Throw "Cannot create field in element", s)
                  | Some doc' =>
                      (Return (Some doc'),
                       withEntries
                         (replaceFirst (hasId oid) doc' (entries s)) s)
                  end
              end
        end
    end.

(** [Entry.findByIdAndDelete(id)]. *)
Definition Entry_findByIdAndDelete (id : string) : M (option JValue) :=
  fun s =>
    match castObjectId (JStr id) with
    | None => (Throw "CastError: Cast to ObjectId failed", s)
    | Some oid =>
        match findFirst (hasId oid) (entries s) with
        | None => (Return None, s)
        | Some doc =>
            (Return (Some doc),
             withEntries (removeFirst (hasId oid) (entries s)) s)
        end
    end.

(** [req.params.id]; a route without it does not reach the handler. *)
Definition paramId (req : Request) : string :=
  match lookupParam "id" (params req) with
  | Some i => i
  | None => ""
  end.

(** The object literal of [new Entry({ ... })] in [createNewentry],
    for the body, the customer that was found, the products and the
    charges after their defaults, and the receipt number. *)
Definition newEntryFields (b customerData products charges : JValue)
  (receiptNo : string) : list (string * JValue) :=
  [("customer", getField "customer" b);
   ("customerPhone", getField "phone" customerData);
   ("customerId", getField "customerId" b);
   ("receiptNo", JStr receiptNo);
   ("discount", orElse (getField "discount" b) (JNum 0));
   ("remarks", orElse (getField "remarks" b) (JStr ""));
   ("expectedDeliveryDate", getField "expectedDeliveryDate" b);
   ("products", products);
   ("charges", charges);
   ("pickupAndDelivery", getField "pickupAndDelivery" b)].

Definition createNewentry (now : Z) (req : Request)
  : Store -> Response * Store :=
  tryCatch
    (b <- destructure "customer" (body req) ;;
     let customer := getField "customer" b in
     let customerId := getField "customerId" b in
     let products := getField "products" b in
     let charges := getField "charges" b in
     let pickupAndDelivery := getField "pickupAndDelivery" b in
     let expectedDeliveryDate := getField "expectedDeliveryDate" b in
     if negb (truthy customer) || negb (truthy customerId)
     then ret (failure 400
                "Customer, customerId and expected delivery date are required")
     else
       expected <- member pickupAndDelivery "expectedDeliveryDate" ;;
       if negb (truthy expected)
       then ret (failure 400
                  "Customer, customerId and expected delivery date are required")
       else
         customerData <- findById customers customerId ;;
         match customerData with
         | None => ret (failure 404 "Customer not found")
         | Some customerData =>
             products' <- lift (defaultProducts products) ;;
             let charges' := defaultCharges charges in
             receiptRecord <- ReceiptNumber_findOne ;;
             match receiptRecord with
             | None =>
                 ret (failure 500 "Receipt number initialization failed")
             | Some currentReceiptNumber =>
                 let receiptNo := formatReceiptNo currentReceiptNumber in
                 receiptRecord_save (JS.add currentReceiptNumber 1) ;;;
                 newEntry <- Entry_new
                   (newEntryFields b customerData products' charges'
                      receiptNo) ;;
                 saved <- Entry_insert now newEntry ;;
                 runManualUpdateStats ;;;
                 ret (mkResponse 201
                        (JObj [("success", JBool true);
                               ("message", JStr "Entry created successfully");
                               ("data", saved)]))
             end
         end)
    (fun message => failure 400 message).

(** The three [if (status === ...)] of [updateEntry]: the date of the
    status is written into the body under its dotted path. *)
Definition stampStatus (now : Z) (status : JValue) (b : JValue) : JValue :=
  let b1 :=
    if strictEqString status "delivered"
    then setField "pickupAndDelivery.deliveryDate" (JDate now) b
    else b in
  let b2 :=
    if strictEqString status "collected"
    then setField "pickupAndDelivery.pickupDate" (JDate now) b1
    else b1 in
  if strictEqString status "processedAndPacked"
  then setField "pickupAndDelivery.processedAndPackedDate" (JDate now) b2
  else b2.

(** [products] and [charges] name objects inside [req.body], so the
    defaults written through them are written into the body that goes
    to [findByIdAndUpdate]. *)
Definition updateEntry (now : Z) (req : Request)
  : Store -> Response * Store :=
  tryCatch
    (b <- destructure "products" (body req) ;;
     let products := getField "products" b in
     let charges := getField "charges" b in
     let status := getField "status" b in
     products' <- lift (defaultProducts products) ;;
     let b1 := if truthy products then setField "products" products' b
               else b in
     let b2 := if truthy charges
               then setField "charges" (defaultCharges charges) b1
               else b1 in
     let b3 := stampStatus now status b2 in
     updatedEntry <- Entry_findByIdAndUpdate now (paramId req) b3 ;;
     match updatedEntry with
     | None => ret (failure 404 "Entry not found")
     | Some updatedEntry =>
         runManualUpdateStats ;;;
         ret (mkResponse 200
                (JObj [("success", JBool true);
                       ("message", JStr "Entry updated successfully");
                       ("data", updatedEntry)]))
     end)
    (fun message => failure 400 message).

Definition deleteEntry (req : Request) : Store -> Response * Store :=
  tryCatch
    (entry <- Entry_findByIdAndDelete (paramId req) ;;
     match entry with
     | None => ret (failure 404 "Entry Not found")
     | Some _ =>
         runManualUpdateStats ;;;
         ret (mkResponse 200
                (JObj [("success", JBool true);
                       ("message", JStr "Entry deleted successfully")]))
     end)
    (fun message => failure 500 message).


(** The value [entry.visible] of a loaded document: the schema default
    [true] stands in for a missing field. *)
Definition visibleOf (d : JValue) : bool :=
  match getField "visible" d with
  | JUndefined => true
  | v => truthy v
  end.

Definition toggleVisibility (now : Z) (req : Request)
  : Store -> Response * Store :=
  tryCatch
    (entry <- findById entries (JStr (paramId req)) ;;
     match entry with
     | None => ret (failure 404 "Entry not found")
     | Some entry =>
         let visible := negb (visibleOf entry) in
         _ <- Entry_save now
                (setField "visible" (JBool visible) entry) ;;
         ret (mkResponse 200
                (JObj [("success", JBool true);
                       ("message",
                        JStr (if visible then "Entry is now visible"
                              else "Entry is now hidden"));
                       ("data", JObj [("id", getField "_id" entry);
                                      ("visible", JBool visible)])]))
     end)
    (fun _ => failure 500 "Server Error").

(** *** Reads *)

Definition getAllEntry (req : Request) (s : Store) : Response :=
  let showAll := lookupParam "showAll" (query req) in
  let entry := sortDesc (filter (visibilityFilter showAll) (entries s)) in
  mkResponse 200
    (JObj [("success", JBool true); ("message", JStr "All Entry");
           ("data", JArr entry)]).

(** [find(...).skip(skip).limit(limit)] after the sort: the store
    refuses a negative skip, takes a negative limit as its absolute
    value, and refuses a number that does not fit its 64-bit
    integers. *)
Definition skipLimit (skip limit : Z) (l : list JValue)
  : Outcome (list JValue) :=
  if skip <? 0 then Throw "Skip value must be non-negative"
  else if (2 ^ 63 <=? skip) || (2 ^ 63 <=? Z.abs limit)
  then Throw "The value is out of the range of a 64-bit integer"
  else Return (firstn (Z.to_nat (Z.abs limit)) (skipn (Z.to_nat skip) l)).

(** [Math.ceil(a / b)] for integers, [b] not zero. *)
Definition ceilDiv (a b : Z) : Z := - ((- a) / b).

Definition getPaginatedEntries (req : Request) (s : Store) : Response :=
  let page := JS.orDefault (JS.parseIntParam (lookupParam "page" (query req))) 1 in
  let limit := JS.orDefault (JS.parseIntParam (lookupParam "limit" (query req))) 10 in
  let showAll := lookupParam "showAll" (query req) in
  let skip := JS.mul (JS.sub page 1) limit in
  let matching := filter (visibilityFilter showAll) (entries s) in
  let total := Z.of_nat (List.length matching) in
  match skipLimit skip limit (sortDesc matching) with
  | Throw m => failure 500 m
  | Return entries =>
      mkResponse 200
        (JObj [("success", JBool true);
               ("page", JNum page);
               ("totalPages", JNum (ceilDiv total limit));
               ("totalEntries", JNum total);
               ("data", JArr entries)])
  end.

(** How the Entry schema casts the value of [{ receiptNo: parseInt(q) }]
    ([None] is [NaN]); a cast may throw. *)
Variable castReceiptNo : option Z -> Outcome JValue.

(** Equality of a stored scalar and a query scalar. *)
Definition sameScalar (a b : JValue) : bool :=
  match a, b with
  | JStr x, JStr y => (x =? y)%string
  | JNum x, JNum y => x =? y
  | _, _ => false
  end.

(** What the store does with [{ $regex: q, $options: "i" }] for a
    pattern [q] outside the modelled part: the test that the pattern is
    on a text, or the refusal of a pattern that it cannot compile. *)
Variable patternBeyond : string -> Outcome (string -> bool).

(** Whether a pattern of the modelled part matches a text that is not
    printable ASCII. *)
Variable matchBeyond : string -> string -> bool.

(** The test of [{ $regex: q, $options: "i" }] on a text. *)
Definition customerRegex (q : string) : Outcome (string -> bool) :=
  match parsePattern q with
  | Some p =>
      Return (fun c => if isPrintable c then regexSearch p c
                       else matchBeyond q c)
  | None => patternBeyond q
  end.

(** [{ customer: { $regex: q, $options: "i" } }]: a customer that is a
    string and passes the test. *)
Definition customerMatches (test : string -> bool) (d : JValue) : bool :=
  match getField "customer" d with
  | JStr c => test c
  | _ => false
  end.

(** [{ receiptNo: isNaN(q) ? { $exists: false } : parseInt(q) }]. *)
Definition receiptClause (q : string) : Outcome (JValue -> bool) :=
  if JS.isNaN q
  then Return (fun d => match getField "receiptNo" d with
                        | JUndefined => true
                        | _ => false
                        end)
  else
    match castReceiptNo (JS.parseInt q) with
    | Return v => Return (fun d => sameScalar (getField "receiptNo" d) v)
    | Throw m => Throw m
    end.

Definition searchEntry (req : Request) (s : Store) : Response :=
  let q := lookupParam "q" (query req) in
  let showAll := lookupParam "showAll" (query req) in
  match q with
  | None => failure 400 "Search query is required"
  | Some q =>
      if (JS.trim q =? "")%string
      then failure 400 "Search query is required"
      else
        match customerRegex q, receiptClause q with
        | Return test, Return receiptMatches =>
            let entries :=
              filter (fun d => visibilityFilter showAll d
                               && (customerMatches test d
                                   || receiptMatches d))
                (entries s) in
            match entries with
            | [] => failure 404 "No entries found"
            | _ =>
                mkResponse 200
                  (JObj [("success", JBool true);
                         ("data", JArr entries)])
            end
        | _, _ => failure 500 "Internal server error"
        end
  end.

(** *** Dashboard *)

Definition optionStringEqb (a b : option string) : bool :=
  match a, b with
  | Some x, Some y => (x =? y)%string
  | None, None => true
  | _, _ => false
  end.

(** One more document in the group of key [k]. *)
Fixpoint countInto (k : option string) (groups : list (option string * Z))
  : list (option string * Z) :=
  match groups with
  | [] => [(k, 1)]
  | (k', n) :: groups' =>
      if optionStringEqb k' k then (k', n + 1) :: groups'
      else (k', n) :: countInto k groups'
  end.

(** [{ $group: { _id: "$status", count: { $sum: 1 } } }]: one item for
    each status that occurs; documents with no status form the group
    [null]. *)
Definition groupByStatus (l : list JValue) : list (option string * Z) :=
  fold_left (fun groups d => countInto (statusOf d) groups) l [].

(** The object literal [statusCounts]. *)
Definition initialStatusCounts : list (string * Z) :=
  [("pending", 0); ("collected", 0); ("processedAndPacked", 0);
   ("delivered", 0)].

Definition hasOwnProperty (k : string) (o : list (string * Z)) : bool :=
  existsb (fun kv => (fst kv =? k)%string) o.

Fixpoint assignCount (k : string) (n : Z) (o : list (string * Z))
  : list (string * Z) :=
  match o with
  | [] => [(k, n)]
  | (k', n') :: o' =>
      if (k' =? k)%string then (k, n) :: o'
      else (k', n') :: assignCount k n o'
  end.

Fixpoint readCount (k : string) (o : list (string * Z)) : Z :=
  match o with
  | [] => 0
  | (k', n) :: o' => if (k' =? k)%string then n else readCount k o'
  end.

(** The callback of [counts.forEach]:
    [if (item._id && statusCounts.hasOwnProperty(item._id))
       statusCounts[item._id] = item.count]. *)
Definition tally (statusCounts : list (string * Z))
  (item : option string * Z) : list (string * Z) :=
  match fst item with
  | Some id =>
      if negb (id =? "")%string && hasOwnProperty id statusCounts
      then assignCount id (snd item) statusCounts
      else statusCounts
  | None => statusCounts
  end.

(** [{ $gte: lo, $lte: hi }] on a stored value: only a date compares
    with a date. *)
Definition dateInRange (lo hi : Z) (v : JValue) : bool :=
  match v with
  | JDate t => (lo <=? t) && (t <=? hi)
  | _ => false
  end.

Definition statusIs (name : string) (d : JValue) : bool :=
  optionStringEqb (statusOf d) (Some name).

(** [today.startOf("day").toDate()] and [today.endOf("day").toDate()]
    for [today = dayjs().tz("Asia/Kolkata")]. *)
Definition startOfToday (now : Z) : Z :=
  dayStart IST_OFFSET_MS (dayOf IST_OFFSET_MS now).

Definition endOfToday (now : Z) : Z := startOfToday now + DAY_MS - 1.

(** [today.format("YYYY-MM-DD")]. *)
Definition todayString (now : Z) : string :=
  formatDay (dayOf IST_OFFSET_MS now).

Definition expectedToday (now : Z) (d : JValue) : bool :=
  dateInRange (startOfToday now) (endOfToday now)
    (getPath ["pickupAndDelivery"; "expectedDeliveryDate"] d)
  && negb (statusIs "delivered" d).

Definition receivedToday (now : Z) (d : JValue) : bool :=
  dateInRange (startOfToday now) (endOfToday now) (getField "createdAt" d).

(** The query of the [switch (type)]; [None] is the [default] branch. *)
Definition typeQuery (now : Z) (type : string) : option (JValue -> bool) :=
  if (type =? "pending")%string then Some (statusIs "pending")
  else if (type =? "collected")%string then Some (statusIs "collected")
  else if (type =? "processedAndPacked")%string
  then Some (statusIs "processedAndPacked")
  else if (type =? "delivered")%string then Some (statusIs "delivered")
  else if (type =? "todayExpected")%string then Some (expectedToday now)
  else if (type =? "todayReceived")%string then Some (receivedToday now)
  else None.

(** [.select("customer customerId receiptNo status charges
    pickupAndDelivery createdAt")]: those fields and the id. *)
Definition selectFields (d : JValue) : JValue :=
  match d with
  | JObj fs =>
      JObj (filter
              (fun kv =>
                 existsb (String.eqb (fst kv))
                   ["_id"; "customer"; "customerId"; "receiptNo"; "status";
                    "charges"; "pickupAndDelivery"; "createdAt"])
              fs)
  | _ => d
  end.

(** Whether [needle] occurs in [s]: [s.includes(needle)]. *)
Fixpoint includes (needle s : string) : bool :=
  String.prefix needle s
  || match s with
     | String _ s' => includes needle s'
     | EmptyString => false
     end.

Definition countWhere (p : JValue -> bool) (l : list JValue) : Z :=
  Z.of_nat (List.length (filter p l)).

Definition getPendingDeliveries (now : Z) (req : Request) (s : Store)
  : Response :=
  let type := lookupParam "type" (query req) in
  let pageNum :=
    match lookupParam "page" (query req) with
    | Some page => JS.parseInt page
    | None => Some 1
    end in
  let limit := 5 in
  let showAll := lookupParam "showAll" (query req) in
  let inScope := filter (visibilityFilter showAll) (entries s) in
  let summary :=
    let counts := groupByStatus inScope in
    let todayExpected := countWhere (expectedToday now) inScope in
    let todayReceived := countWhere (receivedToday now) inScope in
    let statusCounts := fold_left tally counts initialStatusCounts in
    mkResponse 200
      (JObj [("success", JBool true);
             ("data", JObj [("summary", JObj
                [("pending",
                  JObj [("count", JNum (readCount "pending" statusCounts))]);
                 ("collected",
                  JObj [("count", JNum (readCount "collected" statusCounts))]);
                 ("processedAndPacked",
                  JObj [("count",
                         JNum (readCount "processedAndPacked" statusCounts))]);
                 ("delivered",
                  JObj [("count", JNum (readCount "delivered" statusCounts))]);
                 ("todayExpected",
                  JObj [("count", JNum todayExpected);
                        ("date", JStr (todayString now))]);
                 ("todayReceived",
                  JObj [("count", JNum todayReceived);
                        ("date", JStr (todayString now))]);
                 ("total",
                  JNum (readCount "pending" statusCounts
                        + readCount "collected" statusCounts
                        + readCount "delivered" statusCounts
                        + readCount "processedAndPacked" statusCounts))])])]) in
  match type with
  | None => summary
  | Some type =>
      if (type =? "")%string then summary
      else
        match typeQuery now type with
        | None => failure 400 "Invalid type parameter"
        | Some matches =>
            match pageNum with
            | None => failure 500 "Server Error"
            | Some pageNum =>
                let found := filter matches inScope in
                let count := Z.of_nat (List.length found) in
                match skipLimit (JS.mul (JS.sub pageNum 1) limit) limit
                        (map selectFields (sortDesc found)) with
                | Throw _ => failure 500 "Server Error"
                | Return docs =>
                    mkResponse 200
                      (JObj [("success", JBool true);
                             ("data", JObj
                                [("type", JStr type);
                                 ("count", JNum count);
                                 ("page", JNum pageNum);
                                 ("totalPages", JNum (ceilDiv count limit));
                                 ("date",
                                  if includes "today" type
                                  then JStr (todayString now)
                                  else JUndefined);
                                 ("orders", JArr docs)])])
                end
            end
        end
  end.

(** [$sum: "$charges.totalAmount"] adds the numbers and skips the rest;
    the amounts here are integers and their sums are exact. *)
Definition amountOf (d : JValue) : Z :=
  match getPath ["charges"; "totalAmount"] d with
  | JNum n => n
  | _ => 0
  end.

(** [{ createdAt: { $gte: start } }]. *)
Definition createdSince (start : Z) (d : JValue) : bool :=
  match getField "createdAt" d with
  | JDate t => start <=? t
  | _ => false
  end.

(** [$dateToString: { format: "%Y-%m-%d", date: "$createdAt" }]: with no
    [timezone] the date is read in UTC. *)
Definition dateStringOf (d : JValue) : string :=
  match getField "createdAt" d with
  | JDate t => formatDay (dayOf 0 t)
  | _ => ""
  end.

(** One more document in the group of the date [k]: its amount is added
    and it is counted. *)
Fixpoint addInto (k : string) (amount : Z) (groups : list (string * (Z * Z)))
  : list (string * (Z * Z)) :=
  match groups with
  | [] => [(k, (amount, 1))]
  | (k', (sales, n)) :: groups' =>
      if (k' =? k)%string then (k', (sales + amount, n + 1)) :: groups'
      else (k', (sales, n)) :: addInto k amount groups'
  end.

Definition groupByDate (l : list JValue) : list (string * (Z * Z)) :=
  fold_left (fun groups d => addInto (dateStringOf d) (amountOf d) groups)
    l [].

(** [weeklyMap[dateStr]], when the date has a group. *)
Fixpoint weeklyLookup (k : string) (groups : list (string * (Z * Z)))
  : option (Z * Z) :=
  match groups with
  | [] => None
  | (k', item) :: groups' =>
      if (k' =? k)%string then Some item else weeklyLookup k groups'
  end.

(** [new Date(now.getFullYear(), now.getMonth(), now.getDate() - 6)]:
    midnight six days back on the clock of the server. *)
Definition weekStart (z : Zone) (now : Z) : Z :=
  let '(year, month, day) := civilFromDays (dayOf 0 (localTime z now)) in
  localDate z year (month - 1) (day - 6).

(** The date label of the loop for [i]:
    [date.setDate(date.getDate() - i); date.toISOString().split("T")[0]].
    [setDate] goes [i] calendar days back on the clock of the server and
    keeps the time of day; the label is the UTC date of that instant. *)
Definition weekLabel (z : Zone) (now i : Z) : string :=
  let l := localTime z now in
  formatDay
    (dayOf 0 (utcOfLocal z ((dayOf 0 l - i) * DAY_MS + l mod DAY_MS))).

(** One element of [weeklyData]: [(date, totalSales, orderCount)]. *)
Definition weeklyRow (groups : list (string * (Z * Z))) (z : Zone)
  (now i : Z) : string * Z * Z :=
  let dateStr := weekLabel z now i in
  match weeklyLookup dateStr groups with
  | Some (sales, n) => (dateStr, sales, n)
  | None => (dateStr, 0, 0)
  end.

(** The part of [getRecentOrdersCount] about the total and the last
    seven days: [totalOrders] and [weeklyData].  The handler reads
    nothing of the request. *)
Definition getRecentOrdersCount (z : Zone) (now : Z) (s : Store)
  : Z * list (string * Z * Z) :=
  let totalCount := Z.of_nat (List.length (entries s)) in
  let groups :=
    groupByDate (filter (createdSince (weekStart z now)) (entries s)) in
  (totalCount, map (weeklyRow groups z now) [6; 5; 4; 3; 2; 1; 0]).

End Handlers.

(** ** The statistics middleware *)

(** Modelled from the spec: [manualUpdateStats] lives in
    middleware/entryStatsMiddleware, which is not in src.  The spec has it
    recompute the EntryStat record after a mutation as a best effort: a
    failure of the recompute is logged and swallowed, and the record
    stays as it was.  [recompute] is the computation that may fail. *)
Definition manualUpdateStats (recompute : Store -> Outcome JValue)
  : Store -> Outcome unit * JValue :=
  fun s =>
    match recompute s with
    | Return stat => (Return tt, stat)
    | Throw _ => (Return tt, entryStat s)
    end.

(** ** Casts of a receipt number in a query *)

(** The cast of a [String] path: the number is written out. *)
Definition castAsString (n : option Z) : Outcome JValue :=
  match n with
  | Some v => Return (JStr (JS.ToString v))
  | None => Return (JStr "NaN")
  end.

(** The cast of a [Number] path: [NaN] does not cast. *)
Definition castAsNumber (n : option Z) : Outcome JValue :=
  match n with
  | Some v => Return (JNum v)
  | None => Throw "CastError: Cast to Number failed"
  end.

(** ** Creations that run at the same time *)

(** One request inside the allocation of [createNewentry].  The handler
    gives up control at each [await]; between two of them it runs alone.
    [AtFindOne] is a request about to run [ReceiptNumber.findOne()],
    [AtSave n] one that has read the number [n] and is about to run
    [receiptRecord.save()], [Allocated r] one that holds the receipt
    number [r]. *)
Inductive Alloc : Type :=
| AtFindOne
| AtSave (n : Z)
| Allocated (receiptNo : string)
| NotInitialized.

(** The next uninterrupted stretch of a request. *)
Definition allocStep (t : Alloc) (s : Store) : Alloc * Store :=
  match t with
  | AtFindOne =>
      match ReceiptNumber_findOne s with
      | (Return (Some n), s') => (AtSave n, s')
      | (_, s') => (NotInitialized, s')
      end
  | AtSave n =>
      (Allocated (formatReceiptNo n), snd (receiptRecord_save (JS.add n 1) s))
  | _ => (t, s)
  end.

Fixpoint replaceNth {A} (i : nat) (x : A) (l : list A) : list A :=
  match l, i with
  | [], _ => []
  | _ :: l', O => x :: l'
  | y :: l', S i' => y :: replaceNth i' x l'
  end.

(** The scheduler resumes request [i]. *)
Definition stepThread (cfg : list Alloc * Store) (i : nat)
  : list Alloc * Store :=
  match nth_error (fst cfg) i with
  | Some t =>
      let '(t', s') := allocStep t (snd cfg) in
      (replaceNth i t' (fst cfg), s')
  | None => cfg
  end.

(** A schedule names the request resumed at each turn. *)
Definition run (schedule : list nat) (cfg : list Alloc * Store)
  : list Alloc * Store :=
  fold_left stepThread schedule cfg.

(** The receipt numbers handed out, by request. *)
Definition receiptsOf (threads : list Alloc) : list string :=
  flat_map (fun t => match t with
                     | Allocated r => [r]
                     | _ => []
                     end) threads.

(** A schedule that runs the requests of [order] one after another:
    each reads and saves with nothing in between. *)
Definition serial (order : list nat) : list nat :=
  flat_map (fun i => [i; i]) order.

(** ** Sample data *)

Module Sample.

(** Every string is an id and is kept as it is written. *)
Definition castObjectId (v : JValue) : option string :=
  match v with
  | JStr s => Some s
  | _ => None
  end.

Definition newObjectId (n : Z) : string := "entry" ++ JS.ToString n.

Definition entrySaveError (_ : Store) (_ : JValue) : option string := None.

Definition updateError (_ : Store) (_ : JValue) : option string := None.

(** A recompute that works: the statistics are the number of entries. *)
Definition recompute (s : Store) : Outcome JValue :=
  Return (JNum (Z.of_nat (List.length (entries s)))).

(** A recompute that fails. *)
Definition failing (_ : Store) : Outcome JValue :=
  Throw "statistics are not available".

Definition customer1 : JValue :=
  JObj [("_id", JStr "c1"); ("phone", JStr "9876543210")].

(** 2025-01-15T20:30:00Z, which is 02:00 on 2025-01-16 in Asia/Kolkata. *)
Definition now0 : Z := 1736973000000.

Definition store0 : Store := mkStore [customer1] [7] [] JNull 0.

Definition createBody : JValue :=
  JObj [("customer", JStr "Asha");
        ("customerId", JStr "c1");
        ("products",
         JArr [JObj [("productName", JStr "Shirt"); ("quantity", JNum 2)];
               JObj [("productName", JStr "Saree"); ("tax", JNum 5)]]);
        ("charges", JObj [("totalAmount", JNum 500)]);
        ("pickupAndDelivery",
         JObj [("expectedDeliveryDate", JDate 1737000000000)])].

Definition createReq : Request := mkRequest createBody [] [].

(** The creation of the sample entry. *)
Definition created : Response * Store :=
  createNewentry castObjectId newObjectId entrySaveError
    (manualUpdateStats recompute) now0 createReq store0.

End Sample.

(** ** The body of an update *)

(** The body that [updateEntry] hands to [findByIdAndUpdate]: [b] after
    the defaults and the date of the status were written into it;
    [products'] is the array that [products.forEach] leaves. *)
Definition patchedBody (now : Z) (b products' : JValue) : JValue :=
  stampStatus now (getField "status" b)
    (if truthy (getField "charges" b)
     then setField "charges" (defaultCharges (getField "charges" b))
            (if truthy (getField "products" b)
             then setField "products" products' b else b)
     else if truthy (getField "products" b)
          then setField "products" products' b else b).

(** ** The defaulting rule *)

(** The rule for one object: in [item'], the object as persisted, the
    field [field] is 0 when [item], the object of the request, has no
    such field; a number that is given stays; every other field
    stays. *)
Definition defaulted (field : string) (item item' : JValue) : Prop :=
  forall fs, item = JObj fs ->
    (lookupField field fs = JUndefined -> getField field item' = JNum 0)
    /\ (forall n, lookupField field fs = JNum n ->
                  getField field item' = JNum n)
    /\ (forall k, k <> field -> getField k item' = getField k item).

(** An update of the sample entry: the patch sets the status. *)
Module SampleUpdate.

Definition deliverReq : Request :=
  mkRequest (JObj [("status", JStr "delivered")]) [("id", "entry0")] [].

(** One minute after the creation. *)
Definition now1 : Z := Sample.now0 + 60000.

Definition delivered : Response * Store :=
  updateEntry Sample.castObjectId Sample.updateError
    (manualUpdateStats Sample.recompute) now1 deliverReq
    (snd Sample.created).

(** A patch with a line item and charges that have no tax. *)
Definition repriceReq : Request :=
  mkRequest
    (JObj [("products",
            JArr [JObj [("productName", JStr "Coat"); ("quantity", JNum 1)]]);
           ("charges", JObj [("totalAmount", JNum 900)])])
    [("id", "entry0")] [].

Definition repriced : Response * Store :=
  updateEntry Sample.castObjectId Sample.updateError
    (manualUpdateStats Sample.recompute) now1 repriceReq
    (snd Sample.created).

End SampleUpdate.

(** The handlers of the sample entry under a recompute that fails. *)
Module SampleFailing.

Definition created : Response * Store :=
  createNewentry Sample.castObjectId Sample.newObjectId
    Sample.entrySaveError (manualUpdateStats Sample.failing)
    Sample.now0 Sample.createReq Sample.store0.

Definition delivered : Response * Store :=
  updateEntry Sample.castObjectId Sample.updateError
    (manualUpdateStats Sample.failing) SampleUpdate.now1
    SampleUpdate.deliverReq (snd created).

Definition deleted : Response * Store :=
  deleteEntry Sample.castObjectId (manualUpdateStats Sample.failing)
    SampleUpdate.deliverReq (snd delivered).

End SampleFailing.

(** The visibility of the sample entry is toggled. *)
Module SampleToggle.

Definition toggleReq : Request := mkRequest JUndefined [("id", "entry0")] [].

Definition hidden : Response * Store :=
  toggleVisibility Sample.castObjectId Sample.entrySaveError
    SampleUpdate.now1 toggleReq (snd Sample.created).

End SampleToggle.

(** ** Reading an answer *)

(** The documents of the [data] array of an answer. *)
Definition dataOf (r : Response) : list JValue :=
  match getField "data" (json r) with
  | JArr l => l
  | _ => []
  end.




(** A store with a hidden entry among visible ones. *)
Module SampleHidden.

Definition entry (id customer receiptNo status : string) (visible : bool)
  (createdAt amount : Z) : JValue :=
  JObj [("_id", JStr id); ("customer", JStr customer);
        ("receiptNo", JStr receiptNo); ("status", JStr status);
        ("visible", JBool visible);
        ("charges", JObj [("totalAmount", JNum amount)]);
        ("createdAt", JDate createdAt)].

(** Created at 01:00 on 2025-01-16 in Asia/Kolkata. *)
Definition shown : JValue :=
  entry "e1" "abcd corp" "0001" "pending" true 1736969400000 500.

Definition hidden : JValue :=
  entry "e2" "xyz" "0002" "pending" false 1736883000000 300.

Definition odd : JValue :=
  entry "e3" "Mehta" "0003" "cancelled" true 1736796600000 200.

Definition store : Store := mkStore [] [4] [shown; hidden; odd] JNull 3.

Definition plain : Request := mkRequest JUndefined [] [].

Definition all : Request := mkRequest JUndefined [] [("showAll", "true")].

End SampleHidden.

(** ** Reading the groups of an aggregation *)

(** The count of the group of key [k]; 0 when there is no such group. *)
Fixpoint groupCount (k : option string) (groups : list (option string * Z))
  : Z :=
  match groups with
  | [] => 0
  | (k', n) :: groups' =>
      if optionStringEqb k' k then n else groupCount k groups'
  end.

Definition hasGroup (k : option string) (groups : list (option string * Z))
  : bool :=
  existsb (fun g => optionStringEqb (fst g) k) groups.

(** The four statuses that the summary counts. *)
Definition countedStatuses : list string :=
  ["pending"; "collected"; "processedAndPacked"; "delivered"].

(** The number under [name] in the summary of an answer. *)
Definition summaryCount (name : string) (r : Response) : JValue :=
  getPath ["data"; "summary"; name; "count"] (json r).

Definition summaryTotal (r : Response) : JValue :=
  getPath ["data"; "summary"; "total"] (json r).

(** ** The search as the spec words it *)

Fixpoint lowerString (s : string) : string :=
  match s with
  | String c s' => String (JS.toLower c) (lowerString s')
  | EmptyString => ""
  end.

(** [q] is at the start of [s], letter case aside. *)
Fixpoint prefixCI (q s : string) : bool :=
  match q, s with
  | EmptyString, _ => true
  | String _ _, EmptyString => false
  | String a q', String b s' => JS.eqbCI a b && prefixCI q' s'
  end.

(** [s] contains [q] as a substring, letter case aside. *)
Fixpoint containsCI (q s : string) : bool :=
  prefixCI q s
  || match s with
     | String _ s' => containsCI q s'
     | EmptyString => false
     end.

(** The customer of a document contains [q], letter case aside. *)
Definition customerContains (q : string) (d : JValue) : bool :=
  match getField "customer" d with
  | JStr c => containsCI q c
  | _ => false
  end.

(** The pattern of a text with no operator in it. *)
Definition literalAtoms (q : string) : list Atom :=
  map Lit (list_ascii_of_string q).

(** [q] is printable ASCII and no character of it has a meaning of its
    own in a pattern. *)
Definition plainText (q : string) : bool :=
  JS.allChars (fun c => printable c && negb (isMeta c)) q.

(** Searches of the sample store. *)
Module SampleSearch.

Definition searchFor (q : string) : Request :=
  mkRequest JUndefined [] [("q", q)].

(** A store for the searches below, whose patterns and texts are of the
    modelled part: it compiles no other pattern and matches no other
    text. *)
Definition patternBeyond (_ : string) : Outcome (string -> bool) :=
  Throw "Regular expression is invalid".

Definition matchBeyond (_ _ : string) : bool := false.

Definition dot : Response :=
  searchEntry castAsString patternBeyond matchBeyond (searchFor ".")
    SampleHidden.store.

Definition abc : Response :=
  searchEntry castAsString patternBeyond matchBeyond (searchFor "ABC")
    SampleHidden.store.

End SampleSearch.

(** The clock of New York around the change to daylight saving time of
    2025-03-09: five hours behind UTC until 02:00 local time of that
    day, which is 07:00 UTC, and four hours behind after it. *)
Module SampleNewYork.

Definition zone : Zone :=
  mkZone (fun t => if t <? 1741503600000 then -18000000 else -14400000)
         (fun l => if l <? 1741485600000 then -18000000 else -14400000).

(** 23:30 UTC on 2025-03-11. *)
Definition now : Z := 1741735800000.

End SampleNewYork.

(** ** The dashboard of the sample store *)

Module SampleDashboard.

(** The weekly figures at 02:00 on 2025-01-16 in Asia/Kolkata, on a
    server whose clock is set to Asia/Kolkata. *)
Definition weekly : list (string * Z * Z) :=
  snd (getRecentOrdersCount (fixedZone IST_OFFSET_MS) Sample.now0
         SampleHidden.store).

(** The same on a server whose clock is set to UTC. *)
Definition weeklyOnUtcServer : list (string * Z * Z) :=
  snd (getRecentOrdersCount (fixedZone 0) Sample.now0 SampleHidden.store).

Definition received : Response :=
  getPendingDeliveries Sample.now0
    (mkRequest JUndefined [] [("type", "todayReceived"); ("showAll", "true")])
    SampleHidden.store.

End SampleDashboard.

(** ** What a schedule can do *)

(** A request is still inside the allocation. *)
Definition pending (t : Alloc) : bool :=
  match t with
  | Allocated _ => false
  | _ => true
  end.

(** What holds of a request when [w] of the requests have saved, from a
    counter that started at [start]: a number that was read is between
    [start] and [start + w], a receipt number that was handed out is the
    text of a number from [start] up to [start + w - 1], and the counter
    record was found. *)
Definition withinWrites (start w : Z) (t : Alloc) : Prop :=
  match t with
  | AtFindOne => True
  | AtSave n => start <= n <= start + w
  | Allocated r => exists n, r = formatReceiptNo n /\ start <= n < start + w
  | NotInitialized => False
  end.

(** ** Order of a listing *)

(** [a] may stand before [b] in a listing that is newest first. *)
Definition newestFirst (a b : JValue) : Prop := newerOrSame a b = true.

(** A schema that refuses every entry. *)
Module SampleRefused.

Definition entrySaveError (_ : Store) (_ : JValue) : option string :=
  Some "Entry validation failed".

Definition created : Response * Store :=
  createNewentry Sample.castObjectId Sample.newObjectId entrySaveError
    (manualUpdateStats Sample.recompute) Sample.now0 Sample.createReq
    Sample.store0.

End SampleRefused.

(** A counter that stands at 2^53, and two creations that follow one
    another. *)
Module SampleLimit.

Definition store : Store :=
  withReceiptNumbers [9007199254740992] Sample.store0.

Definition first : Response * Store :=
  createNewentry Sample.castObjectId Sample.newObjectId
    Sample.entrySaveError (manualUpdateStats Sample.recompute)
    Sample.now0 Sample.createReq store.

Definition second : Response * Store :=
  createNewentry Sample.castObjectId Sample.newObjectId
    Sample.entrySaveError (manualUpdateStats Sample.recompute)
    (Sample.now0 + 60000) Sample.createReq (snd first).

End SampleLimit.

(** ** Reading one entry and the statistics record *)

(** The names that every object inherits from [Object.prototype]. *)
Definition objectPrototypeKeys : list string :=
  ["constructor"; "__defineGetter__"; "__defineSetter__"; "hasOwnProperty";
   "__lookupGetter__"; "__lookupSetter__"; "isPrototypeOf";
   "propertyIsEnumerable"; "toString"; "valueOf"; "__proto__";
   "toLocaleString"].

(** Whether [k] is an own property of the object with the fields [fs]. *)
Definition hasOwn (k : string) (fs : list (string * JValue)) : bool :=
  existsb (fun kv => (fst kv =? k)%string) fs.

(** [entry.products.map((product) => product.productName)], from left to
    right.  Reading the name of a line item that is [null] or [undefined]
    throws.  [None] when a name is not a string: the cast of such a name
    in the [$in] that follows belongs to the Product schema
    (models/ProductDetails). *)
Fixpoint productNames (items : list JValue) : option (Outcome (list string)) :=
  match items with
  | [] => Some (Return [])
  | product :: items' =>
      if isNullish product
      then Some (Throw (cannotRead product "productName"))
      else
        match getField "productName" product with
        | JStr name =>
            match productNames items' with
            | Some (Return names) => Some (Return (name :: names))
            | other => other
            end
        | _ => None
        end
  end.

(** [Product.find({ name: { $in: productNames } }).select("name tax")]
    on the Product collection [catalogue]: the name and the tax of each
    product whose name is one of [names], in natural order. *)
Definition Product_find (names : list string) (catalogue : list JValue)
  : list (string * JValue) :=
  flat_map
    (fun product =>
       match getField "name" product with
       | JStr name =>
           if existsb (String.eqb name) names
           then [(name, getField "tax" product)]
           else []
       | _ => []
       end)
    catalogue.

(** The callback of [productTaxes.forEach]:
    [taxMap[product.name] = product.tax || 0].  An assignment to
    [__proto__] goes to the accessor of the prototype and makes no own
    property. *)
Definition recordTax (taxMap : list (string * JValue))
  (product : string * JValue) : list (string * JValue) :=
  if (fst product =? "__proto__")%string then taxMap
  else assignField (fst product) (orElse (snd product) (JNum 0)) taxMap.

(** [taxMap[name] || 0].  [None] when [name] is not an own property of
    the map but one that every object inherits: the lookup then gives a
    function or the prototype, which is no JSON value. *)
Definition taxFor (taxMap : list (string * JValue)) (name : string)
  : option JValue :=
  if negb (hasOwn name taxMap) && existsb (String.eqb name) objectPrototypeKeys
  then None
  else Some (orElse (lookupField name taxMap) (JNum 0)).

(** The callback of [entryData.products.map]:
    [product.tax = taxMap[product.productName] || 0; return product]. *)
Definition withTax (taxMap : list (string * JValue)) (product : JValue)
  : option JValue :=
  match getField "productName" product with
  | JStr name =>
      match taxFor taxMap name with
      | Some tax => Some (setField "tax" tax product)
      | None => None
      end
  | _ => None
  end.

Fixpoint mapWithTax (taxMap : list (string * JValue)) (items : list JValue)
  : option (list JValue) :=
  match items with
  | [] => Some []
  | product :: items' =>
      match withTax taxMap product, mapWithTax taxMap items' with
      | Some product', Some rest => Some (product' :: rest)
      | _, _ => None
      end
  end.

Section Reads.

Variable castObjectId : JValue -> option string.

(** [getEntryById] reads the Entry collection of the store and the
    Product collection [catalogue]; it writes nothing.  [None] when the
    stored [products] is not an array (the Entry schema decides what a
    document without line items reads as), or when a line item is outside
    the part described at [productNames] and [taxFor]. *)
Definition getEntryById (catalogue : list JValue) (req : Request) (s : Store)
  : option Response :=
  match fst (findById castObjectId entries (JStr (paramId req)) s) with
  | Throw message => Some (failure 500 message)
  | Return None => Some (failure 404 "Entry Not found")
  | Return (Some entry) =>
      match getField "products" entry with
      | JArr items =>
          match productNames items with
          | None => None
          | Some (Throw message) => Some (failure 500 message)
          | Some (Return names) =>
              let productTaxes := Product_find names catalogue in
              let taxMap := fold_left recordTax productTaxes [] in
              match mapWithTax taxMap items with
              | None => None
              | Some products =>
                  Some (mkResponse 200
                          (JObj [("success", JBool true);
                                 ("message",
                                  JStr "Entry fetched successfully");
                                 ("data",
                                  setField "products" (JArr products)
                                    entry)]))
              end
          end
      | _ => None
      end
  end.

End Reads.

(** [EntryStat.findOne().lean()] gives the record or [null]. *)
Definition getEntryStats (s : Store) : Response :=
  let stats := entryStat s in
  if negb (truthy stats) then failure 404 "Statistics not found"
  else mkResponse 200 (JObj [("success", JBool true); ("data", stats)]).

(** The tax that the catalogue gives for a product name: that of the
    last product of that name, or 0 when it has none or there is no such
    product. *)
Definition lastNamed (name : string) (catalogue : list JValue)
  : option JValue :=
  findFirst (fun product => strictEqString (getField "name" product) name)
    (rev catalogue).

Definition catalogueTax (name : string) (catalogue : list JValue) : JValue :=
  match lastNamed name catalogue with
  | Some product => orElse (getField "tax" product) (JNum 0)
  | None => JNum 0
  end.

(** A line item whose name the lookup of the tax handles: an object with
    a string for a name that is not the name of an inherited property. *)
Definition plainItem (item : JValue) : bool :=
  match getField "productName" item with
  | JStr name => negb (existsb (String.eqb name) objectPrototypeKeys)
  | _ => false
  end.

(** A catalogue for the sample entry: two products are called Shirt,
    and Saree has no tax. *)
Module SampleCatalogue.

Definition catalogue : list JValue :=
  [JObj [("_id", JStr "p1"); ("name", JStr "Shirt"); ("tax", JNum 12)];
   JObj [("_id", JStr "p2"); ("name", JStr "Saree")];
   JObj [("_id", JStr "p3"); ("name", JStr "Shirt"); ("tax", JNum 18)]].

(** The sample entry as the store holds it. *)
Definition stored : JValue := hd JNull (entries (snd Sample.created)).

Definition items : list JValue :=
  match getField "products" stored with
  | JArr l => l
  | _ => []
  end.

End SampleCatalogue.

(** ** What a creation reads *)

(** The fields of the body that [createNewentry] reads. *)
Definition readByCreate : list string :=
  ["customer"; "customerId"; "products"; "charges"; "pickupAndDelivery";
   "expectedDeliveryDate"; "discount"; "remarks"].

(** The statuses whose date [updateEntry] writes. *)
Definition stampedStatuses : list string :=
  ["delivered"; "collected"; "processedAndPacked"].

(** A request with an id that is no ObjectId, for a cast that takes the
    ids made of 24 characters. *)
Module SampleMalformed.

Definition castObjectId (v : JValue) : option string :=
  match v with
  | JStr s => if (String.length s =? 24)%nat then Some s else None
  | _ => None
  end.

Definition req : Request :=
  mkRequest (JObj [("status", JStr "delivered")]) [("id", "42")] [].

End SampleMalformed.

(** A patch of the sample entry that moves the expected date and sets
    the status. *)
Module SampleConflict.

Definition fields : list (string * JValue) :=
  [("pickupAndDelivery",
    JObj [("expectedDeliveryDate", JDate 1737100000000)]);
   ("status", JStr "delivered")].

Definition req : Request := mkRequest (JObj fields) [("id", "entry0")] [].


End SampleConflict.

(** The sample entry, once delivered, is set back to pending. *)
Module SampleReopen.

Definition fields : list (string * JValue) := [("status", JStr "pending")].

Definition req : Request := mkRequest (JObj fields) [("id", "entry0")] [].

Definition now2 : Z := SampleUpdate.now1 + 60000.


End SampleReopen.

(** The body of the sample creation with fields of the entry that the
    handler does not read. *)
Module SampleForged.

Definition forgedBody : JValue :=
  match Sample.createBody with
  | JObj fs =>
      JObj (fs ++ [("receiptNo", JStr "9999"); ("status", JStr "delivered");
                   ("visible", JBool false);
                   ("customerPhone", JStr "0000000000")])
  | other => other
  end.

Definition req : Request := mkRequest forgedBody [] [].

End SampleForged.

(** ** Pages of a listing *)

(** The request for page [page] of a listing with [limit] entries to a
    page. *)
Definition pageRequest (page limit : Z) (showAll : option string) : Request :=
  mkRequest JUndefined []
    ([("page", JS.ToString page); ("limit", JS.ToString limit)]
     ++ match showAll with
        | Some v => [("showAll", v)]
        | None => []
        end).

(** The request with the page set to 1. *)
Definition firstPage (req : Request) : Request :=
  mkRequest (body req) (params req) (("page", "1") :: query req).

(** ** Requests to the dashboard *)

(** The request for the summary ([type] is [None]) or for the listing of
    a type, first page. *)
Definition dashboardRequest (type showAll : option string) : Request :=
  mkRequest JUndefined []
    (match type with
     | Some t => [("type", t)]
     | None => []
     end
     ++ match showAll with
        | Some v => [("showAll", v)]
        | None => []
        end).

(** The types of a listing. *)
Definition listedTypes : list string :=
  ["pending"; "collected"; "processedAndPacked"; "delivered";
   "todayExpected"; "todayReceived"].

(** The fields of an order in a listing: the selection and the id. *)
Definition selectedFields : list string :=
  ["_id"; "customer"; "customerId"; "receiptNo"; "status"; "charges";
   "pickupAndDelivery"; "createdAt"].

(** ** The yearly and monthly figures of [getRecentOrdersCount] *)

(** One more document in the group of key [k] of a [$group] with
    [totalSales: { $sum: "$charges.totalAmount" }] and
    [orderCount: { $sum: 1 }]; a group is [(_id, (totalSales,
    orderCount))]. *)
Fixpoint addGroup {K : Type} (eqb : K -> K -> bool) (k : K) (amount : Z)
  (groups : list (K * (Z * Z))) : list (K * (Z * Z)) :=
  match groups with
  | [] => [(k, (amount, 1))]
  | (k', (sales, n)) :: groups' =>
      if eqb k' k then (k', (sales + amount, n + 1)) :: groups'
      else (k', (sales, n)) :: addGroup eqb k amount groups'
  end.

(** [map[item._id] = item] for each item in turn: a later item of the
    same id takes the place of an earlier one. *)
Fixpoint assignGroup {K : Type} (eqb : K -> K -> bool) (item : K * (Z * Z))
  (table : list (K * (Z * Z))) : list (K * (Z * Z)) :=
  match table with
  | [] => [item]
  | (k', v') :: table' =>
      if eqb k' (fst item) then item :: table'
      else (k', v') :: assignGroup eqb item table'
  end.

(** [map[k]], when it is there. *)
Fixpoint lookupGroup {K : Type} (eqb : K -> K -> bool) (k : K)
  (table : list (K * (Z * Z))) : option (Z * Z) :=
  match table with
  | [] => None
  | (k', v) :: table' => if eqb k' k then Some v else lookupGroup eqb k table'
  end.

(** [{ $sort: { _id: 1 } }] as an insertion sort by [leb]. *)
Fixpoint insertAsc {K : Type} (leb : K -> K -> bool) (g : K * (Z * Z))
  (l : list (K * (Z * Z))) : list (K * (Z * Z)) :=
  match l with
  | [] => [g]
  | h :: l' => if leb (fst g) (fst h) then g :: l else h :: insertAsc leb g l'
  end.

Fixpoint sortAsc {K : Type} (leb : K -> K -> bool) (l : list (K * (Z * Z)))
  : list (K * (Z * Z)) :=
  match l with
  | [] => []
  | g :: l' => insertAsc leb g (sortAsc leb l')
  end.


Definition utcMonth (t : Z) : Z := snd (fst (civilFromDays (dayOf 0 t))).






(** [now.getFullYear()] and [now.getMonth() + 1] on the clock of the
    server. *)
Definition currentYear (z : Zone) (now : Z) : Z :=
  fst (fst (civilFromDays (dayOf 0 (localTime z now)))).

Definition currentMonth (z : Zone) (now : Z) : Z :=
  snd (fst (civilFromDays (dayOf 0 (localTime z now)))).

(** [new Date(currentYear, 0, 1)]: midnight of the first of January on
    the clock of the server. *)
Definition yearStart (z : Zone) (year : Z) : Z := localDate z year 0 1.

(** The documents that pass [{ createdAt: { $gte: start } }], each with
    its date: only a date compares with a date. *)
Definition datedSince (start : Z) (l : list JValue) : list (Z * JValue) :=
  flat_map
    (fun d =>
       match getField "createdAt" d with
       | JDate t => if start <=? t then [(t, d)] else []
       | _ => []
       end)
    l.

(** The [$group] of the facet [monthlySales], by [$month]. *)
Definition groupByMonth (l : list (Z * JValue)) : list (Z * (Z * Z)) :=
  fold_left
    (fun groups td => addGroup Z.eqb (utcMonth (fst td)) (amountOf (snd td))
                        groups)
    l [].

(** One element of [monthlySales]: [(month, totalSales, orderCount)]
    with [monthlyMap[month]?.totalSales || 0] and the same for the
    count. *)
Definition monthlyRow (monthlyMap : list (Z * (Z * Z))) (month : Z)
  : Z * Z * Z :=
  match lookupGroup Z.eqb month monthlyMap with
  | Some (sales, n) => (month, sales, n)
  | None => (month, 0, 0)
  end.

(** The months of the loop [for (month = 1; month <= currentMonth;
    month++)]. *)
Definition monthsUpTo (currentMonth : Z) : list Z :=
  map Z.of_nat (seq 1 (Z.to_nat currentMonth)).

(** The facet [monthlySales] and the loop over it. *)
Definition monthlySales (z : Zone) (now : Z) (s : Store)
  : list (Z * Z * Z) :=
  let start := yearStart z (currentYear z now) in
  let items := sortAsc Z.leb (groupByMonth (datedSince start (entries s))) in
  let monthlyMap :=
    fold_left (fun table item => assignGroup Z.eqb item table) items [] in
  map (monthlyRow monthlyMap) (monthsUpTo (currentMonth z now)).


(** The sum of the amounts of a list of documents. *)
Definition totalAmount (l : list JValue) : Z :=
  fold_right (fun d acc => amountOf d + acc) 0 l.

(** The documents that a row of a month counts. *)
Definition inMonth (start month : Z) (d : JValue) : bool :=
  match getField "createdAt" d with
  | JDate t => (start <=? t) && (utcMonth t =? month)
  | _ => false
  end.

(** The documents that a row of a date counts. *)
Definition onDate (start : Z) (date : string) (d : JValue) : bool :=
  createdSince start d && (dateStringOf d =? date)%string.

(** The totals of the group of key [k]; zeros when there is none. *)
Definition totalsOf {K : Type} (eqb : K -> K -> bool) (k : K)
  (groups : list (K * (Z * Z))) : Z * Z :=
  match lookupGroup eqb k groups with
  | Some v => v
  | None => (0, 0)
  end.




(** ** The Staff schema *)

(** The patterns of the schema are sequences of character classes, each
    taken once or one or more times.  Text is ASCII here. *)
Inductive Quantifier : Type :=
| Once
| OneOrMore.

Definition Element : Type := ((ascii -> bool) * Quantifier)%type.

(** [class+] followed by what [next] matches: one character of the
    class, and then either the rest or more of the class. *)
Fixpoint oneOrMore (class : ascii -> bool) (next : string -> bool)
  (s : string) : bool :=
  match s with
  | String c s' => class c && (next s' || oneOrMore class next s')
  | EmptyString => false
  end.

(** A match of the elements at the start of [s]; with [toEnd] (the [$]
    of a pattern without the flag [m]) the match has to use up [s]. *)
Fixpoint matchElements (elements : list Element) (toEnd : bool) (s : string)
  : bool :=
  match elements with
  | [] => if toEnd then (s =? "")%string else true
  | (class, Once) :: rest =>
      match s with
      | String c s' => class c && matchElements rest toEnd s'
      | EmptyString => false
      end
  | (class, OneOrMore) :: rest =>
      oneOrMore class (matchElements rest toEnd) s
  end.

(** A match at some position of [s]. *)
Fixpoint searchElements (elements : list Element) (toEnd : bool) (s : string)
  : bool :=
  matchElements elements toEnd s
  || match s with
     | String _ s' => searchElements elements toEnd s'
     | EmptyString => false
     end.

(** [[6-9]], [\d] and [\S]. *)
Definition sixToNine (c : ascii) : bool :=
  let n := nat_of_ascii c in ((54 <=? n) && (n <=? 57))%nat.

Definition nonSpace (c : ascii) : bool := negb (JS.isWhiteSpace c).

Definition isChar (x c : ascii) : bool := Ascii.eqb c x.

(** [/^[6-9]\d{9}$/.test(s)]. *)
Definition phoneMatch (s : string) : bool :=
  matchElements ((sixToNine, Once) :: repeat (JS.isDigit, Once) 9) true s.

(** [/\S+@\S+\.\S+/.test(s)]. *)
Definition emailMatch (s : string) : bool :=
  searchElements
    [(nonSpace, OneOrMore); (isChar "@", Once); (nonSpace, OneOrMore);
     (isChar ".", Once); (nonSpace, OneOrMore)]
    false s.

Module Staff.

(** The paths of a Staff document that are strings: what is given to
    [new Staff(...)], and what the document holds.  [None] is a path
    that is not given. *)
Record Fields : Type := mkFields {
  firstName : option string;
  lastName : option string;
  phone : option string;
  email : option string;
  password : option string;
  address : option string;
  role : option string
}.

(** [default: value]. *)
Definition orDefault (v : option string) (value : string) : option string :=
  match v with
  | Some x => Some x
  | None => Some value
  end.

(** The document of [new Staff(given)]: the setters [trim] and
    [lowercase] on what is given, the defaults for what is not. *)
Definition new (given : Fields) : Fields :=
  mkFields
    (option_map JS.trim (firstName given))
    (orDefault (option_map JS.trim (lastName given)) "")
    (option_map JS.trim (phone given))
    (option_map (fun v => JS.trim (lowerString v)) (email given))
    (password given)
    (orDefault (option_map JS.trim (address given)) "")
    (orDefault (role given) "staff").

(** Why a path is refused. *)
Inductive Invalid : Type :=
| Required
| NoMatch (message : string)
| TooShort
| NotInEnum.


(** [match: [pattern, message]]: a value that is there and not empty has
    to match. *)
Definition matches (test : string -> bool) (message : string)
  (v : option string) : option Invalid :=
  match v with
  | Some x =>
      if (x =? "")%string then None
      else if test x then None else Some (NoMatch message)
  | None => None
  end.





End Staff.

(** A staff member as a form may send it. *)
Module SampleStaff.

Definition given : Staff.Fields :=
  Staff.mkFields (Some "  Asha ") None (Some " 9876543210")
    (Some "Asha.Rao@Example.COM ") (Some "secret") None None.

End SampleStaff.

(** * Properties *)

(** ** Fields and paths *)

Lemma lookup_assign_same k v fs : lookupField k (assignField k v fs) = v.
Proof.
  induction fs as [|[k' v'] fs IH]; simpl.
  - now rewrite String.eqb_refl.
  - destruct (String.eqb_spec k' k) as [->|Hne]; simpl.
    + now rewrite String.eqb_refl.
    + destruct (String.eqb_spec k' k); [contradiction | exact IH].
Qed.

Lemma lookup_assign_other k k' v fs :
  k <> k' -> lookupField k (assignField k' v fs) = lookupField k fs.
Proof.
  intros Hne.
  induction fs as [|[k2 v2] fs IH]; simpl.
  - destruct (String.eqb_spec k' k); [congruence | reflexivity].
  - destruct (String.eqb_spec k2 k') as [->|Hne2]; simpl.
    + destruct (String.eqb_spec k' k); [congruence | reflexivity].
    + destruct (String.eqb_spec k2 k); [reflexivity | exact IH].
Qed.

Lemma getField_setField_same k v fs :
  getField k (setField k v (JObj fs)) = v.
Proof. apply lookup_assign_same. Qed.

Lemma getField_setField_other k k' v d :
  k <> k' -> getField k (setField k' v d) = getField k d.
Proof.
  intros Hne. destruct d; try reflexivity.
  simpl. now apply lookup_assign_other.
Qed.

(** ** Receipt numbers as text *)

Ltac eval_decValue :=
  match goal with
  | |- context [JS.decValue ?c] =>
      let v := eval vm_compute in (JS.decValue c) in
      change (JS.decValue c) with v
  end.

Lemma readDigits_acc (d : Decimal.uint) (p : positive) :
  JS.readDigits JS.decValue 10 (NilEmpty.string_of_uint d) (Z.pos p) true
  = Some (Z.pos (Pos.of_uint_acc d p)).
Proof.
  revert p.
  induction d; intro p;
    cbn [NilEmpty.string_of_uint JS.readDigits Pos.of_uint_acc];
    try reflexivity;
    eval_decValue; cbv beta iota; rewrite <- IHd; f_equal; lia.
Qed.

Lemma readDigits_value (d : Decimal.uint) :
  JS.readDigits JS.decValue 10 (NilEmpty.string_of_uint d) 0 true
  = Some (Z.of_N (Pos.of_uint d)).
Proof.
  induction d;
    cbn [NilEmpty.string_of_uint JS.readDigits Pos.of_uint];
    try reflexivity;
    eval_decValue; cbv beta iota.
  - exact IHd.
  - apply (readDigits_acc d 1).
  - apply (readDigits_acc d 2).
  - apply (readDigits_acc d 3).
  - apply (readDigits_acc d 4).
  - apply (readDigits_acc d 5).
  - apply (readDigits_acc d 6).
  - apply (readDigits_acc d 7).
  - apply (readDigits_acc d 8).
  - apply (readDigits_acc d 9).
Qed.

(** The digits of a number are decimal digits. *)
Lemma string_of_uint_digits (d : Decimal.uint) :
  JS.allChars JS.isDigit (NilEmpty.string_of_uint d) = true.
Proof.
  induction d; simpl; auto.
Qed.

(** ** Doubles *)

Lemma roundDouble_small (x : Z) :
  Z.abs x <= 2 ^ 53 -> JS.roundDouble x = x.
Proof.
  intros Hx. unfold JS.roundDouble. cbv zeta.
  destruct (Z.ltb_spec (Z.abs x) (2 ^ 53)) as [_|Hge]; [reflexivity|].
  assert (E : Z.abs x = 2 ^ 53) by lia.
  rewrite E.
  destruct (Z.abs_eq_or_opp x) as [Ex|Ex]; rewrite Ex in E.
  - rewrite E. reflexivity.
  - assert (Ex' : x = - 2 ^ 53) by lia. rewrite Ex'. reflexivity.
Qed.

(** Rounding keeps the sign. *)
Lemma roundDouble_sign (x : Z) :
  (x < 0 -> JS.roundDouble x < 0) /\ (0 <= x -> 0 <= JS.roundDouble x).
Proof.
  unfold JS.roundDouble. cbv zeta.
  destruct (Z.ltb_spec (Z.abs x) (2 ^ 53)) as [_|Hge]; [lia|].
  set (a := Z.abs x) in *.
  set (ulp := 2 ^ (Z.log2 a - 52)).
  assert (Ha : 0 < a) by lia.
  assert (Hlog : 53 <= Z.log2 a).
  { apply Z.log2_le_pow2; [exact Ha | exact Hge]. }
  assert (Hulp : 0 < ulp) by (apply Z.pow_pos_nonneg; lia).
  assert (Hle : ulp <= a).
  { destruct (Z.log2_spec a Ha) as [Hlo _].
    apply Z.le_trans with (2 ^ Z.log2 a); [|exact Hlo].
    apply Z.pow_le_mono_r; lia. }
  assert (Hq : 1 <= a / ulp).
  { apply Z.div_le_lower_bound; lia. }
  set (q := a / ulp) in *.
  set (q' := if 2 * (a mod ulp) <? ulp then q
             else if ulp <? 2 * (a mod ulp) then q + 1
             else if Z.even q then q else q + 1).
  assert (Hq' : 1 <= q').
  { unfold q'. destruct (2 * (a mod ulp) <? ulp); [lia|].
    destruct (ulp <? 2 * (a mod ulp)); [lia|].
    destruct (Z.even q); lia. }
  assert (Hpos : 0 < q' * ulp) by nia.
  split; intros Hx.
  - rewrite (Z.sgn_neg x Hx). lia.
  - destruct (Z.eq_dec x 0) as [E|E]; [subst x; unfold a in Hge; simpl in Hge; lia|].
    rewrite (Z.sgn_pos x) by lia. lia.
Qed.

(** The skip of a page before the first is negative. *)
Lemma skip_negative (page limit : Z) :
  page <= 0 -> 0 < limit -> JS.mul (JS.sub page 1) limit < 0.
Proof.
  intros Hp Hl. unfold JS.mul, JS.sub.
  assert (H : JS.roundDouble (page - 1) < 0)
    by (apply roundDouble_sign; lia).
  apply roundDouble_sign. nia.
Qed.

Lemma add_exact (a b : Z) :
  Z.abs (a + b) <= 2 ^ 53 -> JS.add a b = a + b.
Proof. apply roundDouble_small. Qed.

Lemma sub_exact (a b : Z) :
  Z.abs (a - b) <= 2 ^ 53 -> JS.sub a b = a - b.
Proof. apply roundDouble_small. Qed.

Lemma mul_exact (a b : Z) :
  Z.abs (a * b) <= 2 ^ 53 -> JS.mul a b = a * b.
Proof. apply roundDouble_small. Qed.

Lemma ToString_nonneg (n : Z) :
  0 <= n <= 2 ^ 53 ->
  exists d, JS.ToString n = NilEmpty.string_of_uint d
            /\ d <> Decimal.Nil /\ Z.of_N (Pos.of_uint d) = n.
Proof.
  intros Hn. unfold JS.ToString. cbv zeta.
  destruct (Z.leb_spec (Z.abs n) (2 ^ 53)) as [_|Hgt]; [|lia].
  destruct n as [|p|p]; [| | lia].
  - exists (Decimal.D0 Decimal.Nil). repeat split; discriminate.
  - exists (Pos.to_uint p). repeat split.
    + apply DecimalPos.Unsigned.to_uint_nonnil.
    + rewrite DecimalPos.Unsigned.of_to. reflexivity.
Qed.

Lemma readDigits_seen (s : string) (acc : Z) :
  JS.allChars JS.isDigit s = true -> s <> "" ->
  JS.readDigits JS.decValue 10 s acc false
  = JS.readDigits JS.decValue 10 s acc true.
Proof.
  destruct s as [|c s']; [congruence|].
  intros H _. simpl in H. apply andb_prop in H as [Hc _].
  cbn [JS.readDigits]. unfold JS.decValue. rewrite Hc. reflexivity.
Qed.

Lemma digit_not_special (c : ascii) :
  JS.isDigit c = true ->
  JS.isWhiteSpace c = false
  /\ Ascii.eqb c "-" = false /\ Ascii.eqb c "+" = false
  /\ Ascii.eqb c "x" = false /\ Ascii.eqb c "X" = false.
Proof.
  destruct c as [[|] [|] [|] [|] [|] [|] [|] [|]];
    vm_compute; intros H; try discriminate H; repeat split.
Qed.

(** A byte below 128 starts no white space unless it is white space
    itself. *)
Lemma whiteSpaceLength_ascii (c : ascii) (r : string) :
  (JS.code c < 128)%N -> JS.isWhiteSpace c = false ->
  JS.whiteSpaceLength (String c r) = 0%nat.
Proof.
  intros Hc Hw. cbn [JS.whiteSpaceLength]. rewrite Hw.
  destruct r as [|b r2]; [reflexivity|].
  unfold JS.narrow.
  destruct (N.eqb_spec (JS.code c) 194) as [E|_]; [lia|]. cbn [andb].
  destruct r2 as [|d r3]; [reflexivity|].
  unfold JS.wide. cbv zeta.
  destruct (N.eqb_spec (JS.code c) 225) as [E|_]; [lia|].
  destruct (N.eqb_spec (JS.code c) 226) as [E|_]; [lia|].
  destruct (N.eqb_spec (JS.code c) 227) as [E|_]; [lia|].
  destruct (N.eqb_spec (JS.code c) 239) as [E|_]; [lia|].
  reflexivity.
Qed.

Lemma trimStart_ascii (c : ascii) (r : string) :
  (JS.code c < 128)%N -> JS.isWhiteSpace c = false ->
  JS.trimStart (String c r) = String c r.
Proof.
  intros Hc Hw. unfold JS.trimStart. cbn [JS.dropSpace].
  now rewrite (whiteSpaceLength_ascii c r Hc Hw).
Qed.

Lemma digit_code (c : ascii) : JS.isDigit c = true -> (JS.code c < 128)%N.
Proof.
  destruct c as [[|] [|] [|] [|] [|] [|] [|] [|]];
    vm_compute; intros H; try discriminate H; reflexivity.
Qed.

Lemma option_map_mul_1 (o : option Z) :
  option_map (fun v => JS.roundDouble (1 * v)) o
  = option_map JS.roundDouble o.
Proof.
  destruct o as [v|]; simpl; [|reflexivity].
  destruct v; reflexivity.
Qed.

(** On a run of digits [parseInt] reads the decimal value. *)
Lemma parseInt_digits (s : string) :
  JS.allChars JS.isDigit s = true -> s <> "" ->
  JS.parseInt s
  = option_map JS.roundDouble (JS.readDigits JS.decValue 10 s 0 true).
Proof.
  intros Hs Hne. rewrite <- (readDigits_seen s 0 Hs Hne).
  destruct s as [|c s']; [congruence|].
  pose proof Hs as Hs0. simpl in Hs0. apply andb_prop in Hs0 as [Hc Hs'].
  destruct (digit_not_special c Hc) as (Hw & Hm & Hp & _).
  unfold JS.parseInt. rewrite (trimStart_ascii c s' (digit_code c Hc) Hw).
  assert (Hsign :
    match String c s' with
    | String "-"%char r => (-1, r)
    | String "+"%char r => (1, r)
    | _ => (1, String c s')
    end = (1, String c s')).
  { destruct (Ascii.eqb_spec c "-") as [->|]; [discriminate Hm|].
    destruct (Ascii.eqb_spec c "+") as [->|]; [discriminate Hp|].
    destruct c as [[|] [|] [|] [|] [|] [|] [|] [|]];
      try reflexivity; congruence. }
  rewrite Hsign.
  assert (Hmag :
    match String c s' with
    | String "0"%char (String x r) =>
        if (Ascii.eqb x "x" || Ascii.eqb x "X")%bool
        then JS.readDigits JS.hexValue 16 r 0 false
        else JS.readDigits JS.decValue 10 (String c s') 0 false
    | _ => JS.readDigits JS.decValue 10 (String c s') 0 false
    end = JS.readDigits JS.decValue 10 (String c s') 0 false).
  { destruct s' as [|x r].
    - destruct c as [[|] [|] [|] [|] [|] [|] [|] [|]]; reflexivity.
    - simpl in Hs'. apply andb_prop in Hs' as [Hx _].
      destruct (digit_not_special x Hx) as (_ & _ & _ & Hx1 & Hx2).
      rewrite Hx1, Hx2.
      destruct c as [[|] [|] [|] [|] [|] [|] [|] [|]]; reflexivity. }
  rewrite Hmag. apply option_map_mul_1.
Qed.

Lemma length_app_string (a b : string) :
  String.length (a ++ b) = (String.length a + String.length b)%nat.
Proof.
  induction a as [|c a IH]; simpl; [reflexivity | now rewrite IH].
Qed.

Lemma allChars_app (p : ascii -> bool) (a b : string) :
  JS.allChars p (a ++ b) = JS.allChars p a && JS.allChars p b.
Proof.
  induction a as [|c a IH]; simpl; [reflexivity|].
  rewrite IH. now rewrite andb_assoc.
Qed.

(** The filler taken from the pad string [0]. *)
Lemma fillTo_zeros (k : nat) (cur : string) :
  cur = "0" \/ cur = "" ->
  String.length (JS.fillTo "0" cur k) = k
  /\ JS.allChars JS.isDigit (JS.fillTo "0" cur k) = true
  /\ forall s,
       JS.readDigits JS.decValue 10 (JS.fillTo "0" cur k ++ s) 0 true
       = JS.readDigits JS.decValue 10 s 0 true.
Proof.
  revert cur.
  induction k as [|k IH]; intros cur Hcur.
  - simpl. repeat split.
  - assert (Hstep : JS.fillTo "0" cur (S k)
                    = String "0" (JS.fillTo "0" "" k)).
    { destruct Hcur as [-> | ->]; reflexivity. }
    rewrite Hstep.
    destruct (IH "" (or_intror eq_refl)) as (Hlen & Hdig & Hread).
    repeat split.
    + simpl. now rewrite Hlen.
    + simpl. exact Hdig.
    + intro s. cbn [append JS.readDigits].
      change (JS.decValue "0") with (Some 0). cbv beta iota.
      change (0 * 10 + 0) with 0. apply Hread.
Qed.

(** [formatReceiptNo n] is the digits of [n] after a run of zeros. *)
Lemma formatReceiptNo_padding (n : Z) :
  exists k,
    formatReceiptNo n = JS.fillTo "0" "0" k ++ JS.ToString n
    /\ (4 <= k + String.length (JS.ToString n))%nat.
Proof.
  unfold formatReceiptNo, JS.padStart.
  destruct (Nat.leb_spec 4 (String.length (JS.ToString n))) as [Hle|Hlt].
  - exists 0%nat. split; [reflexivity | lia].
  - change ("0" =? "")%string with false. cbv iota.
    exists (4 - String.length (JS.ToString n))%nat. split; [reflexivity|lia].
Qed.

(** A receipt number has at least four characters, all of them decimal
    digits, and reads back as the counter value. *)
Lemma formatReceiptNo_shape (n : Z) :
  0 <= n <= 2 ^ 53 ->
  (4 <= String.length (formatReceiptNo n))%nat
  /\ JS.allChars JS.isDigit (formatReceiptNo n) = true
  /\ JS.parseInt (formatReceiptNo n) = Some n.
Proof.
  intros Hn.
  destruct (formatReceiptNo_padding n) as (k & Hfmt & Hlen).
  destruct (ToString_nonneg n Hn) as (d & Hd & Hnil & Hval).
  destruct (fillTo_zeros k "0" (or_introl eq_refl)) as (Hk & Hdig & Hread).
  assert (Hall : JS.allChars JS.isDigit (formatReceiptNo n) = true).
  { rewrite Hfmt, allChars_app, Hdig, Hd. apply string_of_uint_digits. }
  assert (Hlong : (4 <= String.length (formatReceiptNo n))%nat).
  { rewrite Hfmt, length_app_string, Hk. exact Hlen. }
  repeat split; try assumption.
  rewrite parseInt_digits; try assumption.
  - rewrite Hfmt, Hread, Hd, readDigits_value, Hval. cbn [option_map].
    rewrite roundDouble_small by lia. reflexivity.
  - intro E. rewrite E in Hlong. simpl in Hlong. lia.
Qed.

Lemma formatReceiptNo_inj (n m : Z) :
  0 <= n <= 2 ^ 53 -> 0 <= m <= 2 ^ 53 ->
  formatReceiptNo n = formatReceiptNo m -> n = m.
Proof.
  intros Hn Hm E.
  destruct (formatReceiptNo_shape n Hn) as (_ & _ & Pn).
  destruct (formatReceiptNo_shape m Hm) as (_ & _ & Pm).
  rewrite E in Pn. congruence.
Qed.

(** ** Creation *)

Ltac break_in H :=
  repeat match type of H with
    | context [match ?x with _ => _ end] =>
        match x with
        | context [match _ with _ => _ end] => fail 1
        | _ => destruct x eqn:?; simpl in H
        end
    end.

Section CreateFacts.

Variable castObjectId : JValue -> option string.
Variable newObjectId : Z -> string.
Variable entrySaveError : Store -> JValue -> option string.
Variable stats : Store -> Outcome unit * JValue.

(** What a creation that answers 201 has done. *)
Lemma createNewentry_created now req s resp s' :
  createNewentry castObjectId newObjectId entrySaveError stats now req s
  = (resp, s') ->
  status resp = 201 ->
  exists n rest products' doc mid,
    receiptNumbers s = n :: rest
    /\ receiptNumbers s' = JS.add n 1 :: rest
    /\ entries s'
       = (entries s
          ++ [setField "updatedAt" (JDate now)
                (setField "createdAt" (JDate now) doc)])%list
    /\ customers s' = customers s
    /\ json resp
       = JObj [("success", JBool true);
               ("message", JStr "Entry created successfully");
               ("data", setField "updatedAt" (JDate now)
                          (setField "createdAt" (JDate now) doc))]
    /\ getField "receiptNo" doc = JStr (formatReceiptNo n)
    /\ defaultProducts (getField "products" (body req)) = Return products'
    /\ getField "products" doc = products'
    /\ getField "charges" doc
       = defaultCharges (getField "charges" (body req))
    /\ getField "visible" doc = JBool true
    /\ getField "status" doc = JStr "pending"
    /\ receiptNumbers mid = JS.add n 1 :: rest
    /\ entries mid = entries s
    /\ entrySaveError mid doc = None
    /\ fst (stats (withEntries (entries s') mid)) = Return tt.
Proof.
  unfold createNewentry, tryCatch, bind, destructure, member, findById,
    lift, ReceiptNumber_findOne, receiptRecord_save, Entry_new, newDocument, newEntryFields,
    Entry_insert, runManualUpdateStats, ret, throw.
  intros H Hst.
  break_in H; inversion H; subst; simpl in Hst; try discriminate Hst.
  clear H Hst.
  destruct (receiptNumbers s) as [|n rest] eqn:Hrec; [discriminate|].
  simpl in *.
  match goal with
  | E : Some _ = Some _ |- _ => injection E as <-
  end.
  match goal with
  | E : entrySaveError ?m ?d = None |- _ =>
      exists n, rest, a, d, m
  end.
  simpl.
  repeat split; try reflexivity; try assumption.
  match goal with
  | E : stats _ = (_, _) |- _ => rewrite E
  end.
  destruct a0. reflexivity.
Qed.


(** C2, amended.  A creation that succeeds gives the entry the value
    [n] of the counter as a decimal string padded with zeros to four
    characters, and stores the entry.  When [0 <= n < 2^53], the counter
    is left at [n + 1], the entry's save already runs on the store with
    that value, the receipt number is made of at least four digits that
    read back as [n], and the next creation that succeeds gets a
    different one. *)
Theorem createNewentry_receipt_number now req s resp s' :
  createNewentry castObjectId newObjectId entrySaveError stats now req s
  = (resp, s') ->
  status resp = 201 ->
  exists n rest,
    receiptNumbers s = n :: rest
    /\ getField "receiptNo" (getField "data" (json resp))
       = JStr (JS.padStart (JS.ToString n) 4 "0")
    /\ In (getField "data" (json resp)) (entries s')
    /\ (0 <= n < 2 ^ 53 ->
        receiptNumbers s' = (n + 1) :: rest
        /\ (exists mid doc,
              receiptNumbers mid = (n + 1) :: rest
              /\ entries mid = entries s
              /\ entrySaveError mid doc = None
              /\ getField "data" (json resp)
                 = setField "updatedAt" (JDate now)
                     (setField "createdAt" (JDate now) doc))
        /\ (4 <= String.length (JS.padStart (JS.ToString n) 4 "0"))%nat
        /\ JS.allChars JS.isDigit (JS.padStart (JS.ToString n) 4 "0") = true
        /\ JS.parseInt (JS.padStart (JS.ToString n) 4 "0") = Some n
        /\ forall now2 req2 resp2 s2,
             createNewentry castObjectId newObjectId entrySaveError stats
               now2 req2 s' = (resp2, s2) ->
             status resp2 = 201 ->
             getField "receiptNo" (getField "data" (json resp2))
             <> getField "receiptNo" (getField "data" (json resp))).
Proof.
  intros H Hst.
  destruct (createNewentry_created now req s resp s' H Hst)
    as (n & rest & products' & doc & mid & Hrec & Hrec' & Hent & _ & Hjson
        & Hno & _ & _ & _ & _ & _ & Hmid & Hmide & Hsave & _).
  assert (Hdata : getField "receiptNo" (getField "data" (json resp))
                  = JStr (formatReceiptNo n)).
  { rewrite Hjson. simpl.
    destruct doc as [| | | | | |items|fs]; try discriminate Hno.
    simpl in Hno |- *.
    rewrite !lookup_assign_other by discriminate. exact Hno. }
  exists n, rest.
  split; [exact Hrec|]. split; [exact Hdata|].
  split.
  { rewrite Hjson, Hent. simpl. apply in_or_app. right. left. reflexivity. }
  intros Hn.
  assert (Hadd : JS.add n 1 = n + 1) by (apply add_exact; lia).
  rewrite Hadd in Hrec', Hmid.
  assert (Hn' : 0 <= n <= 2 ^ 53) by lia.
  split; [exact Hrec'|].
  split.
  { exists mid, doc. rewrite Hjson. repeat split; assumption. }
  split; [apply (formatReceiptNo_shape n Hn')|].
  split; [apply (formatReceiptNo_shape n Hn')|].
  split; [apply (formatReceiptNo_shape n Hn')|].
  intros now2 req2 resp2 s2 H2 Hst2.
  destruct (createNewentry_created now2 req2 s' resp2 s2 H2 Hst2)
    as (m & rest2 & products2 & doc2 & mid2 & Hrec2 & _ & _ & _ & Hjson2
        & Hno2 & _).
  rewrite Hrec' in Hrec2. injection Hrec2 as <- _.
  rewrite Hdata, Hjson2. simpl.
  destruct doc2 as [| | | | | |items|fs]; try discriminate Hno2.
  simpl in Hno2 |- *.
  rewrite !lookup_assign_other by discriminate. rewrite Hno2.
  intros E. injection E as E.
  apply formatReceiptNo_inj in E; lia.
Qed.

End CreateFacts.

(** The sample creation answers 201 with receipt number 0007, and the
    theorem applies to it. *)
Lemma createNewentry_receipt_number_witness :
  status (fst Sample.created) = 201
  /\ exists n rest,
       receiptNumbers Sample.store0 = n :: rest
       /\ getField "receiptNo" (getField "data" (json (fst Sample.created)))
          = JStr (JS.padStart (JS.ToString n) 4 "0")
       /\ In (getField "data" (json (fst Sample.created)))
            (entries (snd Sample.created))
       /\ (0 <= n < 2 ^ 53 ->
           receiptNumbers (snd Sample.created) = (n + 1) :: rest
           /\ (exists mid doc,
                 receiptNumbers mid = (n + 1) :: rest
                 /\ entries mid = entries Sample.store0
                 /\ Sample.entrySaveError mid doc = None
                 /\ getField "data" (json (fst Sample.created))
                    = setField "updatedAt" (JDate Sample.now0)
                        (setField "createdAt" (JDate Sample.now0) doc))
           /\ (4 <= String.length (JS.padStart (JS.ToString n) 4 "0"))%nat
           /\ JS.allChars JS.isDigit (JS.padStart (JS.ToString n) 4 "0")
              = true
           /\ JS.parseInt (JS.padStart (JS.ToString n) 4 "0") = Some n
           /\ forall now2 req2 resp2 s2,
                createNewentry Sample.castObjectId Sample.newObjectId
                  Sample.entrySaveError
                  (manualUpdateStats Sample.recompute)
                  now2 req2 (snd Sample.created) = (resp2, s2) ->
                status resp2 = 201 ->
                getField "receiptNo" (getField "data" (json resp2))
                <> getField "receiptNo"
                     (getField "data" (json (fst Sample.created)))).
Proof.
  split; [vm_compute; reflexivity|].
  apply (createNewentry_receipt_number Sample.castObjectId
           Sample.newObjectId Sample.entrySaveError
           (manualUpdateStats Sample.recompute)
           Sample.now0 Sample.createReq Sample.store0).
  - apply surjective_pairing.
  - vm_compute; reflexivity.
Defined.

(** C2, as stated, fails at a counter of 2^53: the increment is lost in
    the rounding of [currentReceiptNumber += 1], the counter stays where
    it was, and the next creation gets the same receipt number. *)
Lemma counter_stops_at_two_to_the_53 :
  receiptNumbers SampleLimit.store = [9007199254740992]
  /\ status (fst SampleLimit.first) = 201
  /\ status (fst SampleLimit.second) = 201
  /\ getField "receiptNo" (getField "data" (json (fst SampleLimit.first)))
     = JStr "9007199254740992"
  /\ getField "receiptNo" (getField "data" (json (fst SampleLimit.second)))
     = JStr "9007199254740992"
  /\ receiptNumbers (snd SampleLimit.first) = [9007199254740992]
  /\ receiptNumbers (snd SampleLimit.second) = [9007199254740992].
Proof. vm_compute. repeat split; reflexivity. Qed.

(** ** Updates of a document *)

Lemma isPrefix_refl p : isPrefix p p = true.
Proof.
  induction p as [|a p IH]; simpl; [reflexivity|].
  now rewrite String.eqb_refl.
Qed.

(** A [$set] leaves its value at its path. *)
Lemma getPath_setPath_same p v d d' :
  setPath p v d = Some d' -> getPath p d' = v.
Proof.
  revert d d'.
  induction p as [|k p IH]; intros d d' H; simpl in *.
  - now injection H as <-.
  - destruct d; try discriminate H.
    + destruct (setPath p v JUndefined) as [x|] eqn:E; [|discriminate H].
      injection H as <-. simpl. rewrite String.eqb_refl. eauto.
    + destruct (setPath p v (lookupField k fields)) as [x|] eqn:E;
        [|discriminate H].
      injection H as <-. simpl. rewrite lookup_assign_same. eauto.
Qed.

(** A [$set] leaves the value at a path that does not conflict with its
    own. *)
Lemma getPath_setPath_other p q w d d' :
  pathsConflict p q = false ->
  setPath q w d = Some d' -> getPath p d' = getPath p d.
Proof.
  unfold pathsConflict.
  revert q d d'.
  induction p as [|a p IH]; intros q d d' Hc H.
  - simpl in Hc. discriminate Hc.
  - destruct q as [|b q].
    + simpl in Hc. discriminate Hc.
    + simpl in Hc, H.
      destruct (String.eqb_spec a b) as [->|Hab].
      * rewrite String.eqb_refl in Hc. simpl in Hc.
        destruct d; try discriminate H.
        -- destruct (setPath q w JUndefined) as [x|] eqn:E;
             [|discriminate H].
           injection H as <-. simpl. rewrite String.eqb_refl.
           rewrite (IH q JUndefined x Hc E).
           destruct p; reflexivity.
        -- destruct (setPath q w (lookupField b fields)) as [x|] eqn:E;
             [|discriminate H].
           injection H as <-. simpl. rewrite lookup_assign_same.
           apply (IH q _ x Hc E).
      * destruct d; try discriminate H.
        -- destruct (setPath q w JUndefined) as [x|] eqn:E;
             [|discriminate H].
           injection H as <-. simpl.
           destruct (String.eqb_spec b a); [congruence | reflexivity].
        -- destruct (setPath q w (lookupField b fields)) as [x|] eqn:E;
             [|discriminate H].
           injection H as <-. simpl.
           now rewrite lookup_assign_other.
Qed.

(** The fields applied after a path that conflicts with none of them
    leave its value. *)
Lemma applySet_keeps p fs d d' :
  existsb (pathsConflict p) (map (fun kv => splitDots (fst kv)) fs) = false ->
  applySet fs d = Some d' -> getPath p d' = getPath p d.
Proof.
  revert d.
  induction fs as [|[k v] fs IH]; intros d Hc H; simpl in *.
  - now injection H as <-.
  - apply orb_false_elim in Hc as [Hk Hrest].
    destruct (setPath (splitDots k) v d) as [d1|] eqn:E; [|discriminate H].
    rewrite (IH d1 Hrest H).
    apply (getPath_setPath_other _ _ _ _ _ Hk E).
Qed.

Lemma pathsConflict_sym p q : pathsConflict p q = pathsConflict q p.
Proof. unfold pathsConflict. apply orb_comm. Qed.

(** An update that the store accepts leaves every field of the update
    document at its path. *)
Lemma applySet_sets fs d d' k v :
  anyConflict (map (fun kv => splitDots (fst kv)) fs) = false ->
  applySet fs d = Some d' ->
  In (k, v) fs -> getPath (splitDots k) d' = v.
Proof.
  revert d.
  induction fs as [|[k1 v1] fs IH]; intros d Hc H Hin; simpl in *.
  - contradiction.
  - apply orb_false_elim in Hc as [Hhead Hrest].
    destruct (setPath (splitDots k1) v1 d) as [d1|] eqn:E; [|discriminate H].
    destruct Hin as [Heq | Hin].
    + injection Heq as -> ->.
      rewrite (applySet_keeps _ _ _ _ Hhead H).
      apply (getPath_setPath_same _ _ _ _ E).
    + apply (IH d1 Hrest H Hin).
Qed.

Lemma assign_In k v fs : In (k, v) (assignField k v fs).
Proof.
  induction fs as [|[k' v'] fs IH]; simpl.
  - now left.
  - destruct (k' =? k)%string; [now left | now right].
Qed.

Lemma assign_In_other k v k' v' fs :
  k <> k' -> In (k, v) fs -> In (k, v) (assignField k' v' fs).
Proof.
  intros Hne.
  induction fs as [|[k2 v2] fs IH]; simpl; [contradiction|].
  intros [Heq | Hin].
  - injection Heq as -> ->.
    destruct (String.eqb_spec k k'); [contradiction | now left].
  - destruct (k2 =? k')%string; right; auto.
Qed.

Section UpdateFacts.

Variable castObjectId : JValue -> option string.
Variable updateError : Store -> JValue -> option string.
Variable stats : Store -> Outcome unit * JValue.

(** What an update that answers 200 has done. *)
Lemma updateEntry_updated now req s resp s' :
  updateEntry castObjectId updateError stats now req s = (resp, s') ->
  status resp = 200 ->
  exists oid products' old new,
    castObjectId (JStr (paramId req)) = Some oid
    /\ defaultProducts (getField "products" (body req)) = Return products'
    /\ anyConflict (map (fun kv => splitDots (fst kv))
                      (updateFields (patchedBody now (body req) products')))
       = false
    /\ findFirst (hasId oid) (entries s) = Some old
    /\ applySet (updateFields (patchedBody now (body req) products'))
         (setField "updatedAt" (JDate now) old) = Some new
    /\ entries s' = replaceFirst (hasId oid) new (entries s)
    /\ receiptNumbers s' = receiptNumbers s
    /\ json resp = JObj [("success", JBool true);
                         ("message", JStr "Entry updated successfully");
                         ("data", new)].
Proof.
  unfold updateEntry, tryCatch, bind, destructure, lift,
    Entry_findByIdAndUpdate, runManualUpdateStats, ret, throw.
  intros H Hst.
  break_in H; inversion H; subst; simpl in Hst; try discriminate Hst.
  all: clear H Hst.
  all: match goal with
       | C : castObjectId _ = Some ?i,
         E : defaultProducts _ = Return ?a,
         F : findFirst _ _ = Some ?o,
         G : applySet _ _ = Some ?n |- _ => exists i, a, o, n
       end.
  all: unfold patchedBody.
  all: repeat match goal with
         | E : truthy _ = _ |- _ => rewrite E; clear E
         end.
  all: repeat split; try reflexivity; assumption.
Qed.

Lemma stampStatus_fields now st fs :
  exists fs', stampStatus now st (JObj fs) = JObj fs'.
Proof.
  unfold stampStatus.
  destruct (strictEqString st "delivered"),
    (strictEqString st "collected"),
    (strictEqString st "processedAndPacked"); simpl; eauto.
Qed.

(** The stamps leave the other fields of the body in place. *)
Lemma stampStatus_keeps now st b k v :
  k <> "pickupAndDelivery.deliveryDate" ->
  k <> "pickupAndDelivery.pickupDate" ->
  k <> "pickupAndDelivery.processedAndPackedDate" ->
  In (k, v) (updateFields b) ->
  In (k, v) (updateFields (stampStatus now st b)).
Proof.
  intros H1 H2 H3 Hin.
  destruct b; try contradiction.
  unfold stampStatus.
  destruct (strictEqString st "delivered"),
    (strictEqString st "collected"),
    (strictEqString st "processedAndPacked"); simpl;
    repeat apply assign_In_other; assumption.
Qed.

Lemma patchedBody_object now b products' :
  (exists fs, b = JObj fs) ->
  exists fs', patchedBody now b products' = JObj fs'.
Proof.
  intros [fs ->]. unfold patchedBody.
  destruct (truthy (getField "charges" (JObj fs))),
    (truthy (getField "products" (JObj fs))); simpl;
    apply stampStatus_fields.
Qed.

(** The date that goes with a status is in the patchedBody body. *)
Lemma patchedBody_stamp now b products' name key :
  getField "status" b = JStr name ->
  (name = "delivered" /\ key = "pickupAndDelivery.deliveryDate")
  \/ (name = "collected" /\ key = "pickupAndDelivery.pickupDate")
  \/ (name = "processedAndPacked"
      /\ key = "pickupAndDelivery.processedAndPackedDate") ->
  In (key, JDate now) (updateFields (patchedBody now b products')).
Proof.
  intros Hst Hname.
  assert (Hobj : exists fs, b = JObj fs).
  { destruct b; try discriminate Hst. eauto. }
  unfold patchedBody. rewrite Hst.
  set (inner := if truthy (getField "charges" b) then _ else _).
  assert (Hinner : exists fs, inner = JObj fs).
  { destruct Hobj as [fs ->]. subst inner.
    destruct (truthy (getField "charges" (JObj fs))),
      (truthy (getField "products" (JObj fs))); simpl; eauto. }
  destruct Hinner as [fs ->].
  destruct Hname as [[-> ->] | [[-> ->] | [-> ->]]];
    unfold stampStatus; simpl; apply assign_In.
Qed.


(** The defaults and the stamps leave the other fields of the body. *)
Lemma patchedBody_keeps now b products' k v :
  k <> "products" -> k <> "charges" ->
  k <> "pickupAndDelivery.deliveryDate" ->
  k <> "pickupAndDelivery.pickupDate" ->
  k <> "pickupAndDelivery.processedAndPackedDate" ->
  In (k, v) (updateFields b) ->
  In (k, v) (updateFields (patchedBody now b products')).
Proof.
  intros Hp Hc H1 H2 H3 Hin.
  destruct b; try contradiction.
  unfold patchedBody.
  apply stampStatus_keeps; try assumption.
  destruct (truthy (getField "charges" (JObj fields))),
    (truthy (getField "products" (JObj fields))); simpl;
    repeat apply assign_In_other; assumption.
Qed.

(** The array that [forEach] leaves is the [products] of the patched
    body. *)
Lemma patchedBody_products now b products' :
  truthy (getField "products" b) = true ->
  In ("products", products') (updateFields (patchedBody now b products')).
Proof.
  intros Ht.
  destruct b; try discriminate Ht.
  unfold patchedBody. rewrite Ht.
  apply stampStatus_keeps; try discriminate.
  destruct (truthy (getField "charges" (JObj fields))); simpl.
  - apply assign_In_other; [discriminate | apply assign_In].
  - apply assign_In.
Qed.

Lemma patchedBody_charges now b products' :
  truthy (getField "charges" b) = true ->
  In ("charges", defaultCharges (getField "charges" b))
    (updateFields (patchedBody now b products')).
Proof.
  intros Ht.
  destruct b; try discriminate Ht.
  unfold patchedBody. rewrite Ht.
  apply stampStatus_keeps; try discriminate.
  destruct (truthy (getField "products" (JObj fields))); simpl;
    apply assign_In.
Qed.

(** The stored document after an update that answers 200, and what the
    update wrote at the path of each field of the patched body. *)
Lemma updateEntry_fields now req s resp s' :
  updateEntry castObjectId updateError stats now req s = (resp, s') ->
  status resp = 200 ->
  exists oid products' old new,
    castObjectId (JStr (paramId req)) = Some oid
    /\ defaultProducts (getField "products" (body req)) = Return products'
    /\ findFirst (hasId oid) (entries s) = Some old
    /\ entries s' = replaceFirst (hasId oid) new (entries s)
    /\ getField "data" (json resp) = new
    /\ forall k v,
         In (k, v) (updateFields (patchedBody now (body req) products')) ->
         getPath (splitDots k) new = v.
Proof.
  intros H Hst.
  destruct (updateEntry_updated now req s resp s' H Hst)
    as (oid & products' & old & new & Hoid & Hp & Hc & Hold & Hset & Hent
        & _ & Hjson).
  exists oid, products', old, new. repeat split; try assumption.
  - now rewrite Hjson.
  - intros k v Hin. apply (applySet_sets _ _ _ _ _ Hc Hset Hin).
Qed.


End UpdateFacts.



(** ** Tax defaults *)

Lemma defaultTax_defaulted item item' :
  defaultTax item = Return item' -> defaulted "tax" item item'.
Proof.
  unfold defaultTax. intros H fs ->. simpl in H.
  destruct (negb (truthy (lookupField "tax" fs))
            && notStrictZero (lookupField "tax" fs)) eqn:E;
    injection H as <-.
  - repeat split.
    + intros _. simpl. apply lookup_assign_same.
    + intros n Hn. rewrite Hn in E. simpl in E.
      destruct n; discriminate E.
    + intros k Hk. simpl. now apply lookup_assign_other.
  - repeat split.
    + intros Hu. rewrite Hu in E. discriminate E.
    + intros n Hn. exact Hn.
Qed.

Lemma forEachDefaultTax_defaulted items items' :
  forEachDefaultTax items = Return items' ->
  Forall2 (defaulted "tax") items items'.
Proof.
  revert items'.
  induction items as [|p items IH]; intros items' H; simpl in H.
  - injection H as <-. constructor.
  - destruct (defaultTax p) as [p'|] eqn:Ep; [|discriminate H].
    destruct (forEachDefaultTax items) as [rest|] eqn:Er; [|discriminate H].
    injection H as <-. constructor.
    + now apply defaultTax_defaulted.
    + now apply IH.
Qed.

(** What [products.forEach] leaves of an array of line items. *)
Lemma defaultProducts_defaulted items products' :
  defaultProducts (JArr items) = Return products' ->
  exists items', products' = JArr items'
                 /\ Forall2 (defaulted "tax") items items'.
Proof.
  unfold defaultProducts. simpl.
  destruct (forEachDefaultTax items) as [items'|] eqn:E; intros H;
    [|discriminate H].
  injection H as <-. exists items'. split; [reflexivity|].
  now apply forEachDefaultTax_defaulted.
Qed.

Lemma defaultCharges_defaulted charges :
  defaulted "taxAmount" charges (defaultCharges charges).
Proof.
  intros fs ->. unfold defaultCharges. simpl.
  destruct (negb (truthy (lookupField "taxAmount" fs))
            && notStrictZero (lookupField "taxAmount" fs)) eqn:E.
  - repeat split.
    + intros _. apply lookup_assign_same.
    + intros n Hn. rewrite Hn in E. simpl in E.
      destruct n; discriminate E.
    + intros k Hk. now apply lookup_assign_other.
  - repeat split.
    + intros Hu. rewrite Hu in E. discriminate E.
    + intros n Hn. exact Hn.
Qed.

Section TaxFacts.

Variable castObjectId : JValue -> option string.
Variable newObjectId : Z -> string.
Variable entrySaveError : Store -> JValue -> option string.
Variable updateError : Store -> JValue -> option string.
Variable stats : Store -> Outcome unit * JValue.

(** The products and charges of an entry that was created. *)
Lemma createNewentry_defaults now req s resp s' :
  createNewentry castObjectId newObjectId entrySaveError stats now req s
  = (resp, s') ->
  status resp = 201 ->
  exists products',
    defaultProducts (getField "products" (body req)) = Return products'
    /\ In (getField "data" (json resp)) (entries s')
    /\ getField "products" (getField "data" (json resp)) = products'
    /\ getField "charges" (getField "data" (json resp))
       = defaultCharges (getField "charges" (body req)).
Proof.
  intros H Hst.
  destruct (createNewentry_created _ _ _ _ now req s resp s' H Hst)
    as (n & rest & products' & doc & mid & _ & _ & Hent & _ & Hjson
        & _ & Hp & Hprod & Hch & _).
  exists products'. rewrite Hjson, Hent. simpl.
  repeat split.
  - exact Hp.
  - apply in_or_app. right. now left.
  - rewrite !getField_setField_other by discriminate. exact Hprod.
  - rewrite !getField_setField_other by discriminate. exact Hch.
Qed.

(** The products and charges of an entry that was updated. *)
Lemma updateEntry_defaults now req s resp s' :
  updateEntry castObjectId updateError stats now req s = (resp, s') ->
  status resp = 200 ->
  exists oid products',
    castObjectId (JStr (paramId req)) = Some oid
    /\ defaultProducts (getField "products" (body req)) = Return products'
    /\ entries s'
       = replaceFirst (hasId oid) (getField "data" (json resp)) (entries s)
    /\ (truthy (getField "products" (body req)) = true ->
        getField "products" (getField "data" (json resp)) = products')
    /\ (truthy (getField "charges" (body req)) = true ->
        getField "charges" (getField "data" (json resp))
        = defaultCharges (getField "charges" (body req))).
Proof.
  intros H Hst.
  destruct (updateEntry_fields _ _ _ now req s resp s' H Hst)
    as (oid & products' & old & new & Hoid & Hp & _ & Hent & Hdata & Hset).
  exists oid, products'. rewrite Hdata. repeat split; try assumption.
  - intros Ht. apply (Hset "products"). now apply patchedBody_products.
  - intros Ht. apply (Hset "charges"). now apply patchedBody_charges.
Qed.

(** C7.  A creation and an update that succeed persist line items and
    charges under one rule: a line item with no [tax] is stored with
    [tax] 0 and charges with no [taxAmount] with [taxAmount] 0, a tax that
    is given and every other field are stored as given; for the same
    products and charges both paths store the same values. *)
Theorem tax_defaults_on_create_and_update :
  (forall now req s resp s',
      createNewentry castObjectId newObjectId entrySaveError stats now req s
      = (resp, s') ->
      status resp = 201 ->
      In (getField "data" (json resp)) (entries s')
      /\ (forall items,
            getField "products" (body req) = JArr items ->
            exists items',
              getField "products" (getField "data" (json resp)) = JArr items'
              /\ Forall2 (defaulted "tax") items items')
      /\ defaulted "taxAmount" (getField "charges" (body req))
           (getField "charges" (getField "data" (json resp))))
  /\ (forall now req s resp s',
         updateEntry castObjectId updateError stats now req s = (resp, s') ->
         status resp = 200 ->
         (exists oid,
            castObjectId (JStr (paramId req)) = Some oid
            /\ entries s'
               = replaceFirst (hasId oid) (getField "data" (json resp))
                   (entries s))
         /\ (forall items,
               getField "products" (body req) = JArr items ->
               exists items',
                 getField "products" (getField "data" (json resp))
                 = JArr items'
                 /\ Forall2 (defaulted "tax") items items')
         /\ defaulted "taxAmount" (getField "charges" (body req))
              (getField "charges" (getField "data" (json resp))))
  /\ (forall now1 req1 s1 resp1 s1' now2 req2 s2 resp2 s2',
         createNewentry castObjectId newObjectId entrySaveError stats
           now1 req1 s1 = (resp1, s1') ->
         status resp1 = 201 ->
         updateEntry castObjectId updateError stats now2 req2 s2
         = (resp2, s2') ->
         status resp2 = 200 ->
         (getField "products" (body req1) = getField "products" (body req2) ->
          truthy (getField "products" (body req2)) = true ->
          getField "products" (getField "data" (json resp1))
          = getField "products" (getField "data" (json resp2)))
         /\ (getField "charges" (body req1) = getField "charges" (body req2) ->
             truthy (getField "charges" (body req2)) = true ->
             getField "charges" (getField "data" (json resp1))
             = getField "charges" (getField "data" (json resp2)))).
Proof.
  split; [|split].
  - intros now req s resp s' H Hst.
    destruct (createNewentry_defaults now req s resp s' H Hst)
      as (products' & Hp & Hin & Hprod & Hch).
    split; [exact Hin | split].
    + intros items Hitems. rewrite Hitems in Hp. rewrite Hprod.
      now apply defaultProducts_defaulted.
    + rewrite Hch. apply defaultCharges_defaulted.
  - intros now req s resp s' H Hst.
    destruct (updateEntry_defaults now req s resp s' H Hst)
      as (oid & products' & Hoid & Hp & Hent & Hprod & Hch).
    split; [now exists oid | split].
    + intros items Hitems. rewrite Hitems in Hp, Hprod.
      rewrite (Hprod eq_refl).
      now apply defaultProducts_defaulted.
    + intros fs Hfs. rewrite Hfs in Hch |- *. rewrite (Hch eq_refl).
      now apply (defaultCharges_defaulted (JObj fs)).
  - intros now1 req1 s1 resp1 s1' now2 req2 s2 resp2 s2' H1 Hst1 H2 Hst2.
    destruct (createNewentry_defaults now1 req1 s1 resp1 s1' H1 Hst1)
      as (p1 & Hp1 & _ & Hprod1 & Hch1).
    destruct (updateEntry_defaults now2 req2 s2 resp2 s2' H2 Hst2)
      as (oid2 & p2 & _ & Hp2 & _ & Hprod2 & Hch2).
    split.
    + intros Heq Ht. rewrite Hprod1, (Hprod2 Ht).
      rewrite Heq in Hp1. congruence.
    + intros Heq Ht. rewrite Hch1, (Hch2 Ht). now rewrite Heq.
Qed.

End TaxFacts.

(** The sample patch of products and charges succeeds, and both paths
    store the defaults. *)
Lemma tax_defaults_on_create_and_update_witness :
  status (fst Sample.created) = 201
  /\ status (fst SampleUpdate.repriced) = 200
  /\ (forall items,
        getField "products" (body Sample.createReq) = JArr items ->
        exists items',
          getField "products" (getField "data" (json (fst Sample.created)))
          = JArr items'
          /\ Forall2 (defaulted "tax") items items')
  /\ defaulted "taxAmount" (getField "charges" (body Sample.createReq))
       (getField "charges" (getField "data" (json (fst Sample.created))))
  /\ (forall items,
        getField "products" (body SampleUpdate.repriceReq) = JArr items ->
        exists items',
          getField "products"
            (getField "data" (json (fst SampleUpdate.repriced)))
          = JArr items'
          /\ Forall2 (defaulted "tax") items items')
  /\ defaulted "taxAmount" (getField "charges" (body SampleUpdate.repriceReq))
       (getField "charges"
          (getField "data" (json (fst SampleUpdate.repriced))))
  /\ getPath ["charges"; "taxAmount"]
       (getField "data" (json (fst SampleUpdate.repriced))) = JNum 0.
Proof.
  assert (Hc : status (fst Sample.created) = 201)
    by (vm_compute; reflexivity).
  assert (Hu : status (fst SampleUpdate.repriced) = 200)
    by (vm_compute; reflexivity).
  destruct (tax_defaults_on_create_and_update Sample.castObjectId
              Sample.newObjectId Sample.entrySaveError Sample.updateError
              (manualUpdateStats Sample.recompute)) as (Tc & Tu & _).
  destruct (Tc Sample.now0 Sample.createReq Sample.store0
              (fst Sample.created) (snd Sample.created)
              (surjective_pairing _) Hc) as (_ & Tc1 & Tc2).
  destruct (Tu SampleUpdate.now1 SampleUpdate.repriceReq
              (snd Sample.created)
              (fst SampleUpdate.repriced) (snd SampleUpdate.repriced)
              (surjective_pairing _) Hu) as (_ & Tu1 & Tu2).
  split; [exact Hc|].
  split; [exact Hu|].
  split; [exact Tc1|].
  split; [exact Tc2|].
  split; [exact Tu1|].
  split; [exact Tu2|].
  vm_compute; reflexivity.
Defined.

(** ** Failures of the statistics recompute *)

Ltac break_goal :=
  repeat match goal with
    | |- context [match ?x with _ => _ end] =>
        match x with
        | context [match _ with _ => _ end] => fail 1
        | _ => destruct x eqn:?; simpl
        end
    end.

Section StatsFacts.

Variable castObjectId : JValue -> option string.
Variable newObjectId : Z -> string.
Variable entrySaveError : Store -> JValue -> option string.
Variable updateError : Store -> JValue -> option string.

(** The handlers do not catch for the middleware: were
    [manualUpdateStats] to throw, the creation would answer 400 although
    the entry is stored. *)
Lemma createNewentry_surfaces_a_throw :
  let r := createNewentry Sample.castObjectId Sample.newObjectId
             Sample.entrySaveError
             (fun s => (Throw "statistics are not available", entryStat s))
             Sample.now0 Sample.createReq Sample.store0 in
  status (fst r) = 400 /\ List.length (entries (snd r)) = 1%nat.
Proof. vm_compute. split; reflexivity. Qed.

(** With the middleware of the spec the answer and the entries do not
    depend on the recompute. *)
Lemma createNewentry_ignores_recompute rc1 rc2 now req s :
  fst (createNewentry castObjectId newObjectId entrySaveError
         (manualUpdateStats rc1) now req s)
  = fst (createNewentry castObjectId newObjectId entrySaveError
           (manualUpdateStats rc2) now req s)
  /\ entries (snd (createNewentry castObjectId newObjectId entrySaveError
                     (manualUpdateStats rc1) now req s))
     = entries (snd (createNewentry castObjectId newObjectId entrySaveError
                       (manualUpdateStats rc2) now req s)).
Proof.
  unfold createNewentry, tryCatch, bind, destructure, member, findById,
    lift, ReceiptNumber_findOne, receiptRecord_save, Entry_new, newDocument, newEntryFields,
    Entry_insert, runManualUpdateStats, manualUpdateStats, ret, throw.
  break_goal; split; reflexivity.
Qed.

Lemma updateEntry_ignores_recompute rc1 rc2 now req s :
  fst (updateEntry castObjectId updateError (manualUpdateStats rc1)
         now req s)
  = fst (updateEntry castObjectId updateError (manualUpdateStats rc2)
           now req s)
  /\ entries (snd (updateEntry castObjectId updateError
                     (manualUpdateStats rc1) now req s))
     = entries (snd (updateEntry castObjectId updateError
                       (manualUpdateStats rc2) now req s)).
Proof.
  unfold updateEntry, tryCatch, bind, destructure, lift,
    Entry_findByIdAndUpdate, runManualUpdateStats, manualUpdateStats,
    ret, throw.
  break_goal; split; reflexivity.
Qed.

Lemma deleteEntry_ignores_recompute rc1 rc2 req s :
  fst (deleteEntry castObjectId (manualUpdateStats rc1) req s)
  = fst (deleteEntry castObjectId (manualUpdateStats rc2) req s)
  /\ entries (snd (deleteEntry castObjectId (manualUpdateStats rc1) req s))
     = entries (snd (deleteEntry castObjectId (manualUpdateStats rc2)
                       req s)).
Proof.
  unfold deleteEntry, tryCatch, bind, Entry_findByIdAndDelete,
    runManualUpdateStats, manualUpdateStats, ret, throw.
  break_goal; split; reflexivity.
Qed.

(** A handler whose store call changed the entries answers with its
    success code, whatever the recompute does. *)
Lemma createNewentry_reports_the_save rc now req s :
  let r := createNewentry castObjectId newObjectId entrySaveError
             (manualUpdateStats rc) now req s in
  entries (snd r) <> entries s -> status (fst r) = 201.
Proof.
  unfold createNewentry, tryCatch, bind, destructure, member, findById,
    lift, ReceiptNumber_findOne, receiptRecord_save, Entry_new, newDocument, newEntryFields,
    Entry_insert, runManualUpdateStats, manualUpdateStats, ret, throw.
  cbv zeta.
  break_goal; intros H; try reflexivity; exfalso; apply H; reflexivity.
Qed.

Lemma updateEntry_reports_the_update rc now req s :
  let r := updateEntry castObjectId updateError (manualUpdateStats rc)
             now req s in
  entries (snd r) <> entries s -> status (fst r) = 200.
Proof.
  unfold updateEntry, tryCatch, bind, destructure, lift,
    Entry_findByIdAndUpdate, runManualUpdateStats, manualUpdateStats,
    ret, throw.
  cbv zeta.
  break_goal; intros H; try reflexivity; exfalso; apply H; reflexivity.
Qed.

Lemma deleteEntry_reports_the_delete rc req s :
  let r := deleteEntry castObjectId (manualUpdateStats rc) req s in
  entries (snd r) <> entries s -> status (fst r) = 200.
Proof.
  unfold deleteEntry, tryCatch, bind, Entry_findByIdAndDelete,
    runManualUpdateStats, manualUpdateStats, ret, throw.
  cbv zeta.
  break_goal; intros H; try reflexivity; exfalso; apply H; reflexivity.
Qed.

(** A recompute that fails leaves the EntryStat record as it was. *)
Lemma failed_recompute_is_stale rc s :
  (exists m, rc s = Throw m) ->
  manualUpdateStats rc s = (Return tt, entryStat s).
Proof.
  intros [m Hm]. unfold manualUpdateStats. now rewrite Hm.
Qed.

Ltac stale_by Hf :=
  break_goal; try reflexivity;
  match goal with
  | E : ?f ?st = Return _ |- _ =>
      destruct (Hf st) as [? Hm]; rewrite Hm in E; discriminate E
  end.

(** With a recompute that fails every time the EntryStat record is not
    touched. *)
Lemma handlers_leave_stat_stale (failing : Store -> Outcome JValue) :
  (forall s, exists m, failing s = Throw m) ->
  forall now req s,
    entryStat (snd (createNewentry castObjectId newObjectId entrySaveError
                      (manualUpdateStats failing) now req s))
    = entryStat s
    /\ entryStat (snd (updateEntry castObjectId updateError
                         (manualUpdateStats failing) now req s))
       = entryStat s
    /\ entryStat (snd (deleteEntry castObjectId
                         (manualUpdateStats failing) req s))
       = entryStat s.
Proof.
  intros Hf now req s. split; [|split].
  - unfold createNewentry, tryCatch, bind, destructure, member, findById,
      lift, ReceiptNumber_findOne, receiptRecord_save, Entry_new, newDocument, newEntryFields,
      Entry_insert, runManualUpdateStats, manualUpdateStats, ret, throw.
    stale_by Hf.
  - unfold updateEntry, tryCatch, bind, destructure, lift,
      Entry_findByIdAndUpdate, runManualUpdateStats, manualUpdateStats,
      ret, throw.
    stale_by Hf.
  - unfold deleteEntry, tryCatch, bind, Entry_findByIdAndDelete,
      runManualUpdateStats, manualUpdateStats, ret, throw.
    stale_by Hf.
Qed.

(** C3.  With a statistics recompute that fails every time, a create,
    update or delete whose write changed the entries still answers with
    its success code (201, 200, 200); the answer and the entries are the
    ones a working recompute would give, and the EntryStat record stays
    as it was. *)
Theorem stats_failure_not_surfaced (failing : Store -> Outcome JValue) :
  (forall s, exists m, failing s = Throw m) ->
  (forall now req s,
      let r := createNewentry castObjectId newObjectId entrySaveError
                 (manualUpdateStats failing) now req s in
      (entries (snd r) <> entries s -> status (fst r) = 201)
      /\ entryStat (snd r) = entryStat s
      /\ forall working,
           fst r = fst (createNewentry castObjectId newObjectId
                          entrySaveError (manualUpdateStats working)
                          now req s)
           /\ entries (snd r)
              = entries (snd (createNewentry castObjectId newObjectId
                                entrySaveError (manualUpdateStats working)
                                now req s)))
  /\ (forall now req s,
         let r := updateEntry castObjectId updateError
                    (manualUpdateStats failing) now req s in
         (entries (snd r) <> entries s -> status (fst r) = 200)
         /\ entryStat (snd r) = entryStat s
         /\ forall working,
              fst r = fst (updateEntry castObjectId updateError
                             (manualUpdateStats working) now req s)
              /\ entries (snd r)
                 = entries (snd (updateEntry castObjectId updateError
                                   (manualUpdateStats working) now req s)))
  /\ (forall req s,
         let r := deleteEntry castObjectId (manualUpdateStats failing)
                    req s in
         (entries (snd r) <> entries s -> status (fst r) = 200)
         /\ entryStat (snd r) = entryStat s
         /\ forall working,
              fst r = fst (deleteEntry castObjectId
                             (manualUpdateStats working) req s)
              /\ entries (snd r)
                 = entries (snd (deleteEntry castObjectId
                                   (manualUpdateStats working) req s))).
Proof.
  intros Hf.
  split; [|split].
  - intros now req s r. split; [|split].
    + apply createNewentry_reports_the_save.
    + apply (handlers_leave_stat_stale failing Hf now req s).
    + intro working. apply createNewentry_ignores_recompute.
  - intros now req s r. split; [|split].
    + apply updateEntry_reports_the_update.
    + apply (handlers_leave_stat_stale failing Hf now req s).
    + intro working. apply updateEntry_ignores_recompute.
  - intros req s r. split; [|split].
    + apply deleteEntry_reports_the_delete.
    + apply (handlers_leave_stat_stale failing Hf 0 req s).
    + intro working. apply deleteEntry_ignores_recompute.
Qed.

End StatsFacts.

(** Under the failing recompute of the samples the entry is created,
    delivered and deleted with 201, 200 and 200, and the EntryStat record
    keeps its first value. *)
Lemma stats_failure_not_surfaced_witness :
  (forall s, exists m, Sample.failing s = Throw m)
  /\ status (fst SampleFailing.created) = 201
  /\ status (fst SampleFailing.delivered) = 200
  /\ status (fst SampleFailing.deleted) = 200
  /\ entryStat (snd SampleFailing.deleted) = entryStat Sample.store0
  /\ fst SampleFailing.created = fst Sample.created.
Proof.
  assert (Hf : forall s, exists m, Sample.failing s = Throw m).
  { intro s. exists "statistics are not available". reflexivity. }
  destruct (stats_failure_not_surfaced Sample.castObjectId
              Sample.newObjectId Sample.entrySaveError Sample.updateError
              Sample.failing Hf) as (Tc & Tu & Td).
  destruct (Tc Sample.now0 Sample.createReq Sample.store0)
    as (Tc1 & Tc2 & Tc3).
  destruct (Tu SampleUpdate.now1 SampleUpdate.deliverReq
              (snd SampleFailing.created)) as (Tu1 & Tu2 & _).
  destruct (Td SampleUpdate.deliverReq (snd SampleFailing.delivered))
    as (Td1 & Td2 & _).
  split; [exact Hf|].
  split; [apply Tc1; vm_compute; discriminate|].
  split; [apply Tu1; vm_compute; intro E; discriminate E|].
  split; [apply Td1; vm_compute; discriminate|].
  split.
  - change (entryStat (snd SampleFailing.deleted)
            = entryStat Sample.store0).
    unfold SampleFailing.deleted. rewrite Td2.
    unfold SampleFailing.delivered. rewrite Tu2.
    unfold SampleFailing.created. exact Tc2.
  - apply (Tc3 Sample.recompute).
Defined.

(** ** The visibility toggle *)

Lemma findFirst_holds p l d : findFirst p l = Some d -> p d = true.
Proof.
  induction l as [|e l IH]; simpl; [discriminate|].
  destruct (p e) eqn:E; [|exact IH].
  intros H. now injection H as <-.
Qed.

(** After the write of a document that still matches, a lookup finds
    the written document. *)
Lemma findFirst_replaceFirst p x l d :
  findFirst p l = Some d -> p x = true ->
  findFirst p (replaceFirst p x l) = Some x.
Proof.
  intros H Hx.
  induction l as [|e l IH]; simpl in *; [discriminate|].
  destruct (p e) eqn:E; simpl.
  - now rewrite Hx.
  - rewrite E. auto.
Qed.

Lemma replaceFirst_twice p x y l :
  p x = true ->
  replaceFirst p y (replaceFirst p x l) = replaceFirst p y l.
Proof.
  intros Hx.
  induction l as [|e l IH]; simpl; [reflexivity|].
  destruct (p e) eqn:E; simpl.
  - now rewrite Hx.
  - rewrite E. now rewrite IH.
Qed.

Section ToggleFacts.

Variable castObjectId : JValue -> option string.
Variable entrySaveError : Store -> JValue -> option string.

Lemma hasId_id id d : hasId id d = true -> getField "_id" d = JStr id.
Proof.
  unfold hasId. destruct (getField "_id" d); try discriminate.
  now intros ->%String.eqb_eq.
Qed.

(** What a toggle that answers 200 has done. *)
Lemma toggleVisibility_toggled now req s resp s' :
  toggleVisibility castObjectId entrySaveError now req s = (resp, s') ->
  status resp = 200 ->
  exists oid old,
    castObjectId (JStr (paramId req)) = Some oid
    /\ findFirst (hasId oid) (entries s) = Some old
    /\ s' = withEntries
              (replaceFirst (hasId oid)
                 (setField "updatedAt" (JDate now)
                    (setField "visible" (JBool (negb (visibleOf old))) old))
                 (entries s)) s
    /\ getField "data" (json resp)
       = JObj [("id", getField "_id" old);
               ("visible", JBool (negb (visibleOf old)))].
Proof.
  unfold toggleVisibility, tryCatch, bind, findById, Entry_save, ret, throw.
  intros H Hst.
  break_in H; inversion H; subst; simpl in Hst; try discriminate Hst.
  all: match goal with
       | C : castObjectId _ = Some ?i, F : findFirst _ _ = Some ?o |- _ =>
           exists i, o;
           pose proof (hasId_id _ _ (findFirst_holds _ _ _ F)) as Hid
       end.
  all: rewrite getField_setField_other by discriminate.
  all: rewrite Hid.
  all: repeat split; try reflexivity; try assumption.
  all: simpl;
    match goal with
    | E : negb (visibleOf _) = _ |- _ => rewrite E
    end; reflexivity.
Qed.

Lemma hasId_object id d :
  hasId id d = true -> exists fs, d = JObj fs.
Proof.
  unfold hasId. destruct d; simpl; try discriminate. eauto.
Qed.

(** The document that a toggle writes. *)
Lemma toggled_fields now old :
  (exists fs, old = JObj fs) ->
  let new := setField "updatedAt" (JDate now)
               (setField "visible" (JBool (negb (visibleOf old))) old) in
  getField "visible" new = JBool (negb (visibleOf old))
  /\ forall k, k <> "visible" -> k <> "updatedAt" ->
               getField k new = getField k old.
Proof.
  intros [fs ->]. cbv zeta. split.
  - rewrite getField_setField_other by discriminate.
    apply getField_setField_same.
  - intros k Hv Hu.
    rewrite !getField_setField_other by assumption. reflexivity.
Qed.

(** C9, amended.  A toggle that succeeds writes the negation of
    [visible] into the entry and, besides the timestamp [updatedAt] of
    the write, no other field: customer, receiptNo, products, charges,
    status and pickupAndDelivery are as before, and so are the other
    entries, customers, the receipt counter and the statistics.  A
    second toggle brings [visible] back. *)
Theorem toggleVisibility_flips_only_visible now req s resp s' :
  toggleVisibility castObjectId entrySaveError now req s = (resp, s') ->
  status resp = 200 ->
  exists oid old new,
    castObjectId (JStr (paramId req)) = Some oid
    /\ findFirst (hasId oid) (entries s) = Some old
    /\ entries s' = replaceFirst (hasId oid) new (entries s)
    /\ customers s' = customers s
    /\ receiptNumbers s' = receiptNumbers s
    /\ entryStat s' = entryStat s
    /\ (forall b, getField "visible" old = JBool b ->
                  getField "visible" new = JBool (negb b))
    /\ (forall k, k <> "visible" -> k <> "updatedAt" ->
                  getField k new = getField k old)
    /\ getField "customer" new = getField "customer" old
    /\ getField "receiptNo" new = getField "receiptNo" old
    /\ getField "products" new = getField "products" old
    /\ getField "charges" new = getField "charges" old
    /\ getField "status" new = getField "status" old
    /\ getField "pickupAndDelivery" new = getField "pickupAndDelivery" old
    /\ forall now2 resp2 s2,
         toggleVisibility castObjectId entrySaveError now2 req s'
         = (resp2, s2) ->
         status resp2 = 200 ->
         exists new2,
           entries s2 = replaceFirst (hasId oid) new2 (entries s)
           /\ (forall b, getField "visible" old = JBool b ->
                         getField "visible" new2 = JBool b)
           /\ forall k, k <> "visible" -> k <> "updatedAt" ->
                        getField k new2 = getField k old.
Proof.
  intros H Hst.
  destruct (toggleVisibility_toggled now req s resp s' H Hst)
    as (oid & old & Hoid & Hold & Hs' & _).
  pose proof (findFirst_holds _ _ _ Hold) as Hid.
  pose proof (hasId_object _ _ Hid) as Hobj.
  destruct (toggled_fields now old Hobj) as (Hvis & Hframe).
  set (new := setField "updatedAt" (JDate now)
                (setField "visible" (JBool (negb (visibleOf old))) old))
    in *.
  assert (Hbool : forall d b, getField "visible" d = JBool b ->
                              visibleOf d = b).
  { intros d b Hb. unfold visibleOf. rewrite Hb. reflexivity. }
  exists oid, old, new. subst s'. simpl.
  split; [exact Hoid|].
  split; [exact Hold|].
  split; [reflexivity|].
  split; [reflexivity|].
  split; [reflexivity|].
  split; [reflexivity|].
  split.
  { intros b Hb. rewrite Hvis, (Hbool old b Hb). reflexivity. }
  split; [exact Hframe|].
  repeat (split; [apply Hframe; discriminate|]).
  intros now2 resp2 s2 H2 Hst2.
  destruct (toggleVisibility_toggled now2 req _ resp2 s2 H2 Hst2)
    as (oid2 & old2 & Hoid2 & Hold2 & Hs2 & _).
  rewrite Hoid in Hoid2. injection Hoid2 as <-.
  simpl in Hold2.
  assert (Hidnew : hasId oid new = true).
  { unfold hasId in *. rewrite Hframe by discriminate. exact Hid. }
  rewrite (findFirst_replaceFirst _ new _ old Hold Hidnew) in Hold2.
  injection Hold2 as <-.
  pose proof (hasId_object _ _ Hidnew) as Hobjnew.
  destruct (toggled_fields now2 new Hobjnew) as (Hvis2 & Hframe2).
  eexists. subst s2. simpl.
  split; [apply replaceFirst_twice; exact Hidnew|].
  split.
  - intros b Hb. rewrite Hvis2.
    assert (Hnb : visibleOf new = negb b).
    { apply Hbool. rewrite Hvis, (Hbool old b Hb). reflexivity. }
    rewrite Hnb, negb_involutive. reflexivity.
  - intros k Hv Hu. rewrite Hframe2 by assumption. now apply Hframe.
Qed.

End ToggleFacts.

(** The sample entry is hidden by a toggle. *)
Lemma toggleVisibility_flips_only_visible_witness :
  status (fst SampleToggle.hidden) = 200
  /\ exists old new,
       findFirst (hasId "entry0") (entries (snd Sample.created)) = Some old
       /\ entries (snd SampleToggle.hidden)
          = replaceFirst (hasId "entry0") new (entries (snd Sample.created))
       /\ getField "visible" old = JBool true
       /\ getField "visible" new = JBool false
       /\ getField "receiptNo" new = getField "receiptNo" old.
Proof.
  split; [vm_compute; reflexivity|].
  destruct (toggleVisibility_flips_only_visible Sample.castObjectId
              Sample.entrySaveError SampleUpdate.now1 SampleToggle.toggleReq
              (snd Sample.created) (fst SampleToggle.hidden)
              (snd SampleToggle.hidden) (surjective_pairing _))
    as (oid & old & new & Hoid & Hold & Hent & _ & _ & _ & Hvis & _ & _
        & Hno & _).
  { vm_compute; reflexivity. }
  vm_compute in Hoid. injection Hoid as <-.
  assert (Hv : getField "visible" old = JBool true).
  { vm_compute in Hold. injection Hold as <-. reflexivity. }
  exists old, new. repeat split; try assumption.
  apply (Hvis true Hv).
Defined.

(** C9, as stated, fails: the toggle is a save of the entry, and the
    save writes the time into [updatedAt], a field other than
    [visible]. *)
Lemma toggle_moves_updatedAt :
  status (fst SampleToggle.hidden) = 200
  /\ map (getField "updatedAt") (entries (snd Sample.created))
     = [JDate Sample.now0]
  /\ map (getField "updatedAt") (entries (snd SampleToggle.hidden))
     = [JDate SampleUpdate.now1]
  /\ map (getField "visible") (entries (snd Sample.created))
     = [JBool true]
  /\ map (getField "visible") (entries (snd SampleToggle.hidden))
     = [JBool false].
Proof. vm_compute. repeat split; reflexivity. Qed.

(** ** Hidden entries *)

Lemma insertDesc_perm d l : Permutation (insertDesc d l) (d :: l).
Proof.
  induction l as [|e l IH]; simpl; [reflexivity|].
  destruct (newerOrSame d e); [reflexivity|].
  rewrite IH. apply perm_swap.
Qed.

(** The sort keeps the documents. *)
Lemma sortDesc_perm l : Permutation (sortDesc l) l.
Proof.
  induction l as [|d l IH]; simpl; [reflexivity|].
  rewrite insertDesc_perm. now constructor.
Qed.

Lemma sortDesc_In l d : In d (sortDesc l) <-> In d l.
Proof.
  split; apply Permutation_in;
    [apply sortDesc_perm | symmetry; apply sortDesc_perm].
Qed.









Lemma parseInt_ToString (n : Z) :
  0 <= n <= 2 ^ 53 -> JS.parseInt (JS.ToString n) = Some n.
Proof.
  intros Hn.
  destruct (ToString_nonneg n Hn) as (d & Hd & Hnil & Hval).
  rewrite parseInt_digits.
  - rewrite Hd, readDigits_value, Hval. cbn [option_map].
    rewrite roundDouble_small by lia. reflexivity.
  - rewrite Hd. apply string_of_uint_digits.
  - rewrite Hd. destruct d; simpl; congruence.
Qed.

(** ** The summary of [getPendingDeliveries] *)

Lemma optionStringEqb_spec a b :
  reflect (a = b) (optionStringEqb a b).
Proof.
  destruct a as [x|], b as [y|]; simpl;
    try (constructor; congruence).
  destruct (String.eqb_spec x y); constructor; congruence.
Qed.

Lemma groupCount_countInto_same k groups :
  groupCount k (countInto k groups) = groupCount k groups + 1.
Proof.
  induction groups as [|[k' n] groups IH]; simpl.
  - destruct (optionStringEqb_spec k k); [reflexivity | congruence].
  - destruct (optionStringEqb_spec k' k) as [->|Hne]; simpl.
    + destruct (optionStringEqb_spec k k); [reflexivity | congruence].
    + destruct (optionStringEqb_spec k' k); [congruence | exact IH].
Qed.

Lemma groupCount_countInto_other k k' groups :
  k <> k' -> groupCount k (countInto k' groups) = groupCount k groups.
Proof.
  intros Hne.
  induction groups as [|[k2 n] groups IH]; simpl.
  - destruct (optionStringEqb_spec k' k); [congruence | reflexivity].
  - destruct (optionStringEqb_spec k2 k') as [->|Hne2]; simpl.
    + destruct (optionStringEqb_spec k' k); [congruence | reflexivity].
    + destruct (optionStringEqb_spec k2 k); [reflexivity | exact IH].
Qed.

Lemma countInto_keys k groups :
  map fst (countInto k groups)
  = if hasGroup k groups then map fst groups
    else (map fst groups ++ [k])%list.
Proof.
  unfold hasGroup.
  induction groups as [|[k' n] groups IH]; simpl; [reflexivity|].
  destruct (optionStringEqb k' k); simpl; [reflexivity|].
  rewrite IH. now destruct (existsb _ groups).
Qed.

Lemma hasGroup_In k groups :
  hasGroup k groups = false -> ~ In k (map fst groups).
Proof.
  unfold hasGroup. intros H Hin.
  apply in_map_iff in Hin as ([k' n] & Hk & Hin). simpl in Hk. subst k'.
  assert (existsb (fun g => optionStringEqb (fst g) k) groups = true).
  { apply existsb_exists. exists (k, n). split; [exact Hin|].
    simpl. now destruct (optionStringEqb_spec k k). }
  congruence.
Qed.

Lemma countInto_NoDup k groups :
  NoDup (map fst groups) -> NoDup (map fst (countInto k groups)).
Proof.
  intros H. rewrite countInto_keys.
  destruct (hasGroup k groups) eqn:E; [exact H|].
  apply NoDup_app; [exact H | repeat constructor; intros [] |].
  intros x Hx [<- | []]. now apply (hasGroup_In _ _ E).
Qed.

(** The number of documents of [l] with the status [k]. *)
Lemma group_fold k l groups :
  NoDup (map fst groups) ->
  NoDup (map fst (fold_left (fun g d => countInto (statusOf d) g) l groups))
  /\ groupCount k
       (fold_left (fun g d => countInto (statusOf d) g) l groups)
     = groupCount k groups
       + countWhere (fun d => optionStringEqb (statusOf d) k) l.
Proof.
  revert groups.
  induction l as [|d l IH]; intros groups Hnd; simpl.
  - split; [exact Hnd | unfold countWhere; simpl; lia].
  - destruct (IH (countInto (statusOf d) groups)
                (countInto_NoDup _ _ Hnd)) as (Hnd' & Hc).
    split; [exact Hnd'|]. rewrite Hc.
    unfold countWhere. cbn [filter].
    destruct (optionStringEqb_spec (statusOf d) k) as [->|Hne].
    + rewrite groupCount_countInto_same. cbn [List.length].
      rewrite Nat2Z.inj_succ. lia.
    + rewrite groupCount_countInto_other by congruence. lia.
Qed.

(** Each group of [groupByStatus] holds the number of documents with its
    status; no status has two groups. *)
Lemma groupByStatus_counts k l :
  NoDup (map fst (groupByStatus l))
  /\ groupCount k (groupByStatus l)
     = countWhere (fun d => optionStringEqb (statusOf d) k) l.
Proof.
  unfold groupByStatus.
  destruct (group_fold k l [] (NoDup_nil _)) as (Hnd & Hc).
  split; [exact Hnd|]. rewrite Hc. simpl. lia.
Qed.

Lemma readCount_assign_same k n o : readCount k (assignCount k n o) = n.
Proof.
  induction o as [|[k' n'] o IH]; simpl.
  - now rewrite String.eqb_refl.
  - destruct (String.eqb_spec k' k) as [->|Hne]; simpl.
    + now rewrite String.eqb_refl.
    + destruct (String.eqb_spec k' k); [contradiction | exact IH].
Qed.

Lemma readCount_assign_other k k' n o :
  k <> k' -> readCount k (assignCount k' n o) = readCount k o.
Proof.
  intros Hne.
  induction o as [|[k2 n2] o IH]; simpl.
  - destruct (String.eqb_spec k' k); [congruence | reflexivity].
  - destruct (String.eqb_spec k2 k') as [->|Hne2]; simpl.
    + destruct (String.eqb_spec k' k); [congruence | reflexivity].
    + destruct (String.eqb_spec k2 k); [reflexivity | exact IH].
Qed.

Lemma hasOwnProperty_assign k k' n o :
  hasOwnProperty k o = true ->
  hasOwnProperty k (assignCount k' n o) = true.
Proof.
  unfold hasOwnProperty.
  induction o as [|[k2 n2] o IH]; simpl; [discriminate|].
  destruct (String.eqb_spec k2 k') as [->|Hne2]; simpl.
  - destruct (k' =? k)%string; simpl; auto.
  - destruct (k2 =? k)%string; simpl; [reflexivity | exact IH].
Qed.

Lemma tally_hasOwnProperty name sc item :
  hasOwnProperty name sc = true ->
  hasOwnProperty name (tally sc item) = true.
Proof.
  intros H. unfold tally.
  destruct (fst item) as [id|]; [|exact H].
  destruct (negb (id =? "")%string && hasOwnProperty id sc); [|exact H].
  now apply hasOwnProperty_assign.
Qed.

Lemma tally_other name sc item :
  fst item <> Some name -> readCount name (tally sc item) = readCount name sc.
Proof.
  intros Hne. unfold tally.
  destruct (fst item) as [id|]; [|reflexivity].
  destruct (negb (id =? "")%string && hasOwnProperty id sc); [|reflexivity].
  apply readCount_assign_other. congruence.
Qed.

Lemma hasGroup_false_count k groups :
  hasGroup k groups = false -> groupCount k groups = 0.
Proof.
  unfold hasGroup.
  induction groups as [|[k' n] groups IH]; simpl; [reflexivity|].
  destruct (optionStringEqb k' k); simpl; [discriminate | exact IH].
Qed.

(** After [counts.forEach] the object [statusCounts] holds, under each
    of its own names, the count of the group of that name. *)
Lemma tally_fold name groups sc :
  NoDup (map fst groups) ->
  name <> "" ->
  hasOwnProperty name sc = true ->
  readCount name (fold_left tally groups sc)
  = if hasGroup (Some name) groups then groupCount (Some name) groups
    else readCount name sc.
Proof.
  intros Hnd Hne.
  revert sc.
  induction groups as [|[k n] groups IH]; intros sc Hown; simpl;
    [reflexivity|].
  inversion Hnd as [|? ? Hnotin Hnd']; subst.
  rewrite (IH Hnd' _ (tally_hasOwnProperty _ _ (k, n) Hown)).
  unfold hasGroup. simpl.
  destruct (optionStringEqb_spec k (Some name)) as [->|Hk]; simpl.
  - assert (Hno : hasGroup (Some name) groups = false).
    { unfold hasGroup.
      destruct (existsb _ groups) eqn:E; [|reflexivity].
      apply existsb_exists in E as ([k' n'] & Hin & Hk'). simpl in Hk'.
      destruct (optionStringEqb_spec k' (Some name)); [|discriminate].
      subst k'. exfalso. apply Hnotin.
      apply in_map_iff. exists (Some name, n'). now split. }
    unfold hasGroup in Hno. rewrite Hno.
    unfold tally. simpl. rewrite Hown.
    destruct (String.eqb_spec name ""); [contradiction|]. simpl.
    apply readCount_assign_same.
  - destruct (existsb _ groups); [reflexivity|].
    now apply tally_other.
Qed.

(** The count that the summary shows under one of its four names is the
    number of documents in scope with that status. *)
Lemma summary_readCount name l :
  In name countedStatuses ->
  readCount name (fold_left tally (groupByStatus l) initialStatusCounts)
  = countWhere (statusIs name) l.
Proof.
  intros Hin.
  destruct (groupByStatus_counts (Some name) l) as (Hnd & Hc).
  change (fun d => optionStringEqb (statusOf d) (Some name))
    with (statusIs name) in Hc.
  assert (Hname : name <> ""
                  /\ hasOwnProperty name initialStatusCounts = true
                  /\ readCount name initialStatusCounts = 0).
  { simpl in Hin.
    destruct Hin as [<- | [<- | [<- | [<- | []]]]];
      repeat split; discriminate. }
  destruct Hname as (Hne & Hown & Hzero).
  rewrite (tally_fold name _ _ Hnd Hne Hown).
  destruct (hasGroup (Some name) (groupByStatus l)) eqn:E.
  - exact Hc.
  - rewrite Hzero. rewrite <- Hc.
    symmetry. now apply hasGroup_false_count.
Qed.

(** The answer of [getPendingDeliveries] to a request with no type. *)
Lemma getPendingDeliveries_summary now req s :
  lookupParam "type" (query req) = None
  \/ lookupParam "type" (query req) = Some "" ->
  let inScope :=
    filter (visibilityFilter (lookupParam "showAll" (query req)))
      (entries s) in
  let r := getPendingDeliveries now req s in
  status r = 200
  /\ (forall name, In name countedStatuses ->
        summaryCount name r = JNum (countWhere (statusIs name) inScope))
  /\ summaryTotal r
     = JNum (countWhere (statusIs "pending") inScope
             + countWhere (statusIs "collected") inScope
             + countWhere (statusIs "delivered") inScope
             + countWhere (statusIs "processedAndPacked") inScope).
Proof.
  intros Htype inScope r.
  assert (Hr : r = getPendingDeliveries now req s) by reflexivity.
  unfold getPendingDeliveries in Hr.
  fold inScope in Hr.
  assert (Hsum :
    forall name, In name countedStatuses ->
      readCount name
        (fold_left tally (groupByStatus inScope) initialStatusCounts)
      = countWhere (statusIs name) inScope)
    by (intros; now apply summary_readCount).
  pose proof (Hsum "pending" (or_introl eq_refl)) as Hp.
  pose proof (Hsum "collected" (or_intror (or_introl eq_refl))) as Hc.
  pose proof (Hsum "processedAndPacked"
                (or_intror (or_intror (or_introl eq_refl)))) as Hpp.
  pose proof (Hsum "delivered"
                (or_intror (or_intror (or_intror (or_introl eq_refl)))))
    as Hd.
  rewrite Hp, Hc, Hpp, Hd in Hr.
  destruct Htype as [Ht | Ht]; rewrite Ht in Hr; simpl in Hr; rewrite Hr;
    (split; [reflexivity|]; split; [|reflexivity];
     intros name Hin; simpl in Hin;
     destruct Hin as [<- | [<- | [<- | [<- | []]]]]; reflexivity).
Qed.

Lemma statusIs_true name d : statusIs name d = true -> statusOf d = Some name.
Proof.
  unfold statusIs. now destruct (optionStringEqb_spec (statusOf d) (Some name)).
Qed.

Lemma countWhere_cons p d l :
  countWhere p (d :: l) = (if p d then 1 else 0) + countWhere p l.
Proof.
  unfold countWhere. cbn [filter].
  destruct (p d); [cbn [List.length]; rewrite Nat2Z.inj_succ|]; lia.
Qed.

Lemma countWhere_app p l1 l2 :
  countWhere p (l1 ++ l2) = countWhere p l1 + countWhere p l2.
Proof.
  unfold countWhere. rewrite filter_app, length_app. lia.
Qed.

(** The four counts add up to the number of documents whose status is
    one of the four. *)
Lemma countWhere_counted l :
  countWhere (statusIs "pending") l
  + countWhere (statusIs "collected") l
  + countWhere (statusIs "delivered") l
  + countWhere (statusIs "processedAndPacked") l
  = countWhere (fun d => existsb (fun n => statusIs n d) countedStatuses) l.
Proof.
  induction l as [|d l IH]; [reflexivity|].
  rewrite !countWhere_cons, <- IH. cbn [existsb countedStatuses].
  destruct (statusIs "pending" d) eqn:E1,
    (statusIs "collected" d) eqn:E2,
    (statusIs "processedAndPacked" d) eqn:E3,
    (statusIs "delivered" d) eqn:E4;
    repeat match goal with
      | E : statusIs _ _ = true |- _ => apply statusIs_true in E
      end;
    try congruence; cbn [orb]; lia.
Qed.

(** A document whose status is none of the four is counted under no
    name. *)
Lemma uncounted_statusIs d name :
  (forall n, In n countedStatuses -> statusOf d <> Some n) ->
  In name countedStatuses -> statusIs name d = false.
Proof.
  intros Hd Hin. destruct (statusIs name d) eqn:E; [|reflexivity].
  apply statusIs_true in E. now apply Hd in E.
Qed.

(** C10.  In the summary of [getPendingDeliveries] each of the four
    counts is the number of entries in scope with that status, and the
    total is the sum of the four counts, which is the number of entries
    in scope whose status is one of the four.  An entry whose status is
    missing or another value changes none of the counts and not the
    total: with it and without it the summary shows the same numbers. *)
Theorem summary_total_is_sum_of_counts now req s :
  lookupParam "type" (query req) = None
  \/ lookupParam "type" (query req) = Some "" ->
  let inScope :=
    filter (visibilityFilter (lookupParam "showAll" (query req)))
      (entries s) in
  let r := getPendingDeliveries now req s in
  status r = 200
  /\ (forall name, In name countedStatuses ->
        summaryCount name r = JNum (countWhere (statusIs name) inScope))
  /\ summaryTotal r
     = JNum (countWhere (statusIs "pending") inScope
             + countWhere (statusIs "collected") inScope
             + countWhere (statusIs "processedAndPacked") inScope
             + countWhere (statusIs "delivered") inScope)
  /\ summaryTotal r
     = JNum (countWhere
               (fun d => existsb (fun n => statusIs n d) countedStatuses)
               inScope)
  /\ forall pre post d,
       entries s = (pre ++ d :: post)%list ->
       (forall n, In n countedStatuses -> statusOf d <> Some n) ->
       let r' := getPendingDeliveries now req
                   (withEntries (pre ++ post) s) in
       (forall name, In name countedStatuses ->
          summaryCount name r' = summaryCount name r)
       /\ summaryTotal r' = summaryTotal r.
Proof.
  intros Htype inScope r.
  destruct (getPendingDeliveries_summary now req s Htype)
    as (Hst & Hcounts & Htotal).
  fold inScope r in Hst, Hcounts, Htotal.
  split; [exact Hst|].
  split; [exact Hcounts|].
  split; [rewrite Htotal; f_equal; lia|].
  split; [rewrite Htotal; f_equal; apply countWhere_counted|].
  intros pre post d Hent Hd r'.
  destruct (getPendingDeliveries_summary now req
              (withEntries (pre ++ post) s) Htype)
    as (_ & Hcounts' & Htotal').
  fold r' in Hcounts', Htotal'. simpl in Hcounts', Htotal'.
  assert (Hsame : forall name, In name countedStatuses ->
            countWhere (statusIs name)
              (filter (visibilityFilter (lookupParam "showAll" (query req)))
                 (pre ++ post))
            = countWhere (statusIs name) inScope).
  { intros name Hin. unfold inScope. rewrite Hent.
    rewrite !filter_app, !countWhere_app. cbn [filter].
    destruct (visibilityFilter _ d); [|reflexivity].
    rewrite countWhere_cons, (uncounted_statusIs d name Hd Hin). lia. }
  split.
  - intros name Hin.
    rewrite (Hcounts' name Hin), (Hcounts name Hin), (Hsame name Hin).
    reflexivity.
  - rewrite Htotal', Htotal.
    rewrite !Hsame; [reflexivity | | | |]; simpl; auto.
Qed.

(** The summary of the sample store counts the visible pending entry
    and neither the hidden one nor the cancelled one. *)
Lemma summary_total_is_sum_of_counts_witness :
  (lookupParam "type" (query SampleHidden.plain) = None
   \/ lookupParam "type" (query SampleHidden.plain) = Some "")
  /\ summaryCount "pending"
       (getPendingDeliveries Sample.now0 SampleHidden.plain
          SampleHidden.store) = JNum 1
  /\ summaryTotal
       (getPendingDeliveries Sample.now0 SampleHidden.plain
          SampleHidden.store) = JNum 1.
Proof.
  assert (Ht : lookupParam "type" (query SampleHidden.plain) = None
               \/ lookupParam "type" (query SampleHidden.plain) = Some "")
    by (left; reflexivity).
  destruct (summary_total_is_sum_of_counts Sample.now0 SampleHidden.plain
              SampleHidden.store Ht) as (_ & Hc & Ht1 & _).
  split; [exact Ht|]. split.
  - rewrite (Hc "pending" (or_introl eq_refl)). vm_compute. reflexivity.
  - rewrite Ht1. vm_compute. reflexivity.
Defined.

(** ** Listings without and with the hidden entries *)

Lemma In_firstn_list (n : nat) (l : list JValue) d :
  In d (firstn n l) -> In d l.
Proof.
  revert l. induction n as [|n IH]; intros l H; simpl in H;
    [contradiction|].
  destruct l as [|e l]; simpl in *; [contradiction|].
  destruct H as [<- | H]; auto.
Qed.

Lemma In_skipn_list (n : nat) (l : list JValue) d :
  In d (skipn n l) -> In d l.
Proof.
  revert l. induction n as [|n IH]; intros [|e l]; simpl; auto.
Qed.

Lemma skipLimit_In skip limit l page d :
  skipLimit skip limit l = Return page -> In d page -> In d l.
Proof.
  unfold skipLimit. destruct (skip <? 0); [discriminate|].
  destruct ((2 ^ 63 <=? skip) || (2 ^ 63 <=? Z.abs limit));
    [discriminate|].
  intros H. injection H as <-. intros Hin.
  eapply In_skipn_list, In_firstn_list, Hin.
Qed.

Lemma skipLimit_ok skip limit l :
  0 <= skip < 2 ^ 63 -> Z.abs limit < 2 ^ 63 ->
  skipLimit skip limit l
  = Return (firstn (Z.to_nat (Z.abs limit)) (skipn (Z.to_nat skip) l)).
Proof.
  intros Hs Hl. unfold skipLimit.
  destruct (Z.ltb_spec skip 0) as [?|_]; [lia|].
  destruct (Z.leb_spec (2 ^ 63) skip) as [?|_]; [lia|].
  destruct (Z.leb_spec (2 ^ 63) (Z.abs limit)) as [?|_]; [lia|].
  reflexivity.
Qed.




(** The answer of a search for a [q] that is not blank. *)
Lemma searchEntry_found cast beyond other req s q :
  lookupParam "q" (query req) = Some q ->
  JS.trim q <> "" ->
  searchEntry cast beyond other req s
  = match customerRegex beyond other q, receiptClause cast q with
    | Return test, Return rm =>
        match filter
                (fun d =>
                   visibilityFilter (lookupParam "showAll" (query req)) d
                   && (customerMatches test d || rm d))
                (entries s) with
        | [] => failure 404 "No entries found"
        | found =>
            mkResponse 200
              (JObj [("success", JBool true); ("data", JArr found)])
        end
    | _, _ => failure 500 "Internal server error"
    end.
Proof.
  intros Hq Htrim. unfold searchEntry. rewrite Hq.
  destruct (String.eqb_spec (JS.trim q) ""); [contradiction|].
  cbv zeta.
  destruct (customerRegex beyond other q) as [test|m]; [|reflexivity].
  destruct (receiptClause cast q) as [rm|m]; [|reflexivity].
  now destruct (filter _ (entries s)).
Qed.













(** ** Search *)

Lemma plainText_parsePattern q :
  plainText q = true -> parsePattern q = Some (literalAtoms q).
Proof.
  unfold plainText, literalAtoms.
  induction q as [|c q IH]; simpl; [reflexivity|].
  intros H. apply andb_prop in H as [Hc Hq].
  apply andb_prop in Hc as [Hp Hc].
  rewrite (IH Hq).
  destruct (Ascii.eqb_spec c ".") as [->|_]; [discriminate Hc|].
  apply negb_true_iff in Hc. now rewrite Hc, Hp.
Qed.

Lemma matchHere_literal q s :
  matchHere (literalAtoms q) s = prefixCI q s.
Proof.
  unfold literalAtoms.
  revert s. induction q as [|a q IH]; intros s; simpl; [reflexivity|].
  destruct s as [|b s]; [reflexivity|].
  now rewrite IH.
Qed.

(** A pattern with no operator searches for the text itself. *)
Lemma regexSearch_literal q s :
  regexSearch (literalAtoms q) s = containsCI q s.
Proof.
  induction s as [|b s IH]; simpl.
  - now rewrite matchHere_literal.
  - now rewrite matchHere_literal, IH.
Qed.

Lemma toLower_eqbCI a b :
  JS.eqbCI a b = true <-> JS.toLower a = JS.toLower b.
Proof.
  unfold JS.eqbCI. split.
  - now intros H%Ascii.eqb_eq.
  - intros ->. apply Ascii.eqb_refl.
Qed.

Lemma prefixCI_spec q s :
  prefixCI q s = true <->
  exists post, lowerString s = lowerString q ++ post.
Proof.
  revert s. induction q as [|a q IH]; intros s; simpl.
  - split; [intros _; now exists (lowerString s) | reflexivity].
  - destruct s as [|b s]; simpl.
    + split; [discriminate | intros [post H]; discriminate H].
    + rewrite andb_true_iff, toLower_eqbCI, IH. split.
      * intros [E [post H]]. exists post. now rewrite E, H.
      * intros [post H]. injection H as E H. split; [now symmetry|].
        now exists post.
Qed.

(** [containsCI] is the substring test on the lower-case texts. *)
Lemma containsCI_spec q s :
  containsCI q s = true <->
  exists pre post, lowerString s = pre ++ lowerString q ++ post.
Proof.
  induction s as [|b s IH]; simpl.
  - rewrite orb_false_r, prefixCI_spec. split.
    + intros [post H]. now exists "", post.
    + intros [pre [post H]].
      destruct pre; [now exists post | discriminate H].
  - rewrite orb_true_iff, prefixCI_spec, IH. split.
    + intros [[post H] | [pre [post H]]].
      * now exists "", post.
      * exists (String (JS.toLower b) pre), post. simpl. now rewrite H.
    + intros [pre [post H]].
      destruct pre as [|c pre]; simpl in H.
      * left. now exists post.
      * right. injection H as _ H. now exists pre, post.
Qed.

(** The test of a text with no pattern operator, on a printable
    text. *)
Lemma customerRegex_plain beyond other q :
  plainText q = true ->
  exists test,
    customerRegex beyond other q = Return test
    /\ forall c, isPrintable c = true -> test c = containsCI q c.
Proof.
  intros Hplain. unfold customerRegex.
  rewrite (plainText_parsePattern q Hplain).
  eexists. split; [reflexivity|].
  intros c Hc. cbv beta. rewrite Hc. apply regexSearch_literal.
Qed.

(** C5, as stated, fails: the query is a pattern.  A search for a dot
    returns the visible entries of the sample store although the dot is
    not a number and neither customer contains a dot. *)
Lemma search_dot_is_a_pattern :
  SampleSearch.dot
  = mkResponse 200
      (JObj [("success", JBool true);
             ("data", JArr [SampleHidden.shown; SampleHidden.odd])])
  /\ JS.isNaN "." = true
  /\ customerContains "." SampleHidden.shown = false
  /\ customerContains "." SampleHidden.odd = false.
Proof. vm_compute. repeat split; reflexivity. Qed.

(** Under the cast of a [String] path the search for a receipt number
    looks for the digits of [parseInt(q)], so the padded number of the
    sample entry is not found by its own text. *)
Example search_padded_receipt_as_string :
  searchEntry castAsString SampleSearch.patternBeyond
    SampleSearch.matchBeyond (SampleSearch.searchFor "0001")
    SampleHidden.store
  = failure 404 "No entries found"
  /\ status
       (searchEntry castAsNumber SampleSearch.patternBeyond
          SampleSearch.matchBeyond (SampleSearch.searchFor "12.7")
          (mkStore [] [] [JObj [("receiptNo", JNum 12); ("visible", JBool true)]]
             JNull 0))
     = 200.
Proof. vm_compute. split; reflexivity. Qed.

(** C5, amended.  A search answers 400 exactly when [q] is missing or
    blank after trimming.  Otherwise [q] is the pattern of a regular
    expression that is matched without regard to letter case, and the
    receipt clause is: when [isNaN(q)] is true an entry with no
    [receiptNo], when it is false an entry whose [receiptNo] equals
    [parseInt(q)] as the schema casts it.  When the store refuses the
    pattern or the cast throws, the answer is 500.  When neither does,
    the answer holds exactly the entries in scope whose customer is a
    string that the expression matches or that the receipt clause
    matches, each once; it is 404 when there is none and 200 otherwise.
    For
    a [q] of printable ASCII with no pattern operator in it, the
    expression matches a customer of printable ASCII exactly when the
    customer contains [q], letter case aside. *)
Theorem searchEntry_amended cast beyond other req s :
  (lookupParam "q" (query req) = None ->
   searchEntry cast beyond other req s
   = failure 400 "Search query is required")
  /\ forall q,
       lookupParam "q" (query req) = Some q ->
       (JS.trim q = "" <->
        searchEntry cast beyond other req s
        = failure 400 "Search query is required")
       /\ (JS.isNaN q = true ->
           receiptClause cast q
           = Return (fun d => match getField "receiptNo" d with
                              | JUndefined => true
                              | _ => false
                              end))
       /\ (JS.isNaN q = false ->
           forall v, cast (JS.parseInt q) = Return v ->
             receiptClause cast q
             = Return (fun d => sameScalar (getField "receiptNo" d) v))
       /\ (plainText q = true ->
           exists test,
             customerRegex beyond other q = Return test
             /\ forall c, isPrintable c = true -> test c = containsCI q c)
       /\ (JS.trim q <> "" ->
           ((exists m, customerRegex beyond other q = Throw m)
            \/ (exists m, receiptClause cast q = Throw m) ->
            searchEntry cast beyond other req s
            = failure 500 "Internal server error")
           /\ forall test rm,
                customerRegex beyond other q = Return test ->
                receiptClause cast q = Return rm ->
                let r := searchEntry cast beyond other req s in
                Permutation (dataOf r)
                  (filter
                     (fun d =>
                        visibilityFilter
                          (lookupParam "showAll" (query req)) d
                        && (customerMatches test d || rm d))
                     (entries s))
                /\ (forall d,
                      In d (dataOf r) <->
                      In d (entries s)
                      /\ visibilityFilter
                           (lookupParam "showAll" (query req)) d = true
                      /\ (customerMatches test d = true \/ rm d = true))
                /\ (dataOf r = [] -> r = failure 404 "No entries found")
                /\ (dataOf r <> [] ->
                    r = mkResponse 200
                          (JObj [("success", JBool true);
                                 ("data", JArr (dataOf r))]))).
Proof.
  split.
  - intros Hq. unfold searchEntry. now rewrite Hq.
  - intros q Hq.
    split; [|split; [|split; [|split]]].
    + destruct (String.eqb_spec (JS.trim q) "") as [E|E].
      * split; [|intros _; exact E]. intros _.
        unfold searchEntry. rewrite Hq, E. reflexivity.
      * split; [contradiction|].
        rewrite (searchEntry_found cast beyond other req s q Hq E).
        destruct (customerRegex beyond other q) as [test|m];
          [|discriminate].
        destruct (receiptClause cast q) as [rm|m]; [|discriminate].
        destruct (filter _ (entries s)); discriminate.
    + intros Hnan. unfold receiptClause. now rewrite Hnan.
    + intros Hnan v Hv. unfold receiptClause. now rewrite Hnan, Hv.
    + apply customerRegex_plain.
    + intros Htrim.
      pose proof (searchEntry_found cast beyond other req s q Hq Htrim)
        as Hs.
      split.
      * intros [[m Hm] | [m Hm]]; rewrite Hs, Hm; [reflexivity|].
        now destruct (customerRegex beyond other q).
      * intros test rm Htest Hrm r. subst r. rewrite Hs, Htest, Hrm.
        set (found := filter _ (entries s)).
        assert (Hin : forall d,
                  In d found <->
                  In d (entries s)
                  /\ visibilityFilter
                       (lookupParam "showAll" (query req)) d = true
                  /\ (customerMatches test d = true \/ rm d = true)).
        { intro d. unfold found.
          rewrite filter_In, andb_true_iff, orb_true_iff. tauto. }
        destruct found as [|e found'] eqn:E.
        -- split; [apply Permutation_refl|].
           split; [exact Hin|].
           split; [reflexivity | intros H; now contradiction H].
        -- split; [apply Permutation_refl|].
           split; [exact Hin|].
           split; [discriminate | reflexivity].
Qed.

(** The search for ABC in the sample store finds the customer "abcd
    corp" and nothing else. *)
Lemma searchEntry_amended_witness :
  lookupParam "q" (query (SampleSearch.searchFor "ABC")) = Some "ABC"
  /\ plainText "ABC" = true
  /\ JS.trim "ABC" <> ""
  /\ JS.isNaN "ABC" = true
  /\ status SampleSearch.abc = 200
  /\ dataOf SampleSearch.abc = [SampleHidden.shown]
  /\ customerContains "ABC" SampleHidden.shown = true
  /\ customerContains "ABC" SampleHidden.hidden = false
  /\ exists test,
       customerRegex SampleSearch.patternBeyond SampleSearch.matchBeyond
         "ABC" = Return test
       /\ test "abcd corp" = containsCI "ABC" "abcd corp".
Proof.
  assert (Hq : lookupParam "q" (query (SampleSearch.searchFor "ABC"))
               = Some "ABC") by reflexivity.
  assert (Hp : plainText "ABC" = true) by reflexivity.
  assert (Ht : JS.trim "ABC" <> "") by (vm_compute; discriminate).
  assert (Hn : JS.isNaN "ABC" = true) by reflexivity.
  destruct (searchEntry_amended castAsString SampleSearch.patternBeyond
              SampleSearch.matchBeyond (SampleSearch.searchFor "ABC")
              SampleHidden.store) as (_ & T).
  destruct (T "ABC" Hq) as (_ & Hnan & _ & Hplain & Hfound).
  destruct (Hplain Hp) as (test & Htest & Hsame).
  destruct (Hfound Ht) as (_ & Hret).
  destruct (Hret test _ Htest (Hnan Hn)) as (Hdata & _ & _ & H200).
  fold SampleSearch.abc in Hdata, H200.
  assert (Hd : dataOf SampleSearch.abc = [SampleHidden.shown])
    by (vm_compute; reflexivity).
  split; [exact Hq|]. split; [exact Hp|]. split; [exact Ht|].
  split; [exact Hn|].
  split; [rewrite H200; [reflexivity | rewrite Hd; discriminate]|].
  split; [exact Hd|].
  split; [vm_compute; reflexivity|].
  split; [vm_compute; reflexivity|].
  exists test. split; [exact Htest|].
  apply Hsame. reflexivity.
Defined.

(** ** Creations that run at the same time *)

(** C1, as stated, fails: two creations whose reads of the counter both
    come before either save get the same receipt number, and the counter
    ends one higher, not two. *)
Lemma interleaved_creations_share_a_number :
  receiptsOf
    (fst (run [0; 1; 0; 1]%nat ([AtFindOne; AtFindOne], Sample.store0)))
  = ["0007"; "0007"]
  /\ receiptNumbers
       (snd (run [0; 1; 0; 1]%nat ([AtFindOne; AtFindOne], Sample.store0)))
     = [8]
  /\ receiptNumbers Sample.store0 = [7].
Proof. vm_compute. repeat split; reflexivity. Qed.

Lemma nth_error_replaceNth_same {A} (i : nat) (x y : A) (l : list A) :
  nth_error l i = Some y -> nth_error (replaceNth i x l) i = Some x.
Proof.
  revert i. induction l as [|a l IH]; intros [|i]; simpl;
    try discriminate; auto.
Qed.

Lemma nth_error_replaceNth_other {A} (i j : nat) (x : A) (l : list A) :
  i <> j -> nth_error (replaceNth i x l) j = nth_error l j.
Proof.
  revert i j. induction l as [|a l IH]; intros [|i] [|j] H; simpl;
    try reflexivity; try congruence.
  apply IH. congruence.
Qed.

Lemma replaceNth_twice {A} (i : nat) (x y : A) (l : list A) :
  replaceNth i y (replaceNth i x l) = replaceNth i y l.
Proof.
  revert i. induction l as [|a l IH]; intros [|i]; simpl;
    try reflexivity.
  now rewrite IH.
Qed.

(** The request that completes adds its number to the numbers handed
    out. *)
Lemma receiptsOf_replaceNth (i : nat) (r : string) (threads : list Alloc) :
  nth_error threads i = Some AtFindOne ->
  Permutation (receiptsOf (replaceNth i (Allocated r) threads))
    (r :: receiptsOf threads).
Proof.
  revert i.
  induction threads as [|t threads IH]; intros [|i] H; simpl in *;
    try discriminate.
  - injection H as ->. reflexivity.
  - unfold receiptsOf in *. simpl.
    rewrite (IH i H).
    destruct t; simpl; try reflexivity. apply perm_swap.
Qed.

(** One request that runs alone from its read to its save. *)
Lemma run_alone (i : nat) (threads : list Alloc) (s : Store) (c : Z)
  (rest : list Z) :
  nth_error threads i = Some AtFindOne ->
  receiptNumbers s = c :: rest ->
  run [i; i] (threads, s)
  = (replaceNth i (Allocated (formatReceiptNo c)) threads,
     withReceiptNumbers (JS.add c 1 :: rest) s).
Proof.
  intros Hi Hc. unfold run. simpl.
  unfold stepThread at 2. simpl. rewrite Hi.
  unfold allocStep, ReceiptNumber_findOne. rewrite Hc. simpl.
  unfold stepThread. simpl.
  rewrite (nth_error_replaceNth_same i (AtSave c) AtFindOne threads Hi).
  simpl. rewrite replaceNth_twice, Hc. reflexivity.
Qed.

Lemma run_app (a b : list nat) cfg : run (a ++ b) cfg = run b (run a cfg).
Proof. unfold run. apply fold_left_app. Qed.

(** Requests that run one after another. *)
Lemma run_serial (order : list nat) :
  forall (threads : list Alloc) (s : Store) (c : Z) (rest : list Z),
    NoDup order ->
    (forall i, In i order -> nth_error threads i = Some AtFindOne) ->
    receiptNumbers s = c :: rest ->
    0 <= c ->
    c + Z.of_nat (List.length order) <= 2 ^ 53 ->
    let r := run (serial order) (threads, s) in
    receiptNumbers (snd r) = (c + Z.of_nat (List.length order)) :: rest
    /\ (forall k i, nth_error order k = Some i ->
          nth_error (fst r) i
          = Some (Allocated (formatReceiptNo (c + Z.of_nat k))))
    /\ (forall j, ~ In j order -> nth_error (fst r) j = nth_error threads j)
    /\ Permutation (receiptsOf (fst r))
         (map (fun k => formatReceiptNo (c + Z.of_nat k))
            (seq 0 (List.length order)) ++ receiptsOf threads).
Proof.
  induction order as [|i order IH];
    intros threads s c rest Hnd Hall Hc Hc0 Hbound r.
  - subst r. simpl. repeat split.
    + rewrite Hc. f_equal. lia.
    + intros [|k] i H; discriminate H.
    + reflexivity.
  - inversion Hnd as [|? ? Hnotin Hnd']; subst.
    assert (Hi : nth_error threads i = Some AtFindOne)
      by (apply Hall; now left).
    assert (Hr : r = run (serial order)
                       (replaceNth i (Allocated (formatReceiptNo c)) threads,
                        withReceiptNumbers ((c + 1) :: rest) s)).
    { subst r. change (serial (i :: order)) with ([i; i] ++ serial order)%list.
      rewrite run_app, (run_alone i threads s c rest Hi Hc).
      rewrite add_exact; [reflexivity|].
      cbn [List.length] in Hbound. lia. }
    assert (Hall' : forall j, In j order ->
              nth_error (replaceNth i (Allocated (formatReceiptNo c)) threads) j
              = Some AtFindOne).
    { intros j Hj. rewrite nth_error_replaceNth_other.
      - apply Hall. now right.
      - intros ->. contradiction. }
    assert (Hc1 : 0 <= c + 1) by lia.
    assert (Hbound' : c + 1 + Z.of_nat (List.length order) <= 2 ^ 53).
    { cbn [List.length] in Hbound. lia. }
    destruct (IH _ (withReceiptNumbers ((c + 1) :: rest) s) (c + 1) rest
                Hnd' Hall' eq_refl Hc1 Hbound')
      as (Hcount & Hpoint & Hframe & Hperm).
    rewrite <- Hr in Hcount, Hpoint, Hframe, Hperm.
    split; [|split; [|split]].
    + rewrite Hcount. f_equal. simpl List.length. lia.
    + intros [|k] j Hk; simpl in Hk.
      * injection Hk as <-. rewrite (Hframe i Hnotin).
        rewrite (nth_error_replaceNth_same i _ AtFindOne threads Hi).
        do 3 f_equal. lia.
      * rewrite (Hpoint k j Hk). do 3 f_equal. lia.
    + intros j Hj. rewrite Hframe by (intros H; apply Hj; now right).
      apply nth_error_replaceNth_other. intros ->. apply Hj. now left.
    + rewrite Hperm. rewrite (receiptsOf_replaceNth i _ threads Hi).
      simpl List.length. cbn [seq map app].
      rewrite <- seq_shift, map_map.
      rewrite Z.add_0_r.
      rewrite <- Permutation_middle. apply perm_skip.
      apply Permutation_app_tail.
      erewrite map_ext; [reflexivity|].
      intros k. simpl. f_equal. lia.
Qed.

Lemma NoDup_map_injective {A B} (f : A -> B) (l : list A) :
  (forall x y, f x = f y -> x = y) -> NoDup l -> NoDup (map f l).
Proof.
  intros Hinj Hnd. induction Hnd as [|x l Hx Hnd IH]; simpl; constructor.
  - intros Hin. apply in_map_iff in Hin as (y & Hy & Hin).
    apply Hinj in Hy. now subst y.
  - exact IH.
Qed.

Lemma NoDup_map_injective_in {A B} (f : A -> B) (l : list A) :
  (forall x y, In x l -> In y l -> f x = f y -> x = y) ->
  NoDup l -> NoDup (map f l).
Proof.
  intros Hinj Hnd. induction Hnd as [|x l Hx Hnd IH]; simpl; constructor.
  - intros Hin. apply in_map_iff in Hin as (y & Hy & Hin).
    apply Hinj in Hy; [now subst y | now right | now left].
  - apply IH. intros a b Ha Hb. apply Hinj; now right.
Qed.

Lemma nth_error_repeat {A} (x : A) (n i : nat) :
  (i < n)%nat -> nth_error (repeat x n) i = Some x.
Proof.
  revert i. induction n as [|n IH]; intros [|i] H; simpl;
    try lia; [reflexivity|].
  apply IH. lia.
Qed.

Lemma receiptsOf_waiting (n : nat) : receiptsOf (repeat AtFindOne n) = [].
Proof. induction n as [|n IH]; [reflexivity | exact IH]. Qed.

(** C1, amended.  When [N] creations run one after another, in any
    order, from a counter at [start] that is not negative and with
    [start + N] at most 2^53, the creation that runs in place [k] gets
    the receipt number of [start + k]: the numbers handed out are those
    of [start], ..., [start + N - 1], each to one creation, and the
    counter ends at [start + N]. *)
Theorem serial_creations_get_consecutive_numbers
  (N : nat) (order : list nat) (s : Store) (start : Z) (rest : list Z) :
  Permutation order (seq 0 N) ->
  receiptNumbers s = start :: rest ->
  0 <= start ->
  start + Z.of_nat N <= 2 ^ 53 ->
  let r := run (serial order) (repeat AtFindOne N, s) in
  receiptNumbers (snd r) = (start + Z.of_nat N) :: rest
  /\ (forall k i, nth_error order k = Some i ->
        nth_error (fst r) i
        = Some (Allocated (formatReceiptNo (start + Z.of_nat k))))
  /\ Permutation (receiptsOf (fst r))
       (map (fun k => formatReceiptNo (start + Z.of_nat k)) (seq 0 N))
  /\ NoDup (receiptsOf (fst r))
  /\ List.length (receiptsOf (fst r)) = N.
Proof.
  intros Hperm Hc Hstart Hbound r.
  assert (Hlen : List.length order = N).
  { rewrite (Permutation_length Hperm). apply length_seq. }
  assert (Hnd : NoDup order).
  { apply (Permutation_NoDup (Permutation_sym Hperm)), seq_NoDup. }
  assert (Hall : forall i, In i order ->
            nth_error (repeat AtFindOne N) i = Some AtFindOne).
  { intros i Hi. apply nth_error_repeat.
    apply (Permutation_in _ Hperm), in_seq in Hi. lia. }
  assert (Hbound' : start + Z.of_nat (List.length order) <= 2 ^ 53)
    by (rewrite Hlen; exact Hbound).
  destruct (run_serial order (repeat AtFindOne N) s start rest Hnd Hall Hc
              Hstart Hbound')
    as (Hcount & Hpoint & _ & Hp).
  fold r in Hcount, Hpoint, Hp.
  rewrite Hlen in Hcount, Hp.
  rewrite receiptsOf_waiting, app_nil_r in Hp.
  split; [exact Hcount|].
  split; [exact Hpoint|].
  split; [exact Hp|].
  split.
  - apply (Permutation_NoDup (Permutation_sym Hp)).
    apply NoDup_map_injective_in; [|apply seq_NoDup].
    intros x y Hx Hy E. apply in_seq in Hx, Hy. apply formatReceiptNo_inj in E; lia.
  - rewrite (Permutation_length Hp), length_map. apply length_seq.
Qed.

(** Three creations that run one after another, the third first, from
    the counter 7. *)
Lemma serial_creations_get_consecutive_numbers_witness :
  Permutation [2; 0; 1]%nat (seq 0 3)
  /\ receiptNumbers Sample.store0 = [7]
  /\ 0 <= 7
  /\ 7 + Z.of_nat 3 <= 2 ^ 53
  /\ receiptsOf
       (fst (run (serial [2; 0; 1]%nat)
               (repeat AtFindOne 3, Sample.store0)))
     = ["0008"; "0009"; "0007"]
  /\ NoDup (receiptsOf
              (fst (run (serial [2; 0; 1]%nat)
                      (repeat AtFindOne 3, Sample.store0))))
  /\ receiptNumbers
       (snd (run (serial [2; 0; 1]%nat)
               (repeat AtFindOne 3, Sample.store0)))
     = [10].
Proof.
  assert (Hp : Permutation [2; 0; 1]%nat (seq 0 3)).
  { simpl. apply Permutation_sym.
    apply (perm_trans (l' := [0; 2; 1]%nat)).
    - apply perm_skip, perm_swap.
    - apply perm_swap. }
  assert (Hc : receiptNumbers Sample.store0 = [7]) by reflexivity.
  assert (H0 : 0 <= 7) by lia.
  assert (Hb : 7 + Z.of_nat 3 <= 2 ^ 53) by (vm_compute; discriminate).
  destruct (serial_creations_get_consecutive_numbers 3 [2; 0; 1]%nat
              Sample.store0 7 [] Hp Hc H0 Hb) as (Hcount & _ & _ & Hnd & _).
  split; [exact Hp|].
  split; [exact Hc|].
  split; [exact H0|].
  split; [exact Hb|].
  split; [vm_compute; reflexivity|].
  split; [exact Hnd|].
  exact Hcount.
Defined.

(** ** The days of the dashboard *)

Lemma day_bounds (offset d t : Z) :
  dayStart offset d <= t <= dayStart offset d + DAY_MS - 1
  <-> dayOf offset t = d.
Proof.
  unfold dayStart, dayOf, DAY_MS.
  pose proof (Z.div_mod (t + offset) 86400000 ltac:(lia)) as Hdm.
  pose proof (Z.mod_pos_bound (t + offset) 86400000 ltac:(lia)) as Hmod.
  split; intros H.
  - symmetry. apply (Z.div_unique (t + offset) 86400000 d
                       (t + offset - d * 86400000)); lia.
  - subst d. lia.
Qed.

(** The window of [getPendingDeliveries] is the calendar day of [now]
    in Asia/Kolkata: an instant is inside it exactly when its date
    there is today's. *)
Lemma today_window_is_the_day_in_Kolkata (now t : Z) :
  dateInRange (startOfToday now) (endOfToday now) (JDate t) = true
  <-> dayOf IST_OFFSET_MS t = dayOf IST_OFFSET_MS now.
Proof.
  unfold dateInRange, startOfToday, endOfToday.
  rewrite andb_true_iff, !Z.leb_le.
  rewrite <- day_bounds. tauto.
Qed.

(** On a server whose clock keeps one offset from UTC all year, the
    label of [weeklyData] for [i] is the UTC date [i] days before the
    UTC date of [now], whatever the offset: the seven labels are the
    seven UTC dates that end with that of [now]. *)
Lemma weekLabel_on_a_fixed_clock (offset now i : Z) :
  weekLabel (fixedZone offset) now i = formatDay (dayOf 0 now - i).
Proof.
  unfold weekLabel, localTime, utcOfLocal, fixedZone, dayOf, DAY_MS.
  cbn [offsetAt offsetOfLocal]. cbv zeta. f_equal.
  rewrite !Z.add_0_r.
  pose proof (Z.div_mod (now + offset) 86400000 ltac:(lia)) as Hdm.
  replace (((now + offset) / 86400000 - i) * 86400000
           + (now + offset) mod 86400000 - offset)
    with (now + (- i) * 86400000) by lia.
  rewrite Z.div_add by lia. lia.
Qed.

(** Where the clock is put forward the labels are not seven dates: on
    the clock of New York at 23:30 UTC on 2025-03-11 the date
    2025-03-09 comes twice and 2025-03-05 is missing. *)
Example weekLabel_across_a_clock_change :
  map (weekLabel SampleNewYork.zone SampleNewYork.now) [6; 5; 4; 3; 2; 1; 0]
  = ["2025-03-06"; "2025-03-07"; "2025-03-08"; "2025-03-09"; "2025-03-09";
     "2025-03-10"; "2025-03-11"].
Proof. vm_compute. reflexivity. Qed.

(** C4 fails on [getRecentOrdersCount].  At 02:00 on 2025-01-16 in
    Asia/Kolkata the order created at 01:00 that day is counted under
    2025-01-15, the last label of [weeklyData] is 2025-01-15, and no row
    has today's date; [getPendingDeliveries] at the same instant counts
    the order as received today, 2025-01-16.  The rows are the same on a
    server whose clock is UTC. *)
Theorem getRecentOrdersCount_buckets_by_utc_day :
  todayString Sample.now0 = "2025-01-16"
  /\ createdAtOf SampleHidden.shown = Some (Sample.now0 - 3600000)
  /\ SampleDashboard.weekly
     = [("2025-01-09", 0, 0); ("2025-01-10", 0, 0); ("2025-01-11", 0, 0);
        ("2025-01-12", 0, 0); ("2025-01-13", 200, 1);
        ("2025-01-14", 300, 1); ("2025-01-15", 500, 1)]
  /\ SampleDashboard.weeklyOnUtcServer = SampleDashboard.weekly
  /\ getPath ["data"; "count"] (json SampleDashboard.received) = JNum 1
  /\ getPath ["data"; "date"] (json SampleDashboard.received)
     = JStr "2025-01-16".
Proof. vm_compute. repeat split; reflexivity. Qed.

(** ** Any schedule *)

Lemma receiptsOf_replace_pending (i : nat) (t x : Alloc)
  (threads : list Alloc) :
  nth_error threads i = Some t -> pending t = true -> pending x = true ->
  receiptsOf (replaceNth i x threads) = receiptsOf threads.
Proof.
  revert i.
  induction threads as [|h threads IH]; intros [|i] H Ht Hx; simpl in *;
    try discriminate.
  - injection H as ->. unfold receiptsOf. simpl.
    destruct t, x; try discriminate; reflexivity.
  - unfold receiptsOf in *. simpl. now rewrite (IH i H Ht Hx).
Qed.

Lemma receiptsOf_complete (i : nat) (t : Alloc) (r : string)
  (threads : list Alloc) :
  nth_error threads i = Some t -> pending t = true ->
  Permutation (receiptsOf (replaceNth i (Allocated r) threads))
    (r :: receiptsOf threads).
Proof.
  revert i.
  induction threads as [|h threads IH]; intros [|i] H Ht; simpl in *;
    try discriminate.
  - injection H as ->. unfold receiptsOf. simpl.
    destruct t; try discriminate; reflexivity.
  - unfold receiptsOf in *. simpl.
    rewrite (IH i H Ht).
    destruct h; simpl; try reflexivity. apply perm_swap.
Qed.

Lemma replaceNth_same {A} (i : nat) (x : A) (l : list A) :
  nth_error l i = Some x -> replaceNth i x l = l.
Proof.
  revert i. induction l as [|a l IH]; intros [|i] H; simpl in *;
    try discriminate.
  - now injection H as ->.
  - now rewrite (IH i H).
Qed.

Lemma Forall_replaceNth {A} (P : A -> Prop) (i : nat) (x : A) (l : list A) :
  Forall P l -> P x -> Forall P (replaceNth i x l).
Proof.
  intros Hl Hx. revert i.
  induction Hl as [|a l Ha Hl IH]; intros [|i]; simpl; constructor; auto.
Qed.

Lemma Forall_nth_error {A} (P : A -> Prop) (i : nat) (x : A) (l : list A) :
  Forall P l -> nth_error l i = Some x -> P x.
Proof.
  intros Hl. revert i.
  induction Hl as [|a l Ha Hl IH]; intros [|i] H; simpl in H;
    try discriminate.
  - now injection H as <-.
  - eauto.
Qed.

Lemma withinWrites_mono start w w' t :
  w <= w' -> withinWrites start w t -> withinWrites start w' t.
Proof.
  intros Hw. destruct t; simpl; auto.
  - lia.
  - intros (n & Hr & Hn). exists n. split; [exact Hr | lia].
Qed.

Lemma receiptsOf_length (threads : list Alloc) :
  (List.length (receiptsOf threads) <= List.length threads)%nat.
Proof.
  induction threads as [|t threads IH]; simpl; [lia|].
  unfold receiptsOf in *. simpl. rewrite length_app.
  destruct t; simpl; lia.
Qed.

(** One turn of the scheduler keeps every number within the writes done
    so far. *)
Lemma stepThread_withinWrites start rest threads s i :
  0 <= start ->
  start + Z.of_nat (List.length threads) <= 2 ^ 53 ->
  (exists c, receiptNumbers s = c :: rest
             /\ start <= c
                <= start + Z.of_nat (List.length (receiptsOf threads))) ->
  Forall (withinWrites start (Z.of_nat (List.length (receiptsOf threads))))
    threads ->
  let r := stepThread (threads, s) i in
  (exists c, receiptNumbers (snd r) = c :: rest
             /\ start <= c
                <= start + Z.of_nat (List.length (receiptsOf (fst r))))
  /\ Forall (withinWrites start
               (Z.of_nat (List.length (receiptsOf (fst r))))) (fst r)
  /\ List.length (fst r) = List.length threads.
Proof.
  intros Hstart Hbound (c & Hc & Hrange) Hall r. subst r.
  unfold stepThread. simpl.
  destruct (nth_error threads i) as [t|] eqn:Ht; simpl; [|eauto].
  pose proof (Forall_nth_error _ _ _ _ Hall Ht) as Hthis.
  assert (Hlen : forall x, List.length (replaceNth i x threads)
                           = List.length threads).
  { intro x. clear. revert i.
    induction threads as [|h threads IH]; intros [|i]; simpl; auto. }
  destruct t; simpl in *.
  - unfold ReceiptNumber_findOne. rewrite Hc. simpl.
    rewrite (receiptsOf_replace_pending i AtFindOne (AtSave c) threads Ht)
      by reflexivity.
    split; [eauto|]. split; [|apply Hlen].
    apply Forall_replaceNth; [exact Hall | exact Hrange].
  - pose proof (receiptsOf_complete i (AtSave n) (formatReceiptNo n)
                  threads Ht eq_refl) as Hperm.
    apply Permutation_length in Hperm. simpl in Hperm.
    pose proof (receiptsOf_length
                  (replaceNth i (Allocated (formatReceiptNo n)) threads))
      as Hfew.
    rewrite Hperm, Hlen in Hfew.
    rewrite Hperm, Nat2Z.inj_succ, Hc. simpl.
    rewrite add_exact by lia.
    split; [exists (n + 1); split; [reflexivity | lia]|].
    split; [|apply Hlen].
    apply Forall_replaceNth.
    + eapply Forall_impl; [|exact Hall].
      intros a. apply withinWrites_mono. lia.
    + simpl. exists n. split; [reflexivity | lia].
  - rewrite (replaceNth_same i _ threads Ht). eauto.
  - contradiction.
Qed.

Lemma run_withinWrites start rest schedule :
  forall threads s,
    0 <= start ->
    start + Z.of_nat (List.length threads) <= 2 ^ 53 ->
    (exists c, receiptNumbers s = c :: rest
               /\ start <= c
                  <= start + Z.of_nat (List.length (receiptsOf threads))) ->
    Forall (withinWrites start (Z.of_nat (List.length (receiptsOf threads))))
      threads ->
    let r := run schedule (threads, s) in
    (exists c, receiptNumbers (snd r) = c :: rest
               /\ start <= c
                  <= start + Z.of_nat (List.length (receiptsOf (fst r))))
    /\ Forall (withinWrites start
                 (Z.of_nat (List.length (receiptsOf (fst r))))) (fst r)
    /\ List.length (fst r) = List.length threads.
Proof.
  induction schedule as [|i schedule IH];
    intros threads s Hstart Hbound Hc Hall r.
  - subst r. simpl. auto.
  - destruct (stepThread_withinWrites start rest threads s i Hstart Hbound
                Hc Hall)
      as (Hc1 & Hall1 & Hlen1).
    destruct (stepThread (threads, s) i) as [threads1 s1] eqn:E.
    simpl in Hc1, Hall1, Hlen1.
    assert (Hbound1 : start + Z.of_nat (List.length threads1) <= 2 ^ 53)
      by (rewrite Hlen1; exact Hbound).
    destruct (IH threads1 s1 Hstart Hbound1 Hc1 Hall1)
      as (Hc2 & Hall2 & Hlen2).
    subst r. unfold run in *. simpl. rewrite E.
    split; [exact Hc2|]. split; [exact Hall2|]. congruence.
Qed.

Lemma receiptsOf_In (r : string) (threads : list Alloc) :
  In r (receiptsOf threads) -> In (Allocated r) threads.
Proof.
  unfold receiptsOf. intros H.
  apply in_flat_map in H as (t & Ht & Hr).
  destruct t; simpl in Hr; try contradiction.
  destruct Hr as [<- | []]. exact Ht.
Qed.

(** Whatever the schedule of [N] creations that start together from a
    counter at [start] that is not negative, with [start + N] at most
    2^53, a receipt number that is handed out is the text of one of
    [start], ..., [start + N - 1], and the counter stays between [start]
    and [start + N]: numbers can repeat, they cannot run ahead. *)
Theorem any_schedule_stays_in_range (N : nat) (schedule : list nat)
  (s : Store) (start : Z) (rest : list Z) :
  receiptNumbers s = start :: rest ->
  0 <= start ->
  start + Z.of_nat N <= 2 ^ 53 ->
  let r := run schedule (repeat AtFindOne N, s) in
  (forall receipt, In receipt (receiptsOf (fst r)) ->
     exists n, receipt = formatReceiptNo n
               /\ start <= n < start + Z.of_nat N)
  /\ exists c, receiptNumbers (snd r) = c :: rest
               /\ start <= c <= start + Z.of_nat N.
Proof.
  intros Hc Hstart Hbound r.
  assert (H0 : receiptsOf (repeat AtFindOne N) = [])
    by apply receiptsOf_waiting.
  destruct (run_withinWrites start rest schedule (repeat AtFindOne N) s)
    as ((c & Hc' & Hrange) & Hall & Hlen).
  - exact Hstart.
  - rewrite repeat_length. exact Hbound.
  - exists start. rewrite H0. simpl. split; [exact Hc | lia].
  - rewrite H0. simpl. clear.
    induction N as [|N IH]; simpl; constructor; simpl; auto.
  - fold r in Hc', Hrange, Hall, Hlen.
    rewrite repeat_length in Hlen.
    pose proof (receiptsOf_length (fst r)) as Hle.
    split.
    + intros receipt Hin.
      apply receiptsOf_In in Hin.
      apply (proj1 (Forall_forall _ _) Hall) in Hin.
      simpl in Hin. destruct Hin as (n & Hr & Hn).
      exists n. split; [exact Hr | lia].
    + exists c. split; [exact Hc' | lia].
Qed.

Lemma any_schedule_stays_in_range_witness :
  receiptNumbers Sample.store0 = [7]
  /\ 0 <= 7
  /\ 7 + Z.of_nat 2 <= 2 ^ 53
  /\ (forall receipt,
        In receipt
          (receiptsOf
             (fst (run [0; 1; 0; 1]%nat
                     (repeat AtFindOne 2, Sample.store0)))) ->
        exists n, receipt = formatReceiptNo n /\ 7 <= n < 7 + Z.of_nat 2).
Proof.
  split; [reflexivity|].
  split; [lia|].
  split; [vm_compute; discriminate|].
  apply (any_schedule_stays_in_range 2 [0; 1; 0; 1]%nat Sample.store0 7 []).
  - reflexivity.
  - lia.
  - vm_compute. discriminate.
Defined.

(** ** The order of a listing *)

Lemma newerOrSame_total a b :
  newerOrSame a b = true \/ newerOrSame b a = true.
Proof.
  unfold newerOrSame.
  destruct (createdAtOf a) as [x|], (createdAtOf b) as [y|]; auto.
  destruct (Z.leb_spec y x); [now left | right]. apply Z.leb_le. lia.
Qed.

Lemma newerOrSame_trans a b c :
  newerOrSame a b = true -> newerOrSame b c = true ->
  newerOrSame a c = true.
Proof.
  unfold newerOrSame.
  destruct (createdAtOf a) as [x|], (createdAtOf b) as [y|],
    (createdAtOf c) as [z|]; try discriminate; auto.
  rewrite !Z.leb_le. lia.
Qed.

Lemma insertDesc_HdRel a d l :
  HdRel newestFirst a l -> newestFirst a d ->
  HdRel newestFirst a (insertDesc d l).
Proof.
  intros Hl Hd. destruct l as [|e l]; simpl.
  - now constructor.
  - destruct (newerOrSame d e); constructor; [exact Hd|].
    now inversion Hl.
Qed.

Lemma insertDesc_sorted d l :
  Sorted newestFirst l -> Sorted newestFirst (insertDesc d l).
Proof.
  induction l as [|e l IH]; intros Hs; simpl.
  - repeat constructor.
  - destruct (newerOrSame d e) eqn:E.
    + constructor; [exact Hs | now constructor].
    + inversion Hs as [|? ? Hs' Hhd]; subst.
      constructor; [now apply IH|].
      apply insertDesc_HdRel; [exact Hhd|].
      destruct (newerOrSame_total d e) as [H | H]; [congruence | exact H].
Qed.

Lemma sortDesc_sorted l : Sorted newestFirst (sortDesc l).
Proof.
  induction l as [|d l IH]; simpl; [constructor|].
  now apply insertDesc_sorted.
Qed.

(** The listing holds the entries in scope, each no older than all that
    follow it. *)
Theorem getAllEntry_newest_first req s :
  StronglySorted newestFirst (dataOf (getAllEntry req s))
  /\ Permutation (dataOf (getAllEntry req s))
       (filter (visibilityFilter (lookupParam "showAll" (query req)))
          (entries s)).
Proof.
  unfold getAllEntry, dataOf. simpl. split.
  - apply Sorted_StronglySorted; [|apply sortDesc_sorted].
    intros a b c. apply newerOrSame_trans.
  - apply sortDesc_perm.
Qed.

(** ** Requests that fail *)

Section FailureFacts.

Variable castObjectId : JValue -> option string.
Variable newObjectId : Z -> string.
Variable entrySaveError : Store -> JValue -> option string.
Variable stats : Store -> Outcome unit * JValue.

(** A delete of an id that no entry has answers 404 and leaves the
    store, the statistics record included, as it was. *)
Theorem deleteEntry_of_a_missing_id req s oid :
  castObjectId (JStr (paramId req)) = Some oid ->
  findFirst (hasId oid) (entries s) = None ->
  deleteEntry castObjectId stats req s = (failure 404 "Entry Not found", s).
Proof.
  intros Hoid Hnone.
  unfold deleteEntry, tryCatch, bind, Entry_findByIdAndDelete, ret.
  now rewrite Hoid, Hnone.
Qed.

(** The answers of a creation that does not get to the counter: 400
    without a customer or a customer id, 404 for a customer that is not
    in the store; and 500 when there is no counter record.  None of them
    changes the store. *)
Theorem createNewentry_refusals now req s :
  isNullish (body req) = false ->
  (truthy (getField "customer" (body req)) = false
   \/ truthy (getField "customerId" (body req)) = false ->
   createNewentry castObjectId newObjectId entrySaveError stats now req s
   = (failure 400
        "Customer, customerId and expected delivery date are required", s))
  /\ (forall oid,
        truthy (getField "customer" (body req)) = true ->
        truthy (getField "customerId" (body req)) = true ->
        truthy (getField "expectedDeliveryDate"
                  (getField "pickupAndDelivery" (body req))) = true ->
        castObjectId (getField "customerId" (body req)) = Some oid ->
        (findFirst (hasId oid) (customers s) = None ->
         createNewentry castObjectId newObjectId entrySaveError stats
           now req s
         = (failure 404 "Customer not found", s))
        /\ (forall customerData products',
              findFirst (hasId oid) (customers s) = Some customerData ->
              defaultProducts (getField "products" (body req))
              = Return products' ->
              receiptNumbers s = [] ->
              createNewentry castObjectId newObjectId entrySaveError stats
                now req s
              = (failure 500 "Receipt number initialization failed", s))).
Proof.
  intros Hbody.
  unfold createNewentry, tryCatch, bind, destructure, member, findById,
    lift, ReceiptNumber_findOne, ret, throw.
  rewrite Hbody. split.
  - intros [H | H]; rewrite H; simpl; [reflexivity|].
    now rewrite orb_true_r.
  - intros oid Hc Hi He Hoid. rewrite Hc, Hi. simpl.
    assert (Hpd : isNullish (getField "pickupAndDelivery" (body req))
                  = false).
    { destruct (getField "pickupAndDelivery" (body req));
        try reflexivity; discriminate He. }
    rewrite Hpd, He, Hoid. simpl. split.
    + now intros ->.
    + intros customerData products' -> -> Hrec. now rewrite Hrec.
Qed.

End FailureFacts.

(** No entry of the sample store has the id of the request. *)
Lemma deleteEntry_of_a_missing_id_witness :
  Sample.castObjectId
    (JStr (paramId (mkRequest JUndefined [("id", "nobody")] [])))
  = Some "nobody"
  /\ findFirst (hasId "nobody") (entries SampleHidden.store) = None
  /\ deleteEntry Sample.castObjectId (manualUpdateStats Sample.recompute)
       (mkRequest JUndefined [("id", "nobody")] []) SampleHidden.store
     = (failure 404 "Entry Not found", SampleHidden.store).
Proof.
  assert (H1 : Sample.castObjectId
                 (JStr (paramId (mkRequest JUndefined [("id", "nobody")] [])))
               = Some "nobody") by reflexivity.
  assert (H2 : findFirst (hasId "nobody") (entries SampleHidden.store)
               = None) by reflexivity.
  split; [exact H1|]. split; [exact H2|].
  exact (deleteEntry_of_a_missing_id Sample.castObjectId
           (manualUpdateStats Sample.recompute) _ _ _ H1 H2).
Defined.

(** A body with no customer is refused. *)
Lemma createNewentry_refusals_witness :
  isNullish (JObj [("customerId", JStr "c1")]) = false
  /\ createNewentry Sample.castObjectId Sample.newObjectId
       Sample.entrySaveError (manualUpdateStats Sample.recompute)
       Sample.now0 (mkRequest (JObj [("customerId", JStr "c1")]) [] [])
       Sample.store0
     = (failure 400
          "Customer, customerId and expected delivery date are required",
        Sample.store0).
Proof.
  assert (H1 : isNullish (JObj [("customerId", JStr "c1")]) = false)
    by reflexivity.
  split; [exact H1|].
  apply (createNewentry_refusals Sample.castObjectId Sample.newObjectId
           Sample.entrySaveError (manualUpdateStats Sample.recompute)
           Sample.now0 (mkRequest (JObj [("customerId", JStr "c1")]) [] [])
           Sample.store0 H1).
  left. reflexivity.
Defined.

(** ** The tax joined into an entry that is read *)

Lemma findFirst_app (p : JValue -> bool) (a b : list JValue) :
  findFirst p (a ++ b)%list
  = match findFirst p a with
    | Some x => Some x
    | None => findFirst p b
    end.
Proof.
  induction a as [|x a IH]; simpl; [reflexivity|].
  destruct (p x); [reflexivity | exact IH].
Qed.

Lemma hasOwn_assign_same k v fs : hasOwn k (assignField k v fs) = true.
Proof.
  induction fs as [|[k' v'] fs IH]; simpl.
  - now rewrite String.eqb_refl.
  - destruct (k' =? k)%string eqn:E; simpl.
    + now rewrite String.eqb_refl.
    + now rewrite E, IH.
Qed.

Lemma hasOwn_assign_other k k' v fs :
  k' <> k -> hasOwn k (assignField k' v fs) = hasOwn k fs.
Proof.
  intros Hne. apply String.eqb_neq in Hne.
  induction fs as [|[k0 v0] fs IH]; simpl.
  - now rewrite Hne.
  - destruct (k0 =? k')%string eqn:E; simpl.
    + apply String.eqb_eq in E. subst k0. now rewrite Hne.
    + now rewrite IH.
Qed.

Lemma orElse_zero_twice v :
  orElse (orElse v (JNum 0)) (JNum 0) = orElse v (JNum 0).
Proof.
  unfold orElse. destruct (truthy v) eqn:E; [now rewrite E | reflexivity].
Qed.

(** What the map of taxes holds for a name that was asked for: the tax
    of the last product of that name, when there is one. *)
Lemma taxMap_of_catalogue names name :
  name <> "__proto__" -> In name names ->
  forall catalogue acc,
    let taxMap := fold_left recordTax (Product_find names catalogue) acc in
    hasOwn name taxMap
    = match lastNamed name catalogue with
      | Some _ => true
      | None => hasOwn name acc
      end
    /\ lookupField name taxMap
       = match lastNamed name catalogue with
         | Some product => orElse (getField "tax" product) (JNum 0)
         | None => lookupField name acc
         end.
Proof.
  intros Hproto Hin catalogue.
  induction catalogue as [|p catalogue IH]; intros acc; [now split|].
  unfold Product_find. cbn [flat_map]. fold (Product_find names catalogue).
  cbv zeta. rewrite fold_left_app.
  unfold lastNamed. cbn [rev]. rewrite findFirst_app.
  fold (lastNamed name catalogue).
  match goal with
  | |- context [fold_left recordTax (Product_find names catalogue) ?a] =>
      destruct (IH a) as [IHown IHlook]
  end.
  rewrite IHown, IHlook.
  destruct (lastNamed name catalogue) as [q|]; [now split|].
  cbn [findFirst].
  destruct (getField "name" p) as [| |b|n|pname|t|l|fs] eqn:Ep;
    cbn [strictEqString fold_left]; try now split.
  destruct (existsb (String.eqb pname) names) eqn:Eex; cbn [fold_left].
  - unfold recordTax. cbn [fst snd].
    destruct (pname =? name)%string eqn:En.
    + apply String.eqb_eq in En. subst pname.
      apply String.eqb_neq in Hproto. rewrite Hproto.
      now rewrite hasOwn_assign_same, lookup_assign_same.
    + apply String.eqb_neq in En.
      destruct (pname =? "__proto__")%string; [now split|].
      rewrite hasOwn_assign_other by exact En.
      rewrite lookup_assign_other; [now split|].
      intros E. now apply En.
  - destruct (pname =? name)%string eqn:En; [|now split].
    apply String.eqb_eq in En. subst pname.
    assert (Hex : existsb (String.eqb name) names = true).
    { apply existsb_exists. exists name. split; [exact Hin|].
      apply String.eqb_refl. }
    congruence.
Qed.

Lemma plainItem_name item :
  plainItem item = true ->
  exists name,
    getField "productName" item = JStr name
    /\ existsb (String.eqb name) objectPrototypeKeys = false
    /\ isNullish item = false.
Proof.
  unfold plainItem. intros H.
  destruct (getField "productName" item) as [| |b|n|name|t|l|fs] eqn:E;
    try discriminate.
  exists name. split; [reflexivity|]. split.
  - now destruct (existsb (String.eqb name) objectPrototypeKeys).
  - destruct item; try reflexivity; discriminate E.
Qed.

Lemma productNames_plain items :
  forallb plainItem items = true ->
  exists names,
    productNames items = Some (Return names)
    /\ forall item name,
         In item items -> getField "productName" item = JStr name ->
         In name names.
Proof.
  induction items as [|item items IH]; intros H.
  - exists []. split; [reflexivity | intros ? ? []].
  - cbn [forallb] in H. apply andb_true_iff in H. destruct H as [Hi Hs].
    destruct (IH Hs) as (names & Hn & Hall).
    destruct (plainItem_name item Hi) as (name & Hname & _ & Hnull).
    exists (name :: names). split.
    + cbn [productNames]. now rewrite Hnull, Hname, Hn.
    + intros item' name' [<- | Hin] Hn'.
      * left. congruence.
      * right. eapply Hall; eassumption.
Qed.

Lemma not_inherited_not_proto name :
  existsb (String.eqb name) objectPrototypeKeys = false ->
  name <> "__proto__".
Proof.
  intros H ->. vm_compute in H. discriminate.
Qed.

Lemma mapWithTax_plain catalogue names taxMap items :
  taxMap = fold_left recordTax (Product_find names catalogue) [] ->
  (forall item name,
     In item items -> getField "productName" item = JStr name ->
     In name names) ->
  forallb plainItem items = true ->
  exists items',
    mapWithTax taxMap items = Some items'
    /\ Forall2
         (fun item item' =>
            exists name,
              getField "productName" item = JStr name
              /\ item' = setField "tax" (catalogueTax name catalogue) item)
         items items'.
Proof.
  intros Hmap. induction items as [|item items IH]; intros Hnames Hplain.
  - exists []. split; [reflexivity | constructor].
  - cbn [forallb] in Hplain. apply andb_true_iff in Hplain.
    destruct Hplain as [Hi Hs].
    destruct IH as (items' & Hrest & Hall);
      [intros i n Hin; apply Hnames; now right | exact Hs |].
    destruct (plainItem_name item Hi) as (name & Hname & Hinh & _).
    pose proof (not_inherited_not_proto name Hinh) as Hproto.
    assert (Hin : In name names)
      by (apply (Hnames item name); [now left | exact Hname]).
    destruct (taxMap_of_catalogue names name Hproto Hin catalogue [])
      as [_ Hlook].
    cbv zeta in Hlook. rewrite <- Hmap in Hlook.
    exists (setField "tax" (catalogueTax name catalogue) item :: items').
    split.
    + cbn [mapWithTax]. unfold withTax, taxFor.
      rewrite Hname, Hinh, andb_false_r, Hrest, Hlook.
      unfold catalogueTax.
      destruct (lastNamed name catalogue) as [p|].
      * now rewrite orElse_zero_twice.
      * reflexivity.
    + constructor; [|exact Hall].
      exists name. now split.
Qed.

Section ReadFacts.

Variable castObjectId : JValue -> option string.

(** An entry that is read by its id comes back as it is stored, hidden
    or not, but for the tax of its line items: each gets the tax that
    the catalogue has now for the last product of its name, or 0 when
    the catalogue has no such product or no tax for it; the tax stored
    with the line item is not looked at. *)
Theorem getEntryById_joins_catalogue_tax catalogue req s oid entry items :
  castObjectId (JStr (paramId req)) = Some oid ->
  findFirst (hasId oid) (entries s) = Some entry ->
  getField "products" entry = JArr items ->
  forallb plainItem items = true ->
  exists items',
    getEntryById castObjectId catalogue req s
    = Some (mkResponse 200
              (JObj [("success", JBool true);
                     ("message", JStr "Entry fetched successfully");
                     ("data", setField "products" (JArr items') entry)]))
    /\ Forall2
         (fun item item' =>
            exists name,
              getField "productName" item = JStr name
              /\ item' = setField "tax" (catalogueTax name catalogue) item)
         items items'.
Proof.
  intros Hoid Hfound Hproducts Hplain.
  destruct (productNames_plain items Hplain) as (names & Hnames & Hall).
  destruct (mapWithTax_plain catalogue names _ items eq_refl Hall Hplain)
    as (items' & Hmap & Hjoin).
  exists items'. split; [|exact Hjoin].
  unfold getEntryById, findById.
  rewrite Hoid. cbn [fst]. rewrite Hfound, Hproducts, Hnames.
  cbv zeta. now rewrite Hmap.
Qed.

End ReadFacts.

(** The sample entry, whose Saree is stored with the tax 5, is read with
    the catalogue of the sample. *)
Lemma getEntryById_joins_catalogue_tax_witness :
  Sample.castObjectId (JStr (paramId SampleToggle.toggleReq)) = Some "entry0"
  /\ findFirst (hasId "entry0") (entries (snd Sample.created))
     = Some SampleCatalogue.stored
  /\ getField "products" SampleCatalogue.stored
     = JArr SampleCatalogue.items
  /\ forallb plainItem SampleCatalogue.items = true
  /\ exists items',
       getEntryById Sample.castObjectId SampleCatalogue.catalogue
         SampleToggle.toggleReq (snd Sample.created)
       = Some (mkResponse 200
                 (JObj [("success", JBool true);
                        ("message", JStr "Entry fetched successfully");
                        ("data",
                         setField "products" (JArr items')
                           SampleCatalogue.stored)]))
       /\ Forall2
            (fun item item' =>
               exists name,
                 getField "productName" item = JStr name
                 /\ item'
                    = setField "tax"
                        (catalogueTax name SampleCatalogue.catalogue) item)
            SampleCatalogue.items items'.
Proof.
  assert (H1 : Sample.castObjectId (JStr (paramId SampleToggle.toggleReq))
               = Some "entry0") by reflexivity.
  assert (H2 : findFirst (hasId "entry0") (entries (snd Sample.created))
               = Some SampleCatalogue.stored) by (vm_compute; reflexivity).
  assert (H3 : getField "products" SampleCatalogue.stored
               = JArr SampleCatalogue.items) by (vm_compute; reflexivity).
  assert (H4 : forallb plainItem SampleCatalogue.items = true)
    by (vm_compute; reflexivity).
  split; [exact H1|]. split; [exact H2|]. split; [exact H3|].
  split; [exact H4|].
  exact (getEntryById_joins_catalogue_tax Sample.castObjectId
           SampleCatalogue.catalogue SampleToggle.toggleReq
           (snd Sample.created) "entry0" SampleCatalogue.stored
           SampleCatalogue.items H1 H2 H3 H4).
Defined.

(** ** An id that is no ObjectId *)

Section IdFacts.

Variable castObjectId : JValue -> option string.
Variable entrySaveError : Store -> JValue -> option string.
Variable updateError : Store -> JValue -> option string.
Variable stats : Store -> Outcome unit * JValue.

(** An id that does not cast to an ObjectId is answered with 400 by
    [updateEntry] and with 500 by [deleteEntry], [toggleVisibility] and
    [getEntryById]; the store stays as it was. *)
Theorem malformed_id_is_refused catalogue now req s :
  castObjectId (JStr (paramId req)) = None ->
  (exists m, updateEntry castObjectId updateError stats now req s
             = (failure 400 m, s))
  /\ (exists m, deleteEntry castObjectId stats req s = (failure 500 m, s))
  /\ toggleVisibility castObjectId entrySaveError now req s
     = (failure 500 "Server Error", s)
  /\ (exists m, getEntryById castObjectId catalogue req s
                = Some (failure 500 m)).
Proof.
  intros Hid. repeat split.
  - unfold updateEntry, tryCatch, bind, destructure, lift,
      Entry_findByIdAndUpdate, ret, throw.
    rewrite Hid.
    destruct (isNullish (body req)); [eexists; reflexivity|].
    destruct (defaultProducts (getField "products" (body req)));
      eexists; reflexivity.
  - unfold deleteEntry, tryCatch, bind, Entry_findByIdAndDelete.
    rewrite Hid. eexists; reflexivity.
  - unfold toggleVisibility, tryCatch, bind, findById.
    now rewrite Hid.
  - unfold getEntryById, findById. rewrite Hid. eexists; reflexivity.
Qed.

(** A toggle does not refresh the statistics: [getEntryStats] answers
    after it what it answered before, whatever the toggle answered. *)
Theorem toggleVisibility_keeps_statistics now req s :
  getEntryStats (snd (toggleVisibility castObjectId entrySaveError now req s))
  = getEntryStats s.
Proof.
  unfold getEntryStats.
  assert (H : entryStat
                (snd (toggleVisibility castObjectId entrySaveError now req s))
              = entryStat s).
  { unfold toggleVisibility, tryCatch, bind, findById, Entry_save, ret.
    break_goal; reflexivity. }
  now rewrite H.
Qed.

End IdFacts.

Lemma malformed_id_is_refused_witness :
  SampleMalformed.castObjectId (JStr (paramId SampleMalformed.req)) = None
  /\ (exists m,
        updateEntry SampleMalformed.castObjectId Sample.updateError
          (manualUpdateStats Sample.recompute) Sample.now0
          SampleMalformed.req SampleHidden.store
        = (failure 400 m, SampleHidden.store))
  /\ (exists m,
        deleteEntry SampleMalformed.castObjectId
          (manualUpdateStats Sample.recompute) SampleMalformed.req
          SampleHidden.store
        = (failure 500 m, SampleHidden.store))
  /\ toggleVisibility SampleMalformed.castObjectId Sample.entrySaveError
       Sample.now0 SampleMalformed.req SampleHidden.store
     = (failure 500 "Server Error", SampleHidden.store)
  /\ (exists m,
        getEntryById SampleMalformed.castObjectId [] SampleMalformed.req
          SampleHidden.store
        = Some (failure 500 m)).
Proof.
  assert (H : SampleMalformed.castObjectId
                (JStr (paramId SampleMalformed.req)) = None)
    by reflexivity.
  split; [exact H|].
  exact (malformed_id_is_refused SampleMalformed.castObjectId
           Sample.entrySaveError Sample.updateError
           (manualUpdateStats Sample.recompute) [] Sample.now0
           SampleMalformed.req SampleHidden.store H).
Defined.

(** ** What a delete removes *)

Lemma removeFirst_split (p : JValue -> bool) l d :
  findFirst p l = Some d ->
  exists before after,
    l = (before ++ d :: after)%list
    /\ removeFirst p l = (before ++ after)%list
    /\ forallb (fun x => negb (p x)) before = true.
Proof.
  induction l as [|x l IH]; simpl; [discriminate|].
  destruct (p x) eqn:E; intros H.
  - injection H as <-. exists [], l. now repeat split.
  - destruct (IH H) as (before & after & -> & Hr & Hb).
    exists (x :: before), after. simpl. rewrite E, Hr, Hb. now repeat split.
Qed.

Section DeleteFacts.

Variable castObjectId : JValue -> option string.
Variable stats : Store -> Outcome unit * JValue.

(** A delete of an id that an entry has removes the first entry of that
    id and nothing else: the other entries keep their order, and the
    customers and the receipt counter stay.  The answer is 200 when the
    refresh of the statistics returns; when it throws the answer is 500
    and the entry is gone all the same. *)
Theorem deleteEntry_removes_one_entry req s oid doc :
  castObjectId (JStr (paramId req)) = Some oid ->
  findFirst (hasId oid) (entries s) = Some doc ->
  let r := deleteEntry castObjectId stats req s in
  (exists before after,
     entries s = (before ++ doc :: after)%list
     /\ entries (snd r) = (before ++ after)%list
     /\ forallb (fun d => negb (hasId oid d)) before = true)
  /\ receiptNumbers (snd r) = receiptNumbers s
  /\ customers (snd r) = customers s
  /\ fst r
     = match fst (stats (withEntries (removeFirst (hasId oid) (entries s)) s))
       with
       | Return _ =>
           mkResponse 200
             (JObj [("success", JBool true);
                    ("message", JStr "Entry deleted successfully")])
       | Throw m => failure 500 m
       end.
Proof.
  intros Hoid Hfound r.
  destruct (removeFirst_split _ _ _ Hfound) as (before & after & Hl & Hr & Hb).
  assert (Hs : entries (snd r) = removeFirst (hasId oid) (entries s)
               /\ receiptNumbers (snd r) = receiptNumbers s
               /\ customers (snd r) = customers s
               /\ fst r
                  = match fst (stats (withEntries
                                        (removeFirst (hasId oid) (entries s))
                                        s)) with
                    | Return _ =>
                        mkResponse 200
                          (JObj [("success", JBool true);
                                 ("message",
                                  JStr "Entry deleted successfully")])
                    | Throw m => failure 500 m
                    end).
  { subst r.
    unfold deleteEntry, tryCatch, bind, Entry_findByIdAndDelete,
      runManualUpdateStats, ret.
    rewrite Hoid, Hfound.
    destruct (stats (withEntries (removeFirst (hasId oid) (entries s)) s))
      as [[u|m] st]; simpl; now repeat split. }
  destruct Hs as (He & Hn & Hc & Hresp).
  split; [|now repeat split].
  exists before, after. rewrite He, Hr. now repeat split.
Qed.

End DeleteFacts.

(** The hidden entry of the sample store is deleted. *)
Lemma deleteEntry_removes_one_entry_witness :
  Sample.castObjectId
    (JStr (paramId (mkRequest JUndefined [("id", "e2")] []))) = Some "e2"
  /\ findFirst (hasId "e2") (entries SampleHidden.store)
     = Some SampleHidden.hidden
  /\ exists before after,
       entries SampleHidden.store
       = (before ++ SampleHidden.hidden :: after)%list
       /\ entries
            (snd (deleteEntry Sample.castObjectId
                    (manualUpdateStats Sample.recompute)
                    (mkRequest JUndefined [("id", "e2")] [])
                    SampleHidden.store))
          = (before ++ after)%list
       /\ forallb (fun d => negb (hasId "e2" d)) before = true.
Proof.
  assert (H1 : Sample.castObjectId
                 (JStr (paramId (mkRequest JUndefined [("id", "e2")] [])))
               = Some "e2") by reflexivity.
  assert (H2 : findFirst (hasId "e2") (entries SampleHidden.store)
               = Some SampleHidden.hidden) by reflexivity.
  split; [exact H1|]. split; [exact H2|].
  exact (proj1 (deleteEntry_removes_one_entry Sample.castObjectId
                  (manualUpdateStats Sample.recompute)
                  (mkRequest JUndefined [("id", "e2")] [])
                  SampleHidden.store "e2" SampleHidden.hidden H1 H2)).
Defined.

(** ** Two toggles *)

Section ToggleTwice.

Variable castObjectId : JValue -> option string.
Variable entrySaveError : Store -> JValue -> option string.

(** Two toggles of an entry that both answer 200 leave it as visible as
    it was: the entry differs from the one before only in [updatedAt],
    which is the time of the second toggle, and in that [visible] is
    written out; no other entry changes. *)
Theorem toggleVisibility_twice now1 now2 req s :
  let r1 := toggleVisibility castObjectId entrySaveError now1 req s in
  let r2 := toggleVisibility castObjectId entrySaveError now2 req (snd r1) in
  status (fst r1) = 200 -> status (fst r2) = 200 ->
  exists oid old new,
    castObjectId (JStr (paramId req)) = Some oid
    /\ findFirst (hasId oid) (entries s) = Some old
    /\ entries (snd r2) = replaceFirst (hasId oid) new (entries s)
    /\ visibleOf new = visibleOf old
    /\ getField "updatedAt" new = JDate now2
    /\ forall k, k <> "visible" -> k <> "updatedAt" ->
                 getField k new = getField k old.
Proof.
  intros r1 r2 H1 H2.
  destruct (toggleVisibility_toggled castObjectId entrySaveError now1 req s
              (fst r1) (snd r1)) as (oid & old & Hoid & Hold & Hs1 & _);
    [subst r1; apply surjective_pairing | exact H1 |].
  destruct (toggleVisibility_toggled castObjectId entrySaveError now2 req
              (snd r1) (fst r2) (snd r2))
    as (oid2 & old2 & Hoid2 & Hold2 & Hs2 & _);
    [subst r2; apply surjective_pairing | exact H2 |].
  rewrite Hoid in Hoid2. injection Hoid2 as <-.
  set (e1 := setField "updatedAt" (JDate now1)
               (setField "visible" (JBool (negb (visibleOf old))) old)) in *.
  pose proof (findFirst_holds _ _ _ Hold) as Hid.
  destruct (hasId_object _ _ Hid) as (fs & Hfs).
  destruct (toggled_fields now1 old) as [Hv1 Hk1]; [now exists fs|].
  cbv zeta in Hv1, Hk1. fold e1 in Hv1, Hk1.
  assert (Hid1 : hasId oid e1 = true).
  { unfold hasId in *. rewrite Hk1 by discriminate. exact Hid. }
  rewrite Hs1 in Hold2. cbn [entries withEntries] in Hold2.
  rewrite (findFirst_replaceFirst _ e1 _ old Hold Hid1) in Hold2.
  injection Hold2 as <-.
  destruct (hasId_object _ _ Hid1) as (fs1 & Hfs1).
  destruct (toggled_fields now2 e1) as [Hv2 Hk2]; [now exists fs1|].
  cbv zeta in Hv2, Hk2.
  set (e2 := setField "updatedAt" (JDate now2)
               (setField "visible" (JBool (negb (visibleOf e1))) e1)) in *.
  exists oid, old, e2.
  split; [exact Hoid|]. split; [exact Hold|]. split.
  { rewrite Hs2, Hs1. cbn [entries withEntries].
    now apply replaceFirst_twice. }
  split.
  { unfold visibleOf at 1. rewrite Hv2.
    unfold visibleOf at 1. rewrite Hv1.
    now destruct (visibleOf old). }
  split.
  { subst e2. rewrite Hfs1. cbn [setField getField].
    apply lookup_assign_same. }
  intros k Hkv Hku. rewrite Hk2 by assumption. now apply Hk1.
Qed.

End ToggleTwice.

(** The sample entry is hidden and shown again a minute later. *)
Lemma toggleVisibility_twice_witness :
  status (fst SampleToggle.hidden) = 200
  /\ status
       (fst (toggleVisibility Sample.castObjectId Sample.entrySaveError
               (SampleUpdate.now1 + 60000) SampleToggle.toggleReq
               (snd SampleToggle.hidden))) = 200
  /\ exists oid old new,
       Sample.castObjectId (JStr (paramId SampleToggle.toggleReq)) = Some oid
       /\ findFirst (hasId oid) (entries (snd Sample.created)) = Some old
       /\ entries
            (snd (toggleVisibility Sample.castObjectId Sample.entrySaveError
                    (SampleUpdate.now1 + 60000) SampleToggle.toggleReq
                    (snd SampleToggle.hidden)))
          = replaceFirst (hasId oid) new (entries (snd Sample.created))
       /\ visibleOf new = visibleOf old
       /\ getField "updatedAt" new = JDate (SampleUpdate.now1 + 60000)
       /\ forall k, k <> "visible" -> k <> "updatedAt" ->
                    getField k new = getField k old.
Proof.
  assert (H1 : status (fst SampleToggle.hidden) = 200)
    by (vm_compute; reflexivity).
  assert (H2 : status
                 (fst (toggleVisibility Sample.castObjectId
                         Sample.entrySaveError (SampleUpdate.now1 + 60000)
                         SampleToggle.toggleReq (snd SampleToggle.hidden)))
               = 200) by (vm_compute; reflexivity).
  split; [exact H1|]. split; [exact H2|].
  exact (toggleVisibility_twice Sample.castObjectId Sample.entrySaveError
           SampleUpdate.now1 (SampleUpdate.now1 + 60000)
           SampleToggle.toggleReq (snd Sample.created) H1 H2).
Defined.

(** ** Two writes of one path *)

Lemma hasOwn_In k fs : hasOwn k fs = true -> exists v, In (k, v) fs.
Proof.
  unfold hasOwn. intros H. apply existsb_exists in H.
  destruct H as ([k' v] & Hin & E). simpl in E.
  apply String.eqb_eq in E. subst k'. now exists v.
Qed.

Lemma anyConflict_In p q ps :
  In p ps -> In q ps -> p <> q -> pathsConflict p q = true ->
  anyConflict ps = true.
Proof.
  intros Hp Hq Hne Hc.
  induction ps as [|x ps IH]; [destruct Hp|].
  cbn [anyConflict]. apply orb_true_iff.
  destruct Hp as [-> | Hp], Hq as [-> | Hq].
  - now elim Hne.
  - left. apply existsb_exists. now exists q.
  - left. apply existsb_exists. exists p. split; [exact Hp|].
    now rewrite pathsConflict_sym.
  - right. now apply IH.
Qed.

Section ConflictFacts.

Variable castObjectId : JValue -> option string.
Variable updateError : Store -> JValue -> option string.
Variable stats : Store -> Outcome unit * JValue.

(** A patch that carries [pickupAndDelivery] as a whole together with
    one of the statuses whose date the handler writes is refused with
    400 and changes nothing: the date goes into the update under a path
    inside [pickupAndDelivery], and the store does not set a path and a
    path inside it in one update. *)
Theorem updateEntry_refuses_dates_beside_their_parent now req s fs st :
  body req = JObj fs ->
  hasOwn "pickupAndDelivery" fs = true ->
  lookupField "status" fs = JStr st ->
  In st stampedStatuses ->
  exists m,
    updateEntry castObjectId updateError stats now req s
    = (failure 400 m, s).
Proof.
  intros Hbody Hown Hstatus Hst.
  destruct (hasOwn_In _ _ Hown) as (v & Hin).
  assert (Hconflict :
    forall products',
      anyConflict
        (map (fun kv => splitDots (fst kv))
           (updateFields (patchedBody now (body req) products'))) = true).
  { intros products'.
    assert (Hkey : exists key,
               In (key, JDate now)
                 (updateFields (patchedBody now (body req) products'))
               /\ exists leaf, splitDots key = ["pickupAndDelivery"; leaf]).
    { simpl in Hst.
      destruct Hst as [<- | [<- | [<- | []]]];
        [exists "pickupAndDelivery.deliveryDate"
        |exists "pickupAndDelivery.pickupDate"
        |exists "pickupAndDelivery.processedAndPackedDate"];
        (split;
         [eapply patchedBody_stamp;
          [rewrite Hbody; exact Hstatus | tauto]
         |eexists; vm_compute; reflexivity]). }
    destruct Hkey as (key & Hk & leaf & Hsplit).
    assert (Hparent :
              In ("pickupAndDelivery", v)
                (updateFields (patchedBody now (body req) products'))).
    { apply patchedBody_keeps; try discriminate.
      rewrite Hbody. exact Hin. }
    apply (anyConflict_In ["pickupAndDelivery"] ["pickupAndDelivery"; leaf]).
    - change ["pickupAndDelivery"]
        with ((fun kv : string * JValue => splitDots (fst kv))
                ("pickupAndDelivery", v)).
      now apply in_map.
    - rewrite <- Hsplit.
      change (splitDots key)
        with ((fun kv : string * JValue => splitDots (fst kv))
                (key, JDate now)).
      now apply in_map.
    - discriminate.
    - unfold pathsConflict. cbn [isPrefix]. now rewrite String.eqb_refl. }
  unfold updateEntry, tryCatch, bind, destructure, lift, ret, throw.
  assert (Hnull : isNullish (body req) = false) by now rewrite Hbody.
  rewrite Hnull.
  destruct (defaultProducts (getField "products" (body req)))
    as [products'|m] eqn:Hp; [|eexists; reflexivity].
  specialize (Hconflict products').
  unfold patchedBody in Hconflict.
  unfold Entry_findByIdAndUpdate.
  destruct (castObjectId (JStr (paramId req))); [|eexists; reflexivity].
  match goal with
  | |- context [updateError s ?b] => destruct (updateError s b)
  end; [eexists; reflexivity|].
  rewrite Hconflict. eexists; reflexivity.
Qed.

End ConflictFacts.

Lemma updateEntry_refuses_dates_beside_their_parent_witness :
  body SampleConflict.req = JObj SampleConflict.fields
  /\ hasOwn "pickupAndDelivery" SampleConflict.fields = true
  /\ lookupField "status" SampleConflict.fields = JStr "delivered"
  /\ In "delivered" stampedStatuses
  /\ exists m,
       updateEntry Sample.castObjectId Sample.updateError
         (manualUpdateStats Sample.recompute) SampleUpdate.now1
         SampleConflict.req (snd Sample.created)
       = (failure 400 m, snd Sample.created).
Proof.
  assert (H1 : body SampleConflict.req = JObj SampleConflict.fields)
    by reflexivity.
  assert (H2 : hasOwn "pickupAndDelivery" SampleConflict.fields = true)
    by reflexivity.
  assert (H3 : lookupField "status" SampleConflict.fields = JStr "delivered")
    by reflexivity.
  assert (H4 : In "delivered" stampedStatuses) by (left; reflexivity).
  split; [exact H1|]. split; [exact H2|]. split; [exact H3|].
  split; [exact H4|].
  exact (updateEntry_refuses_dates_beside_their_parent Sample.castObjectId
           Sample.updateError (manualUpdateStats Sample.recompute)
           SampleUpdate.now1 SampleConflict.req (snd Sample.created)
           SampleConflict.fields "delivered" H1 H2 H3 H4).
Defined.

(** ** What a creation reads and what it uses up *)

Section CreateReads.

Variable castObjectId : JValue -> option string.
Variable newObjectId : Z -> string.
Variable entrySaveError : Store -> JValue -> option string.
Variable stats : Store -> Outcome unit * JValue.

(** A creation depends on the body through the eight fields it reads:
    two bodies that agree on them get the same answer and leave the
    same store.  The receipt number, the status, the visibility and the
    phone of the customer cannot be set through the body. *)
Theorem createNewentry_reads_only_its_fields now req1 req2 s :
  isNullish (body req1) = isNullish (body req2) ->
  nullishName (body req1) = nullishName (body req2) ->
  (forall k, In k readByCreate ->
             getField k (body req1) = getField k (body req2)) ->
  createNewentry castObjectId newObjectId entrySaveError stats now req1 s
  = createNewentry castObjectId newObjectId entrySaveError stats now req2 s.
Proof.
  intros Hn Hname H.
  assert (H1 := H "customer" ltac:(simpl; tauto)).
  assert (H2 := H "customerId" ltac:(simpl; tauto)).
  assert (H3 := H "products" ltac:(simpl; tauto)).
  assert (H4 := H "charges" ltac:(simpl; tauto)).
  assert (H5 := H "pickupAndDelivery" ltac:(simpl; tauto)).
  assert (H6 := H "expectedDeliveryDate" ltac:(simpl; tauto)).
  assert (H7 := H "discount" ltac:(simpl; tauto)).
  assert (H8 := H "remarks" ltac:(simpl; tauto)).
  unfold createNewentry, newEntryFields, tryCatch, bind at 1 3, destructure.
  rewrite Hn, Hname.
  destruct (isNullish (body req2)); [reflexivity|].
  unfold ret at 1 8. cbv beta iota.
  now rewrite H1, H2, H3, H4, H5, H6, H7, H8.
Qed.

(** A creation whose document the Entry schema refuses has used up its
    receipt number.  When the checks of the body pass, the counter
    stands at [n] with [0 <= n < 2^53], and the schema refuses the
    document that the creation builds, the answer is 400 with the
    message of the schema, no entry is stored and the statistics are not
    refreshed, but the counter stands at [n + 1]. *)
Theorem refused_entry_uses_up_its_number now req s oid customerData
  products' n rest m :
  isNullish (body req) = false ->
  truthy (getField "customer" (body req)) = true ->
  truthy (getField "customerId" (body req)) = true ->
  truthy (getField "expectedDeliveryDate"
            (getField "pickupAndDelivery" (body req))) = true ->
  castObjectId (getField "customerId" (body req)) = Some oid ->
  findFirst (hasId oid) (customers s) = Some customerData ->
  defaultProducts (getField "products" (body req)) = Return products' ->
  receiptNumbers s = n :: rest ->
  0 <= n < 2 ^ 53 ->
  entrySaveError
    (withIdSeed (idSeed s + 1) (withReceiptNumbers ((n + 1) :: rest) s))
    (newDocument newObjectId
       (newEntryFields (body req) customerData products'
          (defaultCharges (getField "charges" (body req)))
          (formatReceiptNo n))
       s)
  = Some m ->
  let r := createNewentry castObjectId newObjectId entrySaveError stats
             now req s in
  fst r = failure 400 m
  /\ entries (snd r) = entries s
  /\ entryStat (snd r) = entryStat s
  /\ receiptNumbers (snd r) = (n + 1) :: rest.
Proof.
  intros Hbody Hc Hi He Hoid Hcust Hprod Hrec Hn Hrefuse r. subst r.
  assert (Hpd : isNullish (getField "pickupAndDelivery" (body req)) = false).
  { destruct (getField "pickupAndDelivery" (body req));
      try reflexivity; discriminate He. }
  unfold createNewentry, tryCatch, bind, destructure, member, findById,
    lift, ReceiptNumber_findOne, receiptRecord_save, Entry_new,
    Entry_insert, ret, throw.
  rewrite Hbody, Hc, Hi. cbn [negb orb].
  rewrite Hpd, He, Hoid. cbn [negb].
  rewrite Hcust, Hprod, Hrec.
  unfold withIdSeed, withReceiptNumbers, newDocument in *.
  cbn [idSeed customers receiptNumbers entries entryStat hd_error tl] in *.
  rewrite Hrec. cbn [tl].
  rewrite (add_exact n 1) by lia.
  rewrite Hrefuse. cbn [fst snd entries entryStat receiptNumbers].
  now repeat split.
Qed.

End CreateReads.

Lemma createNewentry_reads_only_its_fields_witness :
  isNullish (body Sample.createReq) = isNullish (body SampleForged.req)
  /\ nullishName (body Sample.createReq)
     = nullishName (body SampleForged.req)
  /\ (forall k, In k readByCreate ->
                getField k (body Sample.createReq)
                = getField k (body SampleForged.req))
  /\ createNewentry Sample.castObjectId Sample.newObjectId
       Sample.entrySaveError (manualUpdateStats Sample.recompute)
       Sample.now0 Sample.createReq Sample.store0
     = createNewentry Sample.castObjectId Sample.newObjectId
         Sample.entrySaveError (manualUpdateStats Sample.recompute)
         Sample.now0 SampleForged.req Sample.store0.
Proof.
  assert (H1 : isNullish (body Sample.createReq)
               = isNullish (body SampleForged.req)) by reflexivity.
  assert (H0 : nullishName (body Sample.createReq)
               = nullishName (body SampleForged.req)) by reflexivity.
  assert (H2 : forall k, In k readByCreate ->
                 getField k (body Sample.createReq)
                 = getField k (body SampleForged.req)).
  { intros k Hk. simpl in Hk.
    repeat (destruct Hk as [<- | Hk]; [reflexivity|]). destruct Hk. }
  split; [exact H1|]. split; [exact H0|]. split; [exact H2|].
  exact (createNewentry_reads_only_its_fields Sample.castObjectId
           Sample.newObjectId Sample.entrySaveError
           (manualUpdateStats Sample.recompute) Sample.now0
           Sample.createReq SampleForged.req Sample.store0 H1 H0 H2).
Defined.

(** The sample creation under a schema that refuses every entry: the
    counter goes from 7 to 8. *)
Lemma refused_entry_uses_up_its_number_witness :
  receiptNumbers Sample.store0 = [7]
  /\ 0 <= 7 < 2 ^ 53
  /\ fst SampleRefused.created = failure 400 "Entry validation failed"
  /\ entries (snd SampleRefused.created) = entries Sample.store0
  /\ entryStat (snd SampleRefused.created) = entryStat Sample.store0
  /\ receiptNumbers (snd SampleRefused.created) = [7 + 1].
Proof.
  split; [reflexivity|].
  split; [vm_compute; split; [discriminate | reflexivity]|].
  apply (refused_entry_uses_up_its_number Sample.castObjectId
           Sample.newObjectId SampleRefused.entrySaveError
           (manualUpdateStats Sample.recompute) Sample.now0
           Sample.createReq Sample.store0 "c1" Sample.customer1
           (JArr [JObj [("productName", JStr "Shirt"); ("quantity", JNum 2);
                        ("tax", JNum 0)];
                  JObj [("productName", JStr "Saree"); ("tax", JNum 5)]])
           7 [] "Entry validation failed");
    try reflexivity.
  vm_compute. split; [discriminate | reflexivity].
Defined.

(** ** The pages of a listing *)

Lemma ceilDiv_bounds (a b : Z) :
  0 < b -> a <= ceilDiv a b * b < a + b.
Proof.
  intros Hb. unfold ceilDiv.
  pose proof (Z.div_mod (- a) b ltac:(lia)) as Hdm.
  pose proof (Z.mod_pos_bound (- a) b Hb) as Hmod.
  nia.
Qed.

Lemma chunks_concat {A} (L : nat) :
  (0 < L)%nat ->
  forall (n : nat) (l : list A),
    (List.length l <= n * L)%nat ->
    List.concat (map (fun i => firstn L (skipn (i * L) l)) (seq 0 n)) = l.
Proof.
  intros HL n. induction n as [|n IH]; intros l Hlen.
  - destruct l; [reflexivity | simpl in Hlen; lia].
  - cbn [seq map List.concat]. rewrite <- seq_shift, map_map.
    cbn [Nat.mul skipn].
    rewrite (map_ext _ (fun i => firstn L (skipn (i * L) (skipn L l)))).
    + rewrite IH; [apply firstn_skipn|].
      rewrite length_skipn. simpl in Hlen. lia.
    + intros i. rewrite skipn_skipn. f_equal. f_equal. simpl. lia.
Qed.

Lemma lookupParam_pageRequest page limit showAll :
  lookupParam "page" (query (pageRequest page limit showAll))
  = Some (JS.ToString page)
  /\ lookupParam "limit" (query (pageRequest page limit showAll))
     = Some (JS.ToString limit)
  /\ lookupParam "showAll" (query (pageRequest page limit showAll))
     = showAll.
Proof.
  unfold pageRequest. cbn [query app lookupParam].
  repeat split. destruct showAll; reflexivity.
Qed.

(** What page [page] of a listing holds. *)
Lemma getPaginatedEntries_page page limit showAll s :
  0 < page -> 0 < limit -> page * limit <= 2 ^ 53 ->
  let sorted := sortDesc (filter (visibilityFilter showAll) (entries s)) in
  let r := getPaginatedEntries (pageRequest page limit showAll) s in
  status r = 200
  /\ getField "totalPages" (json r)
     = JNum (ceilDiv (Z.of_nat (List.length sorted)) limit)
  /\ dataOf r
     = firstn (Z.to_nat limit)
         (skipn (Z.to_nat (page - 1) * Z.to_nat limit) sorted).
Proof.
  intros Hp Hl Hb sorted r. subst r.
  destruct (lookupParam_pageRequest page limit showAll) as (E1 & E2 & E3).
  unfold getPaginatedEntries, dataOf.
  rewrite E1, E2, E3. cbn [JS.parseIntParam].
  rewrite !parseInt_ToString by nia.
  unfold JS.orDefault.
  destruct (Z.eqb_spec page 0) as [?|_]; [lia|].
  destruct (Z.eqb_spec limit 0) as [?|_]; [lia|].
  rewrite sub_exact by nia. rewrite mul_exact by nia.
  assert (H63 : 2 ^ 53 < 2 ^ 63) by reflexivity.
  rewrite skipLimit_ok by nia.
  cbn [status json getField lookupField String.eqb Ascii.eqb Bool.eqb].
  fold sorted.
  assert (Hlen : List.length sorted
                 = List.length (filter (visibilityFilter showAll) (entries s))).
  { apply Permutation_length, sortDesc_perm. }
  rewrite Hlen. repeat split.
  rewrite Z.abs_eq by lia. f_equal. f_equal.
  rewrite Z2Nat.inj_mul by lia. reflexivity.
Qed.

Lemma newerOrSame_antisym a b :
  newerOrSame a b = true -> newerOrSame b a = true ->
  createdAtOf a = createdAtOf b.
Proof.
  unfold newerOrSame.
  destruct (createdAtOf a) as [x|], (createdAtOf b) as [y|];
    try discriminate; [|reflexivity].
  rewrite !Z.leb_le. intros. f_equal. lia.
Qed.

(** Entries with different dates have one arrangement that is newest
    first. *)
Lemma newest_first_unique (l1 : list JValue) :
  forall l2,
    Permutation l1 l2 ->
    StronglySorted newestFirst l1 -> StronglySorted newestFirst l2 ->
    NoDup (map createdAtOf l1) -> l1 = l2.
Proof.
  induction l1 as [|a l1 IH]; intros l2 Hperm Hs1 Hs2 Hnd.
  - now apply Permutation_nil in Hperm.
  - destruct l2 as [|b l2].
    { apply Permutation_sym, Permutation_nil in Hperm. discriminate. }
    inversion Hs1 as [|? ? Hs1' Hall1]; subst.
    inversion Hs2 as [|? ? Hs2' Hall2]; subst.
    inversion Hnd as [|? ? Hnotin Hnd']; subst.
    assert (Hab : a = b).
    { assert (Ha : In a (b :: l2))
        by (apply (Permutation_in _ Hperm); now left).
      destruct Ha as [E | Ha]; [now symmetry|].
      assert (Hb : In b (a :: l1))
        by (apply (Permutation_in _ (Permutation_sym Hperm)); now left).
      destruct Hb as [E | Hb]; [exact E|].
      exfalso. apply Hnotin.
      rewrite (newerOrSame_antisym a b).
      - now apply in_map.
      - apply (proj1 (Forall_forall _ _) Hall1 b Hb).
      - apply (proj1 (Forall_forall _ _) Hall2 a Ha). }
    subst b. f_equal.
    apply IH; try assumption.
    now apply Permutation_cons_inv in Hperm.
Qed.

(** The pages of [getPaginatedEntries] cut the listing of [getAllEntry]
    for the same [showAll] into runs of [limit] entries.  When no two
    entries in scope have the same creation date, and the number of
    entries plus [limit] is at most 2^53, the listing is the one
    arrangement of the entries in scope that is newest first; every page
    [p] with [p * limit] at most 2^53 reports the same number of pages
    and is no longer than [limit]; the pages from 1 to that number put
    end to end are the whole listing in its order; and a page after the
    last one is empty. *)
Theorem pages_partition_the_listing limit showAll s :
  0 < limit ->
  Z.of_nat (List.length (entries s)) + limit <= 2 ^ 53 ->
  NoDup (map createdAtOf (filter (visibilityFilter showAll) (entries s))) ->
  let sorted := dataOf (getAllEntry (pageRequest 1 limit showAll) s) in
  let totalPages := ceilDiv (Z.of_nat (List.length sorted)) limit in
  let page p := getPaginatedEntries (pageRequest p limit showAll) s in
  (forall l,
     Permutation l (filter (visibilityFilter showAll) (entries s)) ->
     StronglySorted newestFirst l -> l = sorted)
  /\ (forall p, 0 < p -> p * limit <= 2 ^ 53 ->
        getField "totalPages" (json (page p)) = JNum totalPages)
  /\ List.concat (map (fun i => dataOf (page (Z.of_nat i)))
                    (seq 1 (Z.to_nat totalPages)))
     = sorted
  /\ (forall p, 0 < p -> p * limit <= 2 ^ 53 ->
        (List.length (dataOf (page p)) <= Z.to_nat limit)%nat)
  /\ (forall p, totalPages < p -> p * limit <= 2 ^ 53 ->
        dataOf (page p) = []).
Proof.
  intros Hl Hsize Hnd sorted totalPages page.
  assert (Hsorted : sorted
                    = sortDesc (filter (visibilityFilter showAll) (entries s))).
  { subst sorted. unfold getAllEntry, dataOf.
    destruct (lookupParam_pageRequest 1 limit showAll) as (_ & _ & ->).
    reflexivity. }
  clearbody sorted. subst sorted.
  set (sorted := sortDesc (filter (visibilityFilter showAll) (entries s)))
    in *.
  pose proof (ceilDiv_bounds (Z.of_nat (List.length sorted)) limit Hl)
    as Hceil.
  fold totalPages in Hceil.
  assert (Hfew : (List.length sorted <= List.length (entries s))%nat).
  { unfold sorted.
    rewrite (Permutation_length (sortDesc_perm _)). apply filter_length_le. }
  assert (Hpage : forall p, 0 < p -> p * limit <= 2 ^ 53 ->
            getField "totalPages" (json (page p)) = JNum totalPages
            /\ dataOf (page p)
               = firstn (Z.to_nat limit)
                   (skipn (Z.to_nat (p - 1) * Z.to_nat limit) sorted)).
  { intros p Hp Hb.
    destruct (getPaginatedEntries_page p limit showAll s Hp Hl Hb)
      as (_ & Ht & Hd).
    split; [exact Ht | exact Hd]. }
  split.
  { intros l Hperm Hs. symmetry.
    apply newest_first_unique.
    - unfold sorted. rewrite sortDesc_perm. now symmetry.
    - apply Sorted_StronglySorted; [|apply sortDesc_sorted].
      intros a b c. apply newerOrSame_trans.
    - exact Hs.
    - apply (Permutation_NoDup (l := map createdAtOf
                                       (filter (visibilityFilter showAll)
                                          (entries s)))); [|exact Hnd].
      apply Permutation_map, Permutation_sym, sortDesc_perm. }
  split; [intros p Hp Hb; now apply Hpage|].
  split.
  { rewrite <- seq_shift, map_map.
    rewrite (map_ext_in _ (fun i => firstn (Z.to_nat limit)
                                      (skipn (i * Z.to_nat limit) sorted))).
    - apply chunks_concat; [lia|]. nia.
    - intros i Hi. apply in_seq in Hi.
      destruct (Hpage (Z.of_nat (S i)) ltac:(lia) ltac:(nia)) as [_ ->].
      f_equal. f_equal. f_equal. lia. }
  split.
  { intros p Hp Hb. destruct (Hpage p Hp Hb) as [_ ->].
    rewrite length_firstn. lia. }
  intros p Hp Hb.
  assert (Hpos : 0 < p) by nia.
  destruct (Hpage p Hpos Hb) as [_ ->].
  rewrite skipn_all2; [now destruct (Z.to_nat limit)|]. nia.
Qed.

(** Two entries to a page in the sample store, hidden entries too. *)
Lemma pages_partition_the_listing_witness :
  0 < 2
  /\ Z.of_nat (List.length (entries SampleHidden.store)) + 2 <= 2 ^ 53
  /\ NoDup (map createdAtOf
              (filter (visibilityFilter (Some "true"))
                 (entries SampleHidden.store)))
  /\ List.concat
       (map (fun i =>
               dataOf (getPaginatedEntries
                         (pageRequest (Z.of_nat i) 2 (Some "true"))
                         SampleHidden.store))
          (seq 1 (Z.to_nat
                    (ceilDiv
                       (Z.of_nat
                          (List.length
                             (dataOf
                                (getAllEntry (pageRequest 1 2 (Some "true"))
                                   SampleHidden.store))))
                       2))))
     = dataOf (getAllEntry (pageRequest 1 2 (Some "true"))
                 SampleHidden.store).
Proof.
  assert (H : 0 < 2) by lia.
  assert (Hsize : Z.of_nat (List.length (entries SampleHidden.store)) + 2
                  <= 2 ^ 53) by (vm_compute; discriminate).
  assert (Hnd : NoDup (map createdAtOf
                         (filter (visibilityFilter (Some "true"))
                            (entries SampleHidden.store)))).
  { cbv. repeat constructor; cbn; intuition discriminate. }
  split; [exact H|]. split; [exact Hsize|]. split; [exact Hnd|].
  exact (proj1 (proj2 (proj2 (pages_partition_the_listing 2 (Some "true")
                                SampleHidden.store H Hsize Hnd)))).
Defined.

(** ** The listings of the dashboard *)

Lemma lookupParam_dashboardRequest type showAll :
  lookupParam "type" (query (dashboardRequest type showAll)) = type
  /\ lookupParam "page" (query (dashboardRequest type showAll)) = None
  /\ lookupParam "showAll" (query (dashboardRequest type showAll)) = showAll.
Proof.
  unfold dashboardRequest. cbn [query].
  destruct type, showAll; cbn; repeat split.
Qed.

Lemma typeQuery_not_empty now : typeQuery now "" = None.
Proof. reflexivity. Qed.

(** The answer to a request for a listing, page 1. *)
Lemma getPendingDeliveries_listing now type showAll s matches :
  typeQuery now type = Some matches ->
  let inScope := filter (visibilityFilter showAll) (entries s) in
  getPath ["data"; "count"]
    (json (getPendingDeliveries now (dashboardRequest (Some type) showAll) s))
  = JNum (countWhere matches inScope).
Proof.
  intros Hq inScope.
  destruct (lookupParam_dashboardRequest (Some type) showAll)
    as (E1 & E2 & E3).
  unfold getPendingDeliveries. rewrite E1, E2, E3.
  destruct (type =? "")%string eqn:Et.
  { apply String.eqb_eq in Et. subst type. discriminate Hq. }
  rewrite Hq. unfold skipLimit. cbn [Z.ltb Z.sub Z.mul Z.compare Z.add
    Z.opp Z.pos_sub].
  reflexivity.
Qed.

(** Each count of the summary is the count that the listing of that
    type reports, for the same moment and the same [showAll]: the four
    statuses, the orders expected today and the orders received today. *)
Theorem summary_counts_are_the_counts_of_the_listings now showAll s name :
  In name listedTypes ->
  summaryCount name
    (getPendingDeliveries now (dashboardRequest None showAll) s)
  = getPath ["data"; "count"]
      (json (getPendingDeliveries now
               (dashboardRequest (Some name) showAll) s)).
Proof.
  intros Hin.
  destruct (lookupParam_dashboardRequest None showAll) as (E1 & E2 & E3).
  assert (Hstatus : forall n, In n countedStatuses ->
            typeQuery now n = Some (statusIs n) ->
            summaryCount n
              (getPendingDeliveries now (dashboardRequest None showAll) s)
            = getPath ["data"; "count"]
                (json (getPendingDeliveries now
                         (dashboardRequest (Some n) showAll) s))).
  { intros n Hn Hq.
    destruct (getPendingDeliveries_summary now
                (dashboardRequest None showAll) s) as (_ & Hcount & _);
      [left; exact E1|].
    rewrite (Hcount n Hn), E3.
    now rewrite (getPendingDeliveries_listing now n showAll s _ Hq). }
  simpl in Hin.
  destruct Hin as [<- | [<- | [<- | [<- | [<- | [<- | []]]]]]].
  - apply Hstatus; [simpl; tauto | reflexivity].
  - apply Hstatus; [simpl; tauto | reflexivity].
  - apply Hstatus; [simpl; tauto | reflexivity].
  - apply Hstatus; [simpl; tauto | reflexivity].
  - rewrite (getPendingDeliveries_listing now "todayExpected" showAll s
               (expectedToday now) eq_refl).
    unfold summaryCount, getPendingDeliveries. rewrite E1, E3. reflexivity.
  - rewrite (getPendingDeliveries_listing now "todayReceived" showAll s
               (receivedToday now) eq_refl).
    unfold summaryCount, getPendingDeliveries. rewrite E1, E3. reflexivity.
Qed.

Lemma summary_counts_are_the_counts_of_the_listings_witness :
  In "todayReceived" listedTypes
  /\ summaryCount "todayReceived"
       (getPendingDeliveries Sample.now0
          (dashboardRequest None (Some "true")) SampleHidden.store)
     = getPath ["data"; "count"]
         (json (getPendingDeliveries Sample.now0
                  (dashboardRequest (Some "todayReceived") (Some "true"))
                  SampleHidden.store)).
Proof.
  assert (H : In "todayReceived" listedTypes) by (simpl; tauto).
  split; [exact H|].
  exact (summary_counts_are_the_counts_of_the_listings Sample.now0
           (Some "true") SampleHidden.store "todayReceived" H).
Defined.

Lemma skipLimit_length skip limit l page :
  skipLimit skip limit l = Return page ->
  (List.length page <= Z.to_nat (Z.abs limit))%nat.
Proof.
  unfold skipLimit. destruct (skip <? 0); [discriminate|].
  destruct ((2 ^ 63 <=? skip) || (2 ^ 63 <=? Z.abs limit));
    [discriminate|].
  intros H. injection H as <-. rewrite length_firstn. lia.
Qed.

Lemma lookup_filter_keys keys k fs :
  lookupField k (filter (fun kv => existsb (String.eqb (fst kv)) keys) fs)
  = if existsb (String.eqb k) keys then lookupField k fs else JUndefined.
Proof.
  induction fs as [|[k' v] fs IH].
  - simpl. now destruct (existsb (String.eqb k) keys).
  - cbn [filter fst lookupField].
    destruct (k' =? k)%string eqn:E.
    + apply String.eqb_eq in E. subst k'.
      destruct (existsb (String.eqb k) keys) eqn:Ek.
      * cbn [lookupField]. now rewrite String.eqb_refl.
      * exact IH.
    + destruct (existsb (String.eqb k') keys).
      * cbn [lookupField]. now rewrite E.
      * exact IH.
Qed.

Lemma selectFields_fields d k :
  getField k (selectFields d)
  = if existsb (String.eqb k) selectedFields then getField k d
    else JUndefined.
Proof.
  destruct d; cbn [selectFields getField];
    try (now destruct (existsb (String.eqb k) selectedFields)).
  apply lookup_filter_keys.
Qed.

(** The listing of a type shows at most five orders; each is an entry
    in scope that matches the type, cut down to its id and the seven
    fields of the selection: nothing else of the entry, such as its line
    items, its remarks or its visibility, is in the answer. *)
Theorem listing_orders_are_cut_to_the_selection now req s type :
  lookupParam "type" (query req) = Some type ->
  type <> "" ->
  let r := getPendingDeliveries now req s in
  status r = 200 ->
  exists matches docs,
    typeQuery now type = Some matches
    /\ getPath ["data"; "orders"] (json r) = JArr docs
    /\ (List.length docs <= 5)%nat
    /\ forall order, In order docs ->
         exists d,
           In d (entries s)
           /\ visibilityFilter (lookupParam "showAll" (query req)) d = true
           /\ matches d = true
           /\ forall k,
                getField k order
                = if existsb (String.eqb k) selectedFields
                  then getField k d else JUndefined.
Proof.
  intros Htype Hne r. subst r.
  unfold getPendingDeliveries. rewrite Htype.
  apply String.eqb_neq in Hne. rewrite Hne.
  destruct (typeQuery now type) as [matches|];
    [|simpl; discriminate].
  destruct (match lookupParam "page" (query req) with
            | Some page => JS.parseInt page
            | None => Some 1
            end) as [pageNum|]; [|simpl; discriminate].
  destruct (skipLimit (JS.mul (JS.sub pageNum 1) 5) 5 _) as [docs|m] eqn:Hdocs;
    [|simpl; discriminate].
  intros _. exists matches, docs.
  split; [reflexivity|]. split; [reflexivity|]. split.
  - apply skipLimit_length in Hdocs.
    change (Z.to_nat (Z.abs 5)) with 5%nat in Hdocs. exact Hdocs.
  - intros order Hin.
    apply (skipLimit_In _ _ _ _ _ Hdocs) in Hin.
    apply in_map_iff in Hin. destruct Hin as (d & <- & Hd).
    apply (proj1 (sortDesc_In _ _)) in Hd. apply filter_In in Hd.
    destruct Hd as [Hd Hm]. apply filter_In in Hd. destruct Hd as [Hd Hv].
    exists d. repeat split; try assumption.
    intros k. apply selectFields_fields.
Qed.

Lemma listing_orders_are_cut_to_the_selection_witness :
  lookupParam "type"
    (query (dashboardRequest (Some "pending") (Some "true")))
  = Some "pending"
  /\ "pending" <> ""
  /\ status (getPendingDeliveries Sample.now0
               (dashboardRequest (Some "pending") (Some "true"))
               SampleHidden.store) = 200
  /\ exists matches docs,
       typeQuery Sample.now0 "pending" = Some matches
       /\ getPath ["data"; "orders"]
            (json (getPendingDeliveries Sample.now0
                     (dashboardRequest (Some "pending") (Some "true"))
                     SampleHidden.store)) = JArr docs
       /\ (List.length docs <= 5)%nat
       /\ forall order, In order docs ->
            exists d,
              In d (entries SampleHidden.store)
              /\ visibilityFilter
                   (lookupParam "showAll"
                      (query (dashboardRequest (Some "pending")
                                (Some "true")))) d = true
              /\ matches d = true
              /\ forall k,
                   getField k order
                   = if existsb (String.eqb k) selectedFields
                     then getField k d else JUndefined.
Proof.
  assert (H1 : lookupParam "type"
                 (query (dashboardRequest (Some "pending") (Some "true")))
               = Some "pending") by reflexivity.
  assert (H2 : "pending" <> "") by discriminate.
  assert (H3 : status (getPendingDeliveries Sample.now0
                         (dashboardRequest (Some "pending") (Some "true"))
                         SampleHidden.store) = 200)
    by (vm_compute; reflexivity).
  split; [exact H1|]. split; [exact H2|]. split; [exact H3|].
  exact (listing_orders_are_cut_to_the_selection Sample.now0
           (dashboardRequest (Some "pending") (Some "true"))
           SampleHidden.store "pending" H1 H2 H3).
Defined.

(** ** Groups of an aggregation *)

Section GroupFacts.

Context {K : Type} (eqb : K -> K -> bool).
Hypothesis eqb_eq : forall a b, eqb a b = true <-> a = b.

Lemma eqb_same a : eqb a a = true.
Proof. now apply eqb_eq. Qed.

Lemma eqb_sym a b : eqb a b = eqb b a.
Proof.
  destruct (eqb a b) eqn:E1, (eqb b a) eqn:E2; try reflexivity.
  - apply eqb_eq in E1. subst b. now rewrite eqb_same in E2.
  - apply eqb_eq in E2. subst b. now rewrite eqb_same in E1.
Qed.

Lemma lookupGroup_addGroup k k' a groups :
  lookupGroup eqb k (addGroup eqb k' a groups)
  = if eqb k' k
    then Some (match lookupGroup eqb k groups with
               | Some (sales, n) => (sales + a, n + 1)
               | None => (a, 1)
               end)
    else lookupGroup eqb k groups.
Proof.
  induction groups as [|[g [sales n]] groups IH]; cbn [addGroup lookupGroup].
  - reflexivity.
  - destruct (eqb g k') eqn:Eg; cbn [lookupGroup].
    + apply eqb_eq in Eg. subst g. now destruct (eqb k' k).
    + rewrite IH. destruct (eqb g k) eqn:Ek; [|reflexivity].
      apply eqb_eq in Ek. subst g.
      rewrite eqb_sym, Eg. reflexivity.
Qed.

Lemma In_keys_addGroup x k a groups :
  In x (map fst (addGroup eqb k a groups)) ->
  x = k \/ In x (map fst groups).
Proof.
  induction groups as [|[g [sales n]] groups IH]; cbn [addGroup].
  - simpl. intros [<- | []]. now left.
  - destruct (eqb g k); simpl.
    + intros [<- | H]; right; [now left | now right].
    + intros [<- | H]; [right; now left|].
      destruct (IH H) as [-> | H']; [now left | right; now right].
Qed.

Lemma NoDup_keys_addGroup k a groups :
  NoDup (map fst groups) -> NoDup (map fst (addGroup eqb k a groups)).
Proof.
  induction groups as [|[g [sales n]] groups IH]; cbn [addGroup]; intros Hnd.
  - simpl. constructor; [intros [] | constructor].
  - simpl in Hnd. inversion Hnd as [|? ? Hnin Hnd']; subst.
    destruct (eqb g k) eqn:Eg; simpl.
    + now constructor.
    + constructor; [|now apply IH].
      intros Hin. apply In_keys_addGroup in Hin.
      destruct Hin as [-> | Hin]; [|now apply Hnin].
      rewrite eqb_same in Eg. discriminate.
Qed.

Lemma lookupGroup_assignGroup k item table :
  lookupGroup eqb k (assignGroup eqb item table)
  = if eqb (fst item) k then Some (snd item) else lookupGroup eqb k table.
Proof.
  destruct item as [ki vi]. cbn [fst snd].
  induction table as [|[g v] table IH]; cbn [assignGroup lookupGroup fst].
  - reflexivity.
  - destruct (eqb g ki) eqn:Eg; cbn [lookupGroup].
    + apply eqb_eq in Eg. subst g. now destruct (eqb ki k).
    + rewrite IH. destruct (eqb g k) eqn:Ek; [|reflexivity].
      apply eqb_eq in Ek. subst g.
      rewrite eqb_sym, Eg. reflexivity.
Qed.

Lemma lookupGroup_app k l1 l2 :
  lookupGroup eqb k (l1 ++ l2)%list
  = match lookupGroup eqb k l1 with
    | Some v => Some v
    | None => lookupGroup eqb k l2
    end.
Proof.
  induction l1 as [|[g v] l1 IH]; cbn [app lookupGroup]; [reflexivity|].
  now destruct (eqb g k).
Qed.

(** The map that the items are written into holds, for a key, the last
    item of that key. *)
Lemma lookupGroup_written k items acc :
  lookupGroup eqb k
    (fold_left (fun table item => assignGroup eqb item table) items acc)
  = match lookupGroup eqb k (rev items) with
    | Some v => Some v
    | None => lookupGroup eqb k acc
    end.
Proof.
  revert acc. induction items as [|[g v] items IH]; intros acc.
  - reflexivity.
  - cbn [fold_left rev]. rewrite IH, lookupGroup_app.
    destruct (lookupGroup eqb k (rev items)); [reflexivity|].
    rewrite lookupGroup_assignGroup. cbn [lookupGroup fst snd].
    now destruct (eqb g k).
Qed.

Lemma lookupGroup_In k v l :
  NoDup (map fst l) ->
  (lookupGroup eqb k l = Some v <-> In (k, v) l).
Proof.
  induction l as [|[g w] l IH]; cbn [lookupGroup]; intros Hnd.
  - split; [discriminate | intros []].
  - simpl in Hnd. inversion Hnd as [|? ? Hnin Hnd']; subst.
    destruct (eqb g k) eqn:Eg.
    + apply eqb_eq in Eg. subst g. split.
      * intros H. injection H as <-. now left.
      * intros [H | H]; [congruence|].
        exfalso. apply Hnin. now apply (in_map fst) in H.
    + rewrite (IH Hnd'). split; [now right|].
      intros [H | H]; [|exact H].
      injection H as -> ->. rewrite eqb_same in Eg. discriminate.
Qed.

Lemma lookupGroup_Permutation k l l' :
  NoDup (map fst l) -> Permutation l l' ->
  lookupGroup eqb k l' = lookupGroup eqb k l.
Proof.
  intros Hnd Hp.
  assert (Hnd' : NoDup (map fst l')).
  { eapply Permutation_NoDup; [|exact Hnd]. now apply Permutation_map. }
  destruct (lookupGroup eqb k l') as [v'|] eqn:E'.
  - apply (lookupGroup_In k v' l' Hnd') in E'.
    symmetry. apply (lookupGroup_In k v' l Hnd).
    eapply Permutation_in; [symmetry; exact Hp | exact E'].
  - destruct (lookupGroup eqb k l) as [v|] eqn:E; [|reflexivity].
    apply (lookupGroup_In k v l Hnd) in E.
    apply (Permutation_in _ Hp) in E.
    apply (lookupGroup_In k v l' Hnd') in E. congruence.
Qed.

End GroupFacts.

Lemma insertAsc_perm {K} (leb : K -> K -> bool) g l :
  Permutation (insertAsc leb g l) (g :: l).
Proof.
  induction l as [|h l IH]; simpl; [reflexivity|].
  destruct (leb (fst g) (fst h)); [reflexivity|].
  rewrite IH. apply perm_swap.
Qed.

Lemma sortAsc_perm {K} (leb : K -> K -> bool) l :
  Permutation (sortAsc leb l) l.
Proof.
  induction l as [|g l IH]; simpl; [reflexivity|].
  rewrite insertAsc_perm. now constructor.
Qed.

Section FoldFacts.

Context {K A : Type} (eqb : K -> K -> bool).
Hypothesis eqb_eq : forall a b, eqb a b = true <-> a = b.
Variable key : A -> K.
Variable amount : A -> Z.

(** What the groups hold for a key after a list was grouped into them:
    the amounts of the elements of that key were added, and the count
    went up by their number. *)
Lemma totalsOf_grouped k l :
  forall groups,
    totalsOf eqb k
      (fold_left (fun g x => addGroup eqb (key x) (amount x) g) l groups)
    = (fst (totalsOf eqb k groups)
       + fold_right (fun x acc => amount x + acc) 0
           (filter (fun x => eqb (key x) k) l),
       snd (totalsOf eqb k groups)
       + Z.of_nat (List.length (filter (fun x => eqb (key x) k) l))).
Proof.
  induction l as [|x l IH]; intros groups.
  - cbn [fold_left filter fold_right List.length].
    destruct (totalsOf eqb k groups). cbn [fst snd]. f_equal; lia.
  - cbn [fold_left filter]. rewrite IH.
    unfold totalsOf at 1 2.
    rewrite (lookupGroup_addGroup eqb eqb_eq).
    destruct (eqb (key x) k) eqn:E.
    + cbn [fold_right List.length]. unfold totalsOf.
      destruct (lookupGroup eqb k groups) as [[sales n]|]; cbn [fst snd];
        f_equal; lia.
    + reflexivity.
Qed.

Lemma NoDup_keys_grouped l :
  forall groups,
    NoDup (map fst groups) ->
    NoDup (map fst
             (fold_left (fun g x => addGroup eqb (key x) (amount x) g)
                l groups)).
Proof.
  induction l as [|x l IH]; intros groups Hnd; [exact Hnd|].
  cbn [fold_left]. apply IH. now apply (NoDup_keys_addGroup eqb eqb_eq).
Qed.

End FoldFacts.

Lemma Z_eqb_eq (a b : Z) : (a =? b) = true <-> a = b.
Proof. apply Z.eqb_eq. Qed.

Lemma String_eqb_eq (a b : string) : (a =? b)%string = true <-> a = b.
Proof. apply String.eqb_eq. Qed.


(** ** The months of [getRecentOrdersCount] *)

Lemma datedSince_inMonth start month l :
  fold_right (fun td acc => amountOf (snd td) + acc) 0
    (filter (fun td : Z * JValue => utcMonth (fst td) =? month)
       (datedSince start l))
  = totalAmount (filter (inMonth start month) l)
  /\ List.length
       (filter (fun td : Z * JValue => utcMonth (fst td) =? month)
          (datedSince start l))
     = List.length (filter (inMonth start month) l).
Proof.
  induction l as [|d l [IHs IHn]]; [now split|].
  assert (Hd : inMonth start month d
               = match getField "createdAt" d with
                 | JDate t => (start <=? t) && (utcMonth t =? month)
                 | _ => false
                 end) by reflexivity.
  unfold datedSince. cbn [flat_map]. fold (datedSince start l).
  rewrite filter_app, fold_right_app, length_app.
  cbn [filter]. rewrite Hd. clear Hd.
  destruct (getField "createdAt" d) as [| |b|n|str|t|items|fs];
    cbn [filter fold_right List.length app Nat.add];
    try (split; assumption).
  destruct (start <=? t); cbn [filter fold_right List.length andb fst snd
                                 Nat.add];
    [|split; assumption].
  destruct (utcMonth t =? month);
    cbn [fold_right List.length totalAmount snd Nat.add];
    [|split; assumption].
  unfold totalAmount in *. cbn [fold_right]. rewrite <- IHs, IHn.
  split; [|reflexivity].
  generalize (filter (fun td : Z * JValue => utcMonth (fst td) =? month)
                (datedSince start l)).
  intros l0. induction l0 as [|x l0 IH0]; cbn [fold_right]; lia.
Qed.

(** The groups behind the rows of [monthlySales]. *)
Lemma monthlySales_groups z now s :
  let start := yearStart z (currentYear z now) in
  monthlySales z now s
  = map (fun month =>
           (month,
            totalAmount (filter (inMonth start month) (entries s)),
            countWhere (inMonth start month) (entries s)))
      (monthsUpTo (currentMonth z now)).
Proof.
  intros start. unfold monthlySales. fold start.
  apply map_ext. intros month.
  set (groups := groupByMonth (datedSince start (entries s))).
  assert (Hnd : NoDup (map fst groups)).
  { apply (NoDup_keys_grouped Z.eqb Z_eqb_eq). constructor. }
  unfold monthlyRow.
  rewrite (lookupGroup_written Z.eqb Z_eqb_eq). cbn [lookupGroup].
  assert (Hlook : lookupGroup Z.eqb month (rev (sortAsc Z.leb groups))
                  = lookupGroup Z.eqb month groups).
  { apply (lookupGroup_Permutation Z.eqb Z_eqb_eq); [exact Hnd|].
    rewrite <- Permutation_rev. symmetry. apply sortAsc_perm. }
  rewrite Hlook.
  pose proof (totalsOf_grouped Z.eqb Z_eqb_eq
                (fun td : Z * JValue => utcMonth (fst td))
                (fun td : Z * JValue => amountOf (snd td))
                month (datedSince start (entries s)) []) as Htot.
  cbv beta in Htot.
  fold (groupByMonth (datedSince start (entries s))) in Htot.
  fold groups in Htot.
  destruct (datedSince_inMonth start month (entries s)) as [Hs Hn].
  rewrite Hs, Hn in Htot. cbn [totalsOf lookupGroup fst snd] in Htot.
  unfold totalsOf in Htot. unfold countWhere.
  destruct (lookupGroup Z.eqb month groups) as [[sales n]|].
  - injection Htot as -> ->. reflexivity.
  - injection Htot as Hs0 Hn0. rewrite <- Hs0, <- Hn0. reflexivity.
Qed.

(** [monthlySales] has one row for each month from January to the month
    of [now] on the clock of the server, in order.  The [orderCount] of
    the row of a month is the number of the entries, hidden ones too,
    that were created since midnight of the first of January on that
    clock, at the offset the clock has on that day, and whose date of
    creation falls in that month in UTC. *)
Theorem monthlySales_rows z now s :
  let start := yearStart z (currentYear z now) in
  map (fun row => (fst (fst row), snd row)) (monthlySales z now s)
  = map (fun month => (month, countWhere (inMonth start month) (entries s)))
      (monthsUpTo (currentMonth z now)).
Proof.
  intros start. rewrite (monthlySales_groups z now s). fold start.
  rewrite map_map. reflexivity.
Qed.

(** ** The days of [weeklyData] *)

Lemma filter_filter_and {A} (p q : A -> bool) l :
  filter q (filter p l) = filter (fun x => p x && q x) l.
Proof.
  induction l as [|x l IH]; simpl; [reflexivity|].
  destruct (p x); simpl; [destruct (q x)|]; now rewrite IH.
Qed.

Lemma addInto_addGroup k amount groups :
  addInto k amount groups = addGroup String.eqb k amount groups.
Proof.
  induction groups as [|[k' [sales n]] groups IH]; simpl; [reflexivity|].
  now rewrite IH.
Qed.

Lemma weeklyLookup_lookupGroup k groups :
  weeklyLookup k groups = lookupGroup String.eqb k groups.
Proof.
  induction groups as [|[k' v] groups IH]; simpl; [reflexivity|].
  now rewrite IH.
Qed.

Lemma groupByDate_grouped l :
  groupByDate l
  = fold_left (fun g d => addGroup String.eqb (dateStringOf d) (amountOf d) g)
      l [].
Proof.
  unfold groupByDate. generalize (@nil (string * (Z * Z))).
  induction l as [|d l IH]; intros groups; [reflexivity|].
  cbn [fold_left]. now rewrite IH, addInto_addGroup.
Qed.

(** The groups behind the rows of [weeklyData]. *)
Lemma weeklyData_groups z now s :
  let start := weekStart z now in
  snd (getRecentOrdersCount z now s)
  = map (fun i =>
           (weekLabel z now i,
            totalAmount
              (filter (onDate start (weekLabel z now i)) (entries s)),
            countWhere (onDate start (weekLabel z now i)) (entries s)))
      [6; 5; 4; 3; 2; 1; 0].
Proof.
  intros start. unfold getRecentOrdersCount. cbn [snd]. fold start.
  apply map_ext. intros i. unfold weeklyRow.
  rewrite weeklyLookup_lookupGroup, groupByDate_grouped.
  pose proof (totalsOf_grouped String.eqb String_eqb_eq dateStringOf amountOf
                (weekLabel z now i)
                (filter (createdSince start) (entries s)) []) as Htot.
  cbn [totalsOf lookupGroup fst snd] in Htot.
  rewrite filter_filter_and in Htot.
  unfold totalsOf in Htot. unfold countWhere, totalAmount, onDate.
  match type of Htot with
  | match ?x with _ => _ end = _ => destruct x as [[sales n]|]
  end.
  - injection Htot as -> ->. reflexivity.
  - injection Htot as Hs0 Hn0. rewrite <- Hs0, <- Hn0. reflexivity.
Qed.

(** [weeklyData] has seven rows, for [i] from 6 down to 0.  The date of
    a row is the UTC date of the instant that [setDate] reaches by going
    [i] calendar days back from [now] on the clock of the server; its
    [orderCount] is the number of the entries, hidden ones too, that
    were created since midnight six days back on that clock and whose
    date of creation in UTC is that date.  Two rows that come to carry
    the same date carry the same count. *)
Theorem weeklyData_rows z now s :
  let start := weekStart z now in
  map (fun row => (fst (fst row), snd row))
    (snd (getRecentOrdersCount z now s))
  = map (fun i =>
           (weekLabel z now i,
            countWhere (onDate start (weekLabel z now i)) (entries s)))
      [6; 5; 4; 3; 2; 1; 0].
Proof.
  intros start. rewrite (weeklyData_groups z now s). fold start.
  reflexivity.
Qed.

(** ** The years of [getRecentOrdersCount] *)












(** ** The patterns of the Staff schema *)

Lemma sixToNine_isDigit c : sixToNine c = true -> JS.isDigit c = true.
Proof.
  unfold sixToNine, JS.isDigit. cbv zeta.
  rewrite !andb_true_iff, !Nat.leb_le. lia.
Qed.

(** The pattern of [phone] takes exactly the texts of ten digits of
    which the first is 6, 7, 8 or 9: no sign, no space, no country
    code. *)
Theorem phoneMatch_ten_digits s :
  phoneMatch s = true
  <-> String.length s = 10%nat
      /\ JS.allChars JS.isDigit s = true
      /\ exists c rest, s = String c rest /\ sixToNine c = true.
Proof.
  unfold phoneMatch. cbn [repeat].
  do 10 (destruct s as [|? s];
         [cbn; split;
          [try discriminate; rewrite ?andb_false_r; discriminate
          | intros (Hl & _); discriminate Hl] |]).
  destruct s as [|? s].
  - cbn [matchElements JS.allChars String.length String.eqb].
    rewrite !andb_true_iff. split.
    + intros (H0 & H1 & H2 & H3 & H4 & H5 & H6 & H7 & H8 & H9 & _).
      split; [reflexivity|]. split.
      * pose proof (sixToNine_isDigit _ H0). tauto.
      * eexists _, _. split; [reflexivity | exact H0].
    + intros (_ & (H0 & H1 & H2 & H3 & H4 & H5 & H6 & H7 & H8 & H9 & _)
              & (c & rest & E & Hc)).
      injection E as <- _. tauto.
  - cbn [matchElements String.eqb]. rewrite !andb_false_r. split.
    + discriminate.
    + intros (Hl & _). discriminate Hl.
Qed.

Lemma oneOrMore_spec class next s :
  oneOrMore class next s = true
  <-> exists a t,
        s = (a ++ t)%string /\ a <> ""
        /\ JS.allChars class a = true /\ next t = true.
Proof.
  induction s as [|c s IH]; cbn [oneOrMore].
  - split; [discriminate|].
    intros (a & t & E & Ha & _). destruct a; [now elim Ha | discriminate E].
  - rewrite andb_true_iff, orb_true_iff, IH. split.
    + intros (Hc & [Hn | (a & t & -> & Ha & Hall & Hn)]).
      * exists (String c ""), s. cbn. rewrite Hc. now repeat split.
      * exists (String c a), t. cbn. rewrite Hc, Hall. now repeat split.
    + intros (a & t & E & Ha & Hall & Hn).
      destruct a as [|x a]; [now elim Ha|].
      cbn in E. injection E as <- ->.
      cbn in Hall. apply andb_true_iff in Hall. destruct Hall as [Hx Hall].
      split; [exact Hx|].
      destruct a as [|y a].
      * left. exact Hn.
      * right. exists (String y a), t. now repeat split.
Qed.

Lemma searchElements_spec elements toEnd s :
  searchElements elements toEnd s = true
  <-> exists pre rest,
        s = (pre ++ rest)%string /\ matchElements elements toEnd rest = true.
Proof.
  induction s as [|c s IH]; cbn [searchElements].
  - rewrite orb_false_r. split.
    + intros H. now exists "", "".
    + intros (pre & rest & E & H).
      destruct pre; [|discriminate E]. cbn in E. now subst rest.
  - rewrite orb_true_iff, IH. split.
    + intros [H | (pre & rest & -> & H)].
      * now exists "", (String c s).
      * now exists (String c pre), rest.
    + intros (pre & rest & E & H). destruct pre as [|x pre].
      * cbn in E. subst rest. now left.
      * cbn in E. injection E as <- ->. right. now exists pre, rest.
Qed.

Lemma once_spec x (next : string -> bool) s :
  match s with
  | String c s' => isChar x c && next s'
  | EmptyString => false
  end = true
  <-> exists t, s = String x t /\ next t = true.
Proof.
  destruct s as [|c s].
  - split; [discriminate | intros (t & E & _); discriminate E].
  - unfold isChar. rewrite andb_true_iff, Ascii.eqb_eq. split.
    + intros [-> H]. now exists s.
    + intros (t & E & H). injection E as -> ->. now split.
Qed.

(** The pattern of [email] looks for its form anywhere in the text and
    does not look at what stands before or after it: a text is taken
    exactly when it holds, somewhere, one or more characters that are no
    white space, an at sign, one or more such characters, a dot and one
    more such character. *)
Theorem emailMatch_anywhere s :
  emailMatch s = true
  <-> exists pre a b c post,
        s = (pre ++ a ++ "@" ++ b ++ "." ++ c ++ post)%string
        /\ a <> "" /\ b <> "" /\ c <> ""
        /\ JS.allChars nonSpace a = true
        /\ JS.allChars nonSpace b = true
        /\ JS.allChars nonSpace c = true.
Proof.
  unfold emailMatch. rewrite searchElements_spec.
  cbn [matchElements]. split.
  - intros (pre & rest & -> & H).
    apply oneOrMore_spec in H. destruct H as (a & t1 & -> & Ha & Hall_a & H).
    apply once_spec in H. destruct H as (t2 & -> & H).
    apply oneOrMore_spec in H. destruct H as (b & t3 & -> & Hb & Hall_b & H).
    apply once_spec in H. destruct H as (t4 & -> & H).
    apply oneOrMore_spec in H. destruct H as (c & post & -> & Hc & Hall_c & _).
    exists pre, a, b, c, post. now repeat split.
  - intros (pre & a & b & c & post & -> & Ha & Hb & Hc & Hall_a & Hall_b
            & Hall_c).
    exists pre, (a ++ "@" ++ b ++ "." ++ c ++ post)%string.
    split; [reflexivity|].
    apply oneOrMore_spec. exists a, ("@" ++ b ++ "." ++ c ++ post)%string.
    repeat split; try assumption.
    apply (once_spec "@"). exists (b ++ "." ++ c ++ post)%string.
    split; [reflexivity|].
    apply oneOrMore_spec. exists b, ("." ++ c ++ post)%string.
    repeat split; try assumption.
    apply (once_spec "."). exists (c ++ post)%string.
    split; [reflexivity|].
    apply oneOrMore_spec. exists c, post. now repeat split.
Qed.

(** ** The setters of the Staff schema *)























(** ** An id that no entry has *)

Section MissingFacts.

Variable castObjectId : JValue -> option string.
Variable entrySaveError : Store -> JValue -> option string.
Variable updateError : Store -> JValue -> option string.
Variable stats : Store -> Outcome unit * JValue.

(** For an id that no entry has, [toggleVisibility], [getEntryById] and
    an [updateEntry] whose patch the store takes answer 404; the store,
    the statistics record included, stays as it was. *)
Theorem missing_id_is_not_found catalogue now req s oid :
  castObjectId (JStr (paramId req)) = Some oid ->
  findFirst (hasId oid) (entries s) = None ->
  toggleVisibility castObjectId entrySaveError now req s
  = (failure 404 "Entry not found", s)
  /\ getEntryById castObjectId catalogue req s
     = Some (failure 404 "Entry Not found")
  /\ forall products',
       isNullish (body req) = false ->
       defaultProducts (getField "products" (body req)) = Return products' ->
       updateError s (patchedBody now (body req) products') = None ->
       anyConflict
         (map (fun kv => splitDots (fst kv))
            (updateFields (patchedBody now (body req) products'))) = false ->
       updateEntry castObjectId updateError stats now req s
       = (failure 404 "Entry not found", s).
Proof.
  intros Hoid Hnone. split; [|split].
  - unfold toggleVisibility, tryCatch, bind, findById, ret.
    now rewrite Hoid, Hnone.
  - unfold getEntryById, findById. now rewrite Hoid, Hnone.
  - intros products' Hbody Hprod Herr Hconf.
    unfold patchedBody in Herr, Hconf.
    unfold updateEntry, tryCatch, bind, destructure, lift,
      Entry_findByIdAndUpdate, ret.
    now rewrite Hbody, Hprod, Hoid, Herr, Hconf, Hnone.
Qed.

End MissingFacts.

Lemma missing_id_is_not_found_witness :
  Sample.castObjectId
    (JStr (paramId (mkRequest (JObj [("status", JStr "collected")])
                      [("id", "nobody")] []))) = Some "nobody"
  /\ findFirst (hasId "nobody") (entries SampleHidden.store) = None
  /\ toggleVisibility Sample.castObjectId Sample.entrySaveError Sample.now0
       (mkRequest (JObj [("status", JStr "collected")]) [("id", "nobody")] [])
       SampleHidden.store
     = (failure 404 "Entry not found", SampleHidden.store)
  /\ getEntryById Sample.castObjectId SampleCatalogue.catalogue
       (mkRequest (JObj [("status", JStr "collected")]) [("id", "nobody")] [])
       SampleHidden.store
     = Some (failure 404 "Entry Not found")
  /\ updateEntry Sample.castObjectId Sample.updateError
       (manualUpdateStats Sample.recompute) Sample.now0
       (mkRequest (JObj [("status", JStr "collected")]) [("id", "nobody")] [])
       SampleHidden.store
     = (failure 404 "Entry not found", SampleHidden.store).
Proof.
  assert (H1 : Sample.castObjectId
                 (JStr (paramId (mkRequest
                                   (JObj [("status", JStr "collected")])
                                   [("id", "nobody")] []))) = Some "nobody")
    by reflexivity.
  assert (H2 : findFirst (hasId "nobody") (entries SampleHidden.store) = None)
    by reflexivity.
  split; [exact H1|]. split; [exact H2|].
  destruct (missing_id_is_not_found Sample.castObjectId
              Sample.entrySaveError Sample.updateError
              (manualUpdateStats Sample.recompute) SampleCatalogue.catalogue
              Sample.now0
              (mkRequest (JObj [("status", JStr "collected")])
                 [("id", "nobody")] [])
              SampleHidden.store "nobody" H1 H2) as (Ht & Hg & Hu).
  split; [exact Ht|]. split; [exact Hg|].
  apply (Hu JUndefined); reflexivity.
Defined.

(** ** Pages before the first *)

(** A page number of zero or less.  A listing of the dashboard fails
    with 500: the skip is negative and the store refuses it.
    [getPaginatedEntries] reads page 0 as page 1, and fails with 500 on
    a negative page when the limit is positive. *)
Theorem pages_before_the_first now req s page p :
  lookupParam "page" (query req) = Some page ->
  JS.parseInt page = Some p ->
  p <= 0 ->
  (forall type matches,
     lookupParam "type" (query req) = Some type ->
     typeQuery now type = Some matches ->
     getPendingDeliveries now req s = failure 500 "Server Error")
  /\ (p = 0 ->
      getPaginatedEntries req s = getPaginatedEntries (firstPage req) s)
  /\ (p < 0 ->
      0 < JS.orDefault (JS.parseIntParam (lookupParam "limit" (query req))) 10
      -> status (getPaginatedEntries req s) = 500).
Proof.
  intros Hpage Hp Hle. split; [|split].
  - intros type matches Htype Hq.
    unfold getPendingDeliveries. rewrite Htype, Hpage, Hp.
    destruct (type =? "")%string eqn:Et.
    { apply String.eqb_eq in Et. subst type. discriminate Hq. }
    rewrite Hq. unfold skipLimit.
    pose proof (skip_negative p 5 Hle ltac:(lia)) as Hskip.
    destruct (Z.ltb_spec (JS.mul (JS.sub p 1) 5) 0) as [_|];
      [reflexivity | lia].
  - intros ->. unfold getPaginatedEntries, firstPage.
    cbn [query lookupParam String.eqb Ascii.eqb Bool.eqb].
    rewrite Hpage. cbn [JS.parseIntParam]. rewrite Hp. reflexivity.
  - intros Hneg Hlimit. unfold getPaginatedEntries.
    rewrite Hpage. cbn [JS.parseIntParam]. rewrite Hp.
    set (limit := JS.orDefault
                    (JS.parseIntParam (lookupParam "limit" (query req))) 10)
      in *.
    unfold JS.orDefault at 1.
    destruct (Z.eqb_spec p 0) as [?|_]; [lia|].
    unfold skipLimit.
    pose proof (skip_negative p limit ltac:(lia) Hlimit) as Hskip.
    destruct (Z.ltb_spec (JS.mul (JS.sub p 1) limit) 0) as [_|];
      [reflexivity | lia].
Qed.

Lemma pages_before_the_first_witness :
  lookupParam "page"
    (query (mkRequest JUndefined [] [("type", "pending"); ("page", "0")]))
  = Some "0"
  /\ JS.parseInt "0" = Some 0
  /\ 0 <= 0
  /\ getPendingDeliveries Sample.now0
       (mkRequest JUndefined [] [("type", "pending"); ("page", "0")])
       SampleHidden.store
     = failure 500 "Server Error"
  /\ getPaginatedEntries
       (mkRequest JUndefined [] [("type", "pending"); ("page", "0")])
       SampleHidden.store
     = getPaginatedEntries
         (firstPage
            (mkRequest JUndefined [] [("type", "pending"); ("page", "0")]))
         SampleHidden.store.
Proof.
  assert (H1 : lookupParam "page"
                 (query (mkRequest JUndefined []
                           [("type", "pending"); ("page", "0")]))
               = Some "0") by reflexivity.
  assert (H2 : JS.parseInt "0" = Some 0) by reflexivity.
  assert (H3 : 0 <= 0) by lia.
  split; [exact H1|]. split; [exact H2|]. split; [exact H3|].
  destruct (pages_before_the_first Sample.now0
              (mkRequest JUndefined [] [("type", "pending"); ("page", "0")])
              SampleHidden.store "0" 0 H1 H2 H3) as (Hd & Hz & _).
  split.
  - apply (Hd "pending" (statusIs "pending")); reflexivity.
  - apply Hz. reflexivity.
Defined.

(** ** An entry that was created is read back *)

Section RoundTrip.

Variable castObjectId : JValue -> option string.
Variable newObjectId : Z -> string.
Variable entrySaveError : Store -> JValue -> option string.
Variable stats : Store -> Outcome unit * JValue.

(** What a creation that answers 201 has stored. *)
Lemma createNewentry_stored now req s resp s' :
  createNewentry castObjectId newObjectId entrySaveError stats now req s
  = (resp, s') ->
  status resp = 201 ->
  exists saved,
    getField "data" (json resp) = saved
    /\ entries s' = (entries s ++ [saved])%list
    /\ getField "_id" saved = JStr (newObjectId (idSeed s)).
Proof.
  unfold createNewentry, tryCatch, bind, destructure, member, findById,
    lift, ReceiptNumber_findOne, receiptRecord_save, Entry_new, newDocument, newEntryFields,
    Entry_insert, runManualUpdateStats, ret, throw.
  intros H Hst.
  break_in H; inversion H; subst; simpl in Hst; try discriminate Hst.
  clear H Hst.
  eexists. simpl. repeat split; reflexivity.
Qed.

(** An entry that was created under an id that was free is read back by
    that id as the creation answered it, but for the tax of its line
    items, which is the tax that the catalogue has for their names. *)
Theorem created_entry_is_read_back catalogue now req s resp s' items req' :
  createNewentry castObjectId newObjectId entrySaveError stats now req s
  = (resp, s') ->
  status resp = 201 ->
  getPath ["data"; "products"] (json resp) = JArr items ->
  forallb plainItem items = true ->
  castObjectId (JStr (newObjectId (idSeed s)))
  = Some (newObjectId (idSeed s)) ->
  findFirst (hasId (newObjectId (idSeed s))) (entries s) = None ->
  paramId req' = newObjectId (idSeed s) ->
  exists items',
    getEntryById castObjectId catalogue req' s'
    = Some (mkResponse 200
              (JObj [("success", JBool true);
                     ("message", JStr "Entry fetched successfully");
                     ("data",
                      setField "products" (JArr items')
                        (getField "data" (json resp)))]))
    /\ Forall2
         (fun item item' =>
            exists name,
              getField "productName" item = JStr name
              /\ item' = setField "tax" (catalogueTax name catalogue) item)
         items items'.
Proof.
  intros Hcreate Hst Hproducts Hplain Hcast Hfresh Hid.
  destruct (createNewentry_stored now req s resp s' Hcreate Hst)
    as (saved & Hdata & Hentries & Hsaved).
  cbn [getPath] in Hproducts. rewrite Hdata in Hproducts. rewrite Hdata.
  assert (Hfound : findFirst (hasId (newObjectId (idSeed s))) (entries s')
                   = Some saved).
  { rewrite Hentries, findFirst_app, Hfresh. cbn [findFirst].
    unfold hasId. now rewrite Hsaved, String.eqb_refl. }
  destruct (productNames_plain items Hplain) as (names & Hnames & Hall).
  destruct (mapWithTax_plain catalogue names _ items eq_refl Hall Hplain)
    as (items' & Hmap & Hjoin).
  exists items'. split; [|exact Hjoin].
  unfold getEntryById, findById.
  rewrite Hid, Hcast. cbn [fst]. rewrite Hfound, Hproducts, Hnames.
  cbv zeta. now rewrite Hmap.
Qed.

End RoundTrip.

(** The sample entry is read back with the catalogue of the sample. *)
Lemma created_entry_is_read_back_witness :
  exists items',
    getEntryById Sample.castObjectId SampleCatalogue.catalogue
      SampleToggle.toggleReq (snd Sample.created)
    = Some (mkResponse 200
              (JObj [("success", JBool true);
                     ("message", JStr "Entry fetched successfully");
                     ("data",
                      setField "products" (JArr items')
                        (getField "data" (json (fst Sample.created))))]))
    /\ Forall2
         (fun item item' =>
            exists name,
              getField "productName" item = JStr name
              /\ item'
                 = setField "tax"
                     (catalogueTax name SampleCatalogue.catalogue) item)
         SampleCatalogue.items items'.
Proof.
  apply (created_entry_is_read_back Sample.castObjectId Sample.newObjectId
           Sample.entrySaveError (manualUpdateStats Sample.recompute)
           SampleCatalogue.catalogue Sample.now0 Sample.createReq
           Sample.store0 (fst Sample.created) (snd Sample.created)
           SampleCatalogue.items SampleToggle.toggleReq);
    vm_compute; reflexivity.
Defined.

(** ** What an update leaves alone *)





Section FrameFacts.

Variable castObjectId : JValue -> option string.
Variable updateError : Store -> JValue -> option string.
Variable stats : Store -> Outcome unit * JValue.


End FrameFacts.


(** ** A toggle and the listing *)

Lemma replaceFirst_split (p : JValue -> bool) x l d :
  findFirst p l = Some d ->
  exists before after,
    l = (before ++ d :: after)%list
    /\ replaceFirst p x l = (before ++ x :: after)%list.
Proof.
  induction l as [|y l IH]; simpl; [discriminate|].
  destruct (p y) eqn:E; intros H.
  - injection H as <-. now exists [], l.
  - destruct (IH H) as (before & after & -> & Hr).
    exists (y :: before), after. simpl. now rewrite Hr.
Qed.

Lemma unique_id_elsewhere oid old before after d :
  NoDup (map (getField "_id") (before ++ old :: after)) ->
  hasId oid old = true ->
  In d (before ++ after) -> hasId oid d = false.
Proof.
  intros Hnd Hold Hin.
  destruct (hasId oid d) eqn:Hd; [exfalso | reflexivity].
  apply hasId_id in Hold. apply hasId_id in Hd.
  rewrite map_app in Hnd. cbn [map] in Hnd.
  apply NoDup_remove_2 in Hnd. apply Hnd.
  rewrite <- map_app, Hold, <- Hd. now apply in_map.
Qed.

Lemma isVisible_visibleOf d : isVisible d = true -> visibleOf d = true.
Proof.
  unfold isVisible, visibleOf.
  destruct (getField "visible" d) as [| |[]| | | | |]; try discriminate;
    reflexivity.
Qed.

Section ToggleListing.

Variable castObjectId : JValue -> option string.
Variable entrySaveError : Store -> JValue -> option string.

(** A toggle that answers 200, in a store where ids are unique, moves
    one entry in or out of the listing that is served by default: after
    hiding an entry the listing of [getAllEntry] holds what it held
    without that entry, and after showing one it holds what it held and
    that entry. *)
Theorem toggle_hides_and_shows now req req0 s resp s' :
  toggleVisibility castObjectId entrySaveError now req s = (resp, s') ->
  status resp = 200 ->
  NoDup (map (getField "_id") (entries s)) ->
  showAllIsTrue (lookupParam "showAll" (query req0)) = false ->
  exists oid old new,
    castObjectId (JStr (paramId req)) = Some oid
    /\ findFirst (hasId oid) (entries s) = Some old
    /\ findFirst (hasId oid) (entries s') = Some new
    /\ (visibleOf old = true ->
        forall d,
          In d (dataOf (getAllEntry req0 s'))
          <-> In d (dataOf (getAllEntry req0 s)) /\ hasId oid d = false)
    /\ (visibleOf old = false ->
        forall d,
          In d (dataOf (getAllEntry req0 s'))
          <-> In d (dataOf (getAllEntry req0 s)) \/ d = new).
Proof.
  intros H Hst Hnd Hshow.
  destruct (toggleVisibility_toggled castObjectId entrySaveError now req s
              resp s' H Hst) as (oid & old & Hoid & Hold & Hs' & _).
  set (new := setField "updatedAt" (JDate now)
                (setField "visible" (JBool (negb (visibleOf old))) old)) in *.
  pose proof (findFirst_holds _ _ _ Hold) as Hid.
  destruct (hasId_object _ _ Hid) as (fs & Hfs).
  destruct (toggled_fields now old) as [Hv Hk]; [now exists fs|].
  cbv zeta in Hv, Hk. fold new in Hv, Hk.
  assert (Hidn : hasId oid new = true).
  { unfold hasId in *. rewrite Hk by discriminate. exact Hid. }
  destruct (replaceFirst_split (hasId oid) new _ _ Hold)
    as (before & after & Hl & Hr).
  assert (Hentries : entries s' = (before ++ new :: after)%list).
  { rewrite Hs'. cbn [entries withEntries]. exact Hr. }
  assert (Helse : forall d, In d (before ++ after)%list ->
                            hasId oid d = false).
  { intros d Hd. rewrite Hl in Hnd.
    exact (unique_id_elsewhere oid old before after d Hnd Hid Hd). }
  assert (Hlist : forall st d,
            In d (dataOf (getAllEntry req0 st))
            <-> In d (entries st) /\ isVisible d = true).
  { intros st d. unfold getAllEntry, dataOf. cbn [json getField lookupField
      String.eqb Ascii.eqb Bool.eqb].
    rewrite sortDesc_In, filter_In. unfold visibilityFilter.
    now rewrite Hshow. }
  assert (Hin : forall x d,
            In d (before ++ x :: after)%list
            <-> d = x \/ In d (before ++ after)%list).
  { intros x d. rewrite !in_app_iff. cbn [In]. intuition congruence. }
  exists oid, old, new.
  split; [exact Hoid|]. split; [exact Hold|]. split.
  { rewrite Hs'. cbn [entries withEntries].
    now apply (findFirst_replaceFirst _ new _ old). }
  split.
  - intros Hvis d. rewrite !Hlist, Hentries, Hl, !Hin.
    assert (Hnew : isVisible new = false).
    { unfold isVisible. now rewrite Hv, Hvis. }
    split.
    + intros [[-> | Hd] Hd']; [congruence|].
      split; [split; [now right | exact Hd'] | now apply Helse].
    + intros [[[-> | Hd] Hd'] Hno]; [congruence|].
      split; [now right | exact Hd'].
  - intros Hvis d. rewrite !Hlist, Hentries, Hl, !Hin.
    assert (Hnew : isVisible new = true).
    { unfold isVisible. now rewrite Hv, Hvis. }
    assert (Hold' : isVisible old = false).
    { destruct (isVisible old) eqn:E; [|reflexivity].
      apply isVisible_visibleOf in E. congruence. }
    split.
    + intros [[-> | Hd] Hd']; [now right|].
      left. split; [now right | exact Hd'].
    + intros [[[-> | Hd] Hd'] | ->]; [congruence | | ].
      * split; [now right | exact Hd'].
      * split; [now left | exact Hnew].
Qed.

End ToggleListing.

(** The sample entry is hidden: the listing is empty afterwards. *)
Lemma toggle_hides_and_shows_witness :
  status (fst SampleToggle.hidden) = 200
  /\ NoDup (map (getField "_id") (entries (snd Sample.created)))
  /\ exists oid old new,
       Sample.castObjectId (JStr (paramId SampleToggle.toggleReq)) = Some oid
       /\ findFirst (hasId oid) (entries (snd Sample.created)) = Some old
       /\ findFirst (hasId oid) (entries (snd SampleToggle.hidden)) = Some new
       /\ (visibleOf old = true ->
           forall d,
             In d (dataOf (getAllEntry SampleHidden.plain
                             (snd SampleToggle.hidden)))
             <-> In d (dataOf (getAllEntry SampleHidden.plain
                                 (snd Sample.created)))
                 /\ hasId oid d = false)
       /\ (visibleOf old = false ->
           forall d,
             In d (dataOf (getAllEntry SampleHidden.plain
                             (snd SampleToggle.hidden)))
             <-> In d (dataOf (getAllEntry SampleHidden.plain
                                 (snd Sample.created)))
                 \/ d = new).
Proof.
  assert (H1 : status (fst SampleToggle.hidden) = 200)
    by (vm_compute; reflexivity).
  assert (H2 : NoDup (map (getField "_id") (entries (snd Sample.created)))).
  { vm_compute. constructor; [intros [] | constructor]. }
  split; [exact H1|]. split; [exact H2|].
  apply (toggle_hides_and_shows Sample.castObjectId Sample.entrySaveError
           SampleUpdate.now1 SampleToggle.toggleReq SampleHidden.plain
           (snd Sample.created) (fst SampleToggle.hidden)
           (snd SampleToggle.hidden));
    [apply surjective_pairing | exact H1 | exact H2 | reflexivity].
Defined.

(** ** Line items that are no array *)

Lemma defaultProducts_throws products :
  truthy products = true ->
  (forall items, products <> JArr items) ->
  exists m, defaultProducts products = Throw m.
Proof.
  intros Ht Hna. unfold defaultProducts. rewrite Ht.
  destruct products; try (eexists; reflexivity).
  now elim (Hna items).
Qed.

Section ProductFacts.

Variable castObjectId : JValue -> option string.
Variable newObjectId : Z -> string.
Variable entrySaveError : Store -> JValue -> option string.
Variable updateError : Store -> JValue -> option string.
Variable stats : Store -> Outcome unit * JValue.

(** A body whose [products] is truthy but no array (a text, a number, an
    object) never reaches the store: [updateEntry] answers 400, and
    [createNewentry] answers 400, or 404 when the customer is not found
    first; in a creation the failure comes before the receipt number is
    taken, so the counter stays where it was. *)
Theorem products_that_are_no_array_are_refused now req s :
  truthy (getField "products" (body req)) = true ->
  (forall items, getField "products" (body req) <> JArr items) ->
  (exists m, updateEntry castObjectId updateError stats now req s
             = (failure 400 m, s))
  /\ snd (createNewentry castObjectId newObjectId entrySaveError stats
            now req s) = s
  /\ (status (fst (createNewentry castObjectId newObjectId entrySaveError
                     stats now req s)) = 400
      \/ status (fst (createNewentry castObjectId newObjectId entrySaveError
                        stats now req s)) = 404).
Proof.
  intros Ht Hna.
  destruct (defaultProducts_throws _ Ht Hna) as (m & Hm).
  assert (Hbody : isNullish (body req) = false).
  { destruct (body req); try reflexivity; discriminate Ht. }
  split.
  - exists m.
    unfold updateEntry, tryCatch, bind, destructure, lift, ret, throw.
    now rewrite Hbody, Hm.
  - unfold createNewentry, tryCatch, bind, destructure, member, findById,
      lift, ret, throw.
    rewrite Hbody, Hm.
    break_goal; split; try reflexivity; simpl; tauto.
Qed.

End ProductFacts.

Lemma products_that_are_no_array_are_refused_witness :
  truthy (getField "products"
            (body (mkRequest
                     (JObj [("customer", JStr "Asha");
                            ("customerId", JStr "c1");
                            ("products", JStr "two shirts");
                            ("pickupAndDelivery",
                             JObj [("expectedDeliveryDate",
                                    JDate 1737000000000)])])
                     [("id", "entry0")] []))) = true
  /\ snd (createNewentry Sample.castObjectId Sample.newObjectId
            Sample.entrySaveError (manualUpdateStats Sample.recompute)
            Sample.now0
            (mkRequest
               (JObj [("customer", JStr "Asha");
                      ("customerId", JStr "c1");
                      ("products", JStr "two shirts");
                      ("pickupAndDelivery",
                       JObj [("expectedDeliveryDate",
                              JDate 1737000000000)])])
               [("id", "entry0")] [])
            Sample.store0) = Sample.store0.
Proof.
  assert (H1 : truthy (getField "products"
                         (body (mkRequest
                                  (JObj [("customer", JStr "Asha");
                                         ("customerId", JStr "c1");
                                         ("products", JStr "two shirts");
                                         ("pickupAndDelivery",
                                          JObj [("expectedDeliveryDate",
                                                 JDate 1737000000000)])])
                                  [("id", "entry0")] []))) = true)
    by reflexivity.
  split; [exact H1|].
  apply (products_that_are_no_array_are_refused Sample.castObjectId
           Sample.newObjectId Sample.entrySaveError Sample.updateError
           (manualUpdateStats Sample.recompute) Sample.now0 _ Sample.store0
           H1).
  intros items. discriminate.
Defined.
